(** * Pharmacovigilance monitor: the analytic core of [forecasting.py]

    A shallow embedding of the statistical functions of the repository
    ([detect_anomalies], [detect_safety_signals], [compare_drug_trends],
    [generate_summary_stats], [train_prophet_model], [generate_forecast])
    and of the analysis block of [run_monitoring_pipeline], followed by the
    properties of the design document that concern them.

    Modelling conventions.
    - A pandas [DataFrame] is an index (row labels) and an ordered list of
      named, typed columns.  Frames are Python objects: they live in a heap
      and are passed by reference, so that [df['mean'] = ...] is visible to
      every holder of [df].  The properties are stated for any frame that
      holds the series, fresh or already written on by a detector.
    - A Python exception is the outcome [Raised name]; the heap survives it.
    - [float64] values are [fl]: NaN, the two infinities, or a rational.
      Addition, subtraction, multiplication and division are exact on the
      rationals (binary rounding is not modelled) and follow IEEE 754 on NaN,
      infinities and division by zero; the square root is truncated to 64
      fractional bits.  [int64] columns are unbounded integers.
      The exact values stand for the floats nearest to them.  They decide a
      comparison of floats as the code does on counts below 2^52 and give
      the code's integer sums below 2^63.  Where an entry is a rounded
      float, which neighbour the code returns next to a tie depends on the
      binary rounding: the statements about such entries are made with
      [rounds_to], which holds of either neighbour.  A rolling deviation
      is computed afresh on each window (pandas updates it from one window
      to the next, with a rounding error of its own): no statement bounds
      its value on a window of two observations or more.
    - Prophet is an opaque capability: a fitting function and a prediction
      function, both of which may raise. *)

From Stdlib Require Import ZArith QArith Qabs Qround Qcanon.
From Stdlib Require Import List Sorted Bool String Ascii Lia Arith.
Import ListNotations.
Local Open Scope Z_scope.

(** ** Floating-point values *)

Module Float.

Inductive fl : Type :=
| FNaN
| FInf (negative : bool)
| FFin (q : Q).

Definition of_Q (q : Q) : fl := FFin (Qred q).
Definition of_Z (z : Z) : fl := FFin (inject_Z z).

Definition Qlt_bool (x y : Q) : bool :=
  (Qnum x * QDen y <? Qnum y * QDen x)%Z.

Definition Qsign_neg (q : Q) : bool := (Qnum q <? 0)%Z.
Definition Qis_zero (q : Q) : bool := (Qnum q =? 0)%Z.

Definition fneg (x : fl) : fl :=
  match x with
  | FNaN => FNaN
  | FInf s => FInf (negb s)
  | FFin q => of_Q (- q)
  end.

Definition fadd (x y : fl) : fl :=
  match x, y with
  | FNaN, _ | _, FNaN => FNaN
  | FInf s, FInf s' => if Bool.eqb s s' then FInf s else FNaN
  | FInf s, FFin _ | FFin _, FInf s => FInf s
  | FFin p, FFin q => of_Q (p + q)
  end.

Definition fsub (x y : fl) : fl := fadd x (fneg y).

Definition fmul (x y : fl) : fl :=
  match x, y with
  | FNaN, _ | _, FNaN => FNaN
  | FInf s, FInf s' => FInf (xorb s s')
  | FInf s, FFin q | FFin q, FInf s =>
      if Qis_zero q then FNaN else FInf (xorb s (Qsign_neg q))
  | FFin p, FFin q => of_Q (p * q)
  end.

(** Division as numpy performs it on [float64]: a non-zero value over zero
    is an infinity, zero over zero is NaN, nothing raises. *)
Definition fdiv (x y : fl) : fl :=
  match x, y with
  | FNaN, _ | _, FNaN => FNaN
  | FInf _, FInf _ => FNaN
  | FInf s, FFin q => FInf (xorb s (Qsign_neg q))
  | FFin _, FInf _ => FFin 0
  | FFin p, FFin q =>
      if Qis_zero q then
        if Qis_zero p then FNaN else FInf (Qsign_neg p)
      else of_Q (p / q)
  end.

Definition fabs (x : fl) : fl :=
  match x with
  | FNaN => FNaN
  | FInf _ => FInf false
  | FFin q => of_Q (Qabs q)
  end.

(** [x > y]; false as soon as one side is NaN. *)
Definition fgt (x y : fl) : bool :=
  match x, y with
  | FNaN, _ | _, FNaN => false
  | FInf s, FInf s' => negb s && s'
  | FInf s, FFin _ => negb s
  | FFin _, FInf s => s
  | FFin p, FFin q => Qlt_bool q p
  end.

(** [x <= y]; false as soon as one side is NaN. *)
Definition fle (x y : fl) : bool :=
  match x, y with
  | FNaN, _ | _, FNaN => false
  | FInf s, FInf s' => s || negb s'
  | FInf s, FFin _ => s
  | FFin _, FInf s => negb s
  | FFin p, FFin q => Qle_bool p q
  end.

Definition sqrt_bits : Z := 64.

(** Square root of a non-negative rational, truncated to [sqrt_bits]
    fractional bits. *)
Definition Qsqrt (q : Q) : Q :=
  Qred (Qmake (Z.sqrt ((Qnum q * 4 ^ sqrt_bits) / QDen q))
              (Z.to_pos (2 ^ sqrt_bits))).

Definition fsqrt (x : fl) : fl :=
  match x with
  | FNaN => FNaN
  | FInf s => if s then FNaN else FInf false
  | FFin q => if Qsign_neg q then FNaN else FFin (Qsqrt q)
  end.

(** Nearest integer, ties to the even one. *)
Definition Qround_half_even (q : Q) : Z :=
  let f := Qfloor q in
  let r := (q - inject_Z f)%Q in
  if Qlt_bool (1 # 2) r then f + 1
  else if Qlt_bool r (1 # 2) then f
  else if Z.even f then f else f + 1.

(** Python's [round(x, ndigits)] on a float. *)
Definition round (x : fl) (ndigits : Z) : fl :=
  match x with
  | FFin q =>
      let scale := inject_Z (10 ^ ndigits) in
      of_Q (inject_Z (Qround_half_even (q * scale)) / scale)
  | _ => x
  end.

End Float.
Export Float.


(** ** Dates

    A [ds] cell is a calendar day (the quarter-end timestamps produced by
    [resample('Q')] carry no time of day). *)

Record date : Type := mkdate { year : Z; month : Z; day : Z }.

Definition date_ltb (a b : date) : bool :=
  (year a <? year b)
  || ((year a =? year b)
      && ((month a <? month b)
          || ((month a =? month b) && (day a <? day b)))).

Definition date_leb (a b : date) : bool := negb (date_ltb b a).

Definition date_max (a b : date) : date := if date_ltb a b then b else a.
Definition date_min (a b : date) : date := if date_ltb b a then b else a.

(** Decimal digits of a non-negative number, at least [width] of them. *)
Fixpoint digits (fuel : nat) (n : Z) (acc : string) : string :=
  match fuel with
  | O => acc
  | S fuel' =>
      let acc' := String (ascii_of_nat (48 + Z.to_nat (n mod 10))) acc in
      if n / 10 =? 0 then acc' else digits fuel' (n / 10) acc'
  end.

Fixpoint zero_pad (k : nat) (s : string) : string :=
  match k with
  | O => s
  | S k' => String "0"%char (zero_pad k' s)
  end.

Definition decimal (width : nat) (n : Z) : string :=
  let s := digits 20 n EmptyString in
  zero_pad (width - String.length s) s.

(** [Timestamp.strftime('%Y-%m-%d')]. *)
Definition strftime_Ymd (d : date) : string :=
  (decimal 4 (year d) ++ "-" ++ decimal 2 (month d) ++ "-"
   ++ decimal 2 (day d))%string.

(** ** Outcomes of Python calls *)

Inductive outcome (A : Type) : Type :=
| Returned (a : A)
| Raised (exception : string).
Arguments Returned {A} a.
Arguments Raised {A} exception.

(** ** Data frames *)

Inductive column : Type :=
| ColInt (cells : list Z)
| ColFloat (cells : list fl)
| ColBool (cells : list bool)
| ColDate (cells : list date).

Record DataFrame : Type := mkDF {
  df_index : list nat;
  df_columns : list (string * column)
}.

(** [pd.DataFrame()] *)
Definition empty_frame : DataFrame := mkDF [] [].

(** [df.empty]: some axis has length 0. *)
Definition df_empty (df : DataFrame) : bool :=
  match df_index df, df_columns df with
  | [], _ | _, [] => true
  | _, _ => false
  end.

(** [len(df)] *)
Definition df_len (df : DataFrame) : nat := List.length (df_index df).

Fixpoint lookup {V : Type} (k : string) (m : list (string * V)) : option V :=
  match m with
  | [] => None
  | (k', v) :: m' => if String.eqb k' k then Some v else lookup k m'
  end.

(** Assignment to a key of an insertion-ordered mapping (a frame's columns,
    a [dict]): an existing key keeps its place, a new one goes last. *)
Fixpoint assign {V : Type} (k : string) (v : V) (m : list (string * V))
  : list (string * V) :=
  match m with
  | [] => [(k, v)]
  | (k', v') :: m' =>
      if String.eqb k' k then (k', v) :: m' else (k', v') :: assign k v m'
  end.

(** Rows kept by a boolean mask. *)
Fixpoint select {A : Type} (mask : list bool) (l : list A) : list A :=
  match mask, l with
  | b :: mask', x :: l' => if b then x :: select mask' l' else select mask' l'
  | _, _ => []
  end.

Definition col_select (mask : list bool) (c : column) : column :=
  match c with
  | ColInt l => ColInt (select mask l)
  | ColFloat l => ColFloat (select mask l)
  | ColBool l => ColBool (select mask l)
  | ColDate l => ColDate (select mask l)
  end.

(** A frame with column [name] set to [c]. *)
Definition set_column (name : string) (c : column) (df : DataFrame)
  : DataFrame :=
  mkDF (df_index df) (assign name c (df_columns df)).

(** [df[mask]] (the result is a new frame, as [.copy()] then guarantees). *)
Definition df_select (mask : list bool) (df : DataFrame) : DataFrame :=
  mkDF (select mask (df_index df))
       (map (fun nc => (fst nc, col_select mask (snd nc))) (df_columns df)).

Fixpoint zip_with {A B C : Type} (f : A -> B -> C) (l : list A) (l' : list B)
  : list C :=
  match l, l' with
  | a :: l, b :: l' => f a b :: zip_with f l l'
  | _, _ => []
  end.

(** ** The heap of frames and the monad of Python code *)

Definition ref : Type := nat.
Bind Scope nat_scope with ref.
Definition heap : Type := list DataFrame.

Definition Py (A : Type) : Type := heap -> outcome A * heap.

Definition ret {A : Type} (a : A) : Py A := fun h => (Returned a, h).

Definition raise {A : Type} (e : string) : Py A := fun h => (Raised e, h).

Definition bind {A B : Type} (c : Py A) (k : A -> Py B) : Py B :=
  fun h =>
    match c h with
    | (Returned a, h') => k a h'
    | (Raised e, h') => (Raised e, h')
    end.

Declare Scope py_scope.
Delimit Scope py_scope with py.
Notation "x <- c ;; k" := (bind c (fun x => k))
  (at level 100, c at next level, right associativity) : py_scope.
Notation "c ;; k" := (bind c (fun _ => k))
  (at level 100, right associativity) : py_scope.
Local Open Scope py_scope.

Fixpoint heap_update (h : heap) (r : ref) (df : DataFrame) : heap :=
  match h, r with
  | [], _ => []
  | _ :: h', O => df :: h'
  | d :: h', S r' => d :: heap_update h' r' df
  end.

Definition deref (r : ref) : Py DataFrame :=
  fun h =>
    match nth_error h r with
    | Some df => (Returned df, h)
    | None => (Raised "ReferenceError", h)
    end.

(** [d[name]] on a frame at hand.  The analysis reads [y] as integers,
    [ds] as dates and its own working columns as what it wrote; a column
    of another type ends the call. *)
Definition item (d : DataFrame) (name : string) : Py column :=
  match lookup name (df_columns d) with
  | Some c => ret c
  | None => raise "KeyError"
  end.

Definition item_int (d : DataFrame) (name : string) : Py (list Z) :=
  c <- item d name ;;
  match c with ColInt l => ret l | _ => raise "TypeError" end.

Definition item_float (d : DataFrame) (name : string) : Py (list fl) :=
  c <- item d name ;;
  match c with ColFloat l => ret l | _ => raise "TypeError" end.

Definition item_bool (d : DataFrame) (name : string) : Py (list bool) :=
  c <- item d name ;;
  match c with ColBool l => ret l | _ => raise "TypeError" end.

Definition item_date (d : DataFrame) (name : string) : Py (list date) :=
  c <- item d name ;;
  match c with ColDate l => ret l | _ => raise "TypeError" end.

(** [df[name]] through a reference: the column as it is now. *)
Definition getitem_int (r : ref) (name : string) : Py (list Z) :=
  d <- deref r ;; item_int d name.

Definition getitem_float (r : ref) (name : string) : Py (list fl) :=
  d <- deref r ;; item_float d name.

Definition getitem_bool (r : ref) (name : string) : Py (list bool) :=
  d <- deref r ;; item_bool d name.

Definition getitem_date (r : ref) (name : string) : Py (list date) :=
  d <- deref r ;; item_date d name.

(** [s.iloc[0]] and [s.iloc[-1]] *)
Definition iloc_first {A : Type} (l : list A) : Py A :=
  match l with
  | [] => raise "IndexError"
  | x :: _ => ret x
  end.

Definition iloc_last {A : Type} (l : list A) : Py A :=
  match l with
  | [] => raise "IndexError"
  | x :: l' => ret (last l' x)
  end.

Fixpoint position (label : nat) (labels : list nat) : option nat :=
  match labels with
  | [] => None
  | l :: labels' =>
      if Nat.eqb l label then Some O
      else option_map S (position label labels')
  end.

(** [df.loc[label, name]] for a date column. *)
Definition loc_date (r : ref) (label : nat) (name : string) : Py date :=
  d <- deref r ;;
  ds <- item_date d name ;;
  match position label (df_index d) with
  | None => raise "KeyError"
  | Some p =>
      match nth_error ds p with
      | Some x => ret x
      | None => raise "KeyError"
      end
  end.

Definition of_option {A : Type} (e : string) (o : option A) : Py A :=
  match o with
  | Some a => ret a
  | None => raise e
  end.

(** [df[name] = c]: the frame object itself is changed. *)
Definition setitem (r : ref) (name : string) (c : column) : Py unit :=
  df <- deref r ;;
  fun h => (Returned tt, heap_update h r (set_column name c df)).

(** ** pandas series operations used by the analysis *)

Module Series.

Definition sum (ys : list Z) : Z := fold_right Z.add 0 ys.

Definition fsum (xs : list fl) : fl := fold_left fadd xs (of_Z 0).

Definition count (ys : list Z) : fl := of_Z (Z.of_nat (List.length ys)).

(** [mean()]: NaN on no observation. *)
Definition mean (ys : list Z) : fl := fdiv (of_Z (sum ys)) (count ys).

(** [std()], with pandas' default [ddof=1]: NaN below two observations. *)
Definition var (ys : list Z) : fl :=
  if (List.length ys <=? 1)%nat then FNaN
  else
    let m := mean ys in
    let sq := map (fun y => let d := fsub (of_Z y) m in fmul d d) ys in
    fdiv (fsum sq) (fsub (count ys) (of_Z 1)).

Definition std (ys : list Z) : fl := fsqrt (var ys).

(** The trailing window ending at position [i]. *)
Definition window_at (window : nat) (ys : list Z) (i : nat) : list Z :=
  skipn (S i - window) (firstn (S i) ys).

(** [rolling(window, min_periods).agg()] *)
Definition rolling (window min_periods : nat) (agg : list Z -> fl)
    (ys : list Z) : list fl :=
  map (fun i =>
         let w := window_at window ys i in
         if (List.length w <? min_periods)%nat then FNaN else agg w)
      (seq 0 (List.length ys)).

(** [shift(1)]: the previous row's value, NaN on the first row. *)
Definition shift (ys : list Z) : list fl :=
  match ys with
  | [] => []
  | _ :: _ => FNaN :: map of_Z (removelast ys)
  end.

(** [diff()] *)
Definition diff (ys : list Z) : list fl :=
  zip_with fsub (map of_Z ys) (shift ys).

(** [pct_change()]: [y / y.shift(1) - 1]. *)
Definition pct_change (ys : list Z) : list fl :=
  map (fun q => fsub q (of_Z 1)) (zip_with fdiv (map of_Z ys) (shift ys)).

(** [tail(n)] *)
Definition tail {A : Type} (n : nat) (l : list A) : list A :=
  skipn (List.length l - n) l.

(** [max()] of a non-empty integer series. *)
Definition max (ys : list Z) : option Z :=
  match ys with
  | [] => None
  | y :: ys' => Some (fold_left Z.max ys' y)
  end.

(** [idxmax()]: the label of the first row holding the maximum. *)
Fixpoint idxmax_from (labels : list nat) (ys : list Z) (best : nat) (m : Z)
  : nat :=
  match labels, ys with
  | l :: labels', y :: ys' =>
      if m <? y then idxmax_from labels' ys' l y
      else idxmax_from labels' ys' best m
  | _, _ => best
  end.

Definition idxmax (labels : list nat) (ys : list Z) : option nat :=
  match labels, ys with
  | l :: labels', y :: ys' => Some (idxmax_from labels' ys' l y)
  | _, _ => None
  end.

(** [min()] and [max()] of a date column. *)
Definition dmax (ds : list date) : option date :=
  match ds with
  | [] => None
  | d :: ds' => Some (fold_left date_max ds' d)
  end.

Definition dmin (ds : list date) : option date :=
  match ds with
  | [] => None
  | d :: ds' => Some (fold_left date_min ds' d)
  end.

End Series.

(** ** [forecasting.py] *)

Local Open Scope string_scope.

(** [detect_safety_signals(df, min_reports)] *)
Definition detect_safety_signals (df : ref) (min_reports : Z) : Py DataFrame :=
  d <- deref df ;;
  if df_empty d || (df_len d <? 2)%nat then ret empty_frame
  else
    y <- getitem_int df "y" ;;
    setitem df "pct_change"
      (ColFloat (map (fun p => fmul p (of_Z 100)) (Series.pct_change y))) ;;
    y <- getitem_int df "y" ;;
    setitem df "abs_change" (ColFloat (Series.diff y)) ;;
    abs_change <- getitem_float df "abs_change" ;;
    pct_change <- getitem_float df "pct_change" ;;
    let mask :=
      zip_with andb
        (map (fun a => fgt a (of_Z min_reports)) abs_change)
        (map (fun p => fgt p (of_Z 50)) pct_change) in
    d <- deref df ;;
    ret (df_select mask d).

(** The guard added to the rolling deviation, [1e-10]. *)
Definition epsilon : fl := of_Q (1 # 10000000000).

(** [detect_anomalies(df, threshold)] *)
Definition detect_anomalies (df : ref) (threshold : fl) : Py DataFrame :=
  d <- deref df ;;
  if df_empty d || (df_len d <? 3)%nat then ret empty_frame
  else
    y <- getitem_int df "y" ;;
    setitem df "mean" (ColFloat (Series.rolling 4 1 Series.mean y)) ;;
    y <- getitem_int df "y" ;;
    setitem df "std" (ColFloat (Series.rolling 4 1 Series.std y)) ;;
    y <- getitem_int df "y" ;;
    mean <- getitem_float df "mean" ;;
    std <- getitem_float df "std" ;;
    setitem df "z_score"
      (ColFloat (zip_with fdiv
                   (zip_with fsub (map of_Z y) mean)
                   (map (fun s => fadd s epsilon) std))) ;;
    z_score <- getitem_float df "z_score" ;;
    setitem df "is_anomaly"
      (ColBool (map (fun z => fgt (fabs z) threshold) z_score)) ;;
    is_anomaly <- getitem_bool df "is_anomaly" ;;
    d <- deref df ;;
    ret (df_select is_anomaly d).

(** [int(x)] on a scalar of an integer column. *)
Definition int_of (z : Z) : Z := z.

(** Values held by the dictionaries the analysis builds. *)
Inductive value : Type :=
| VInt (z : Z)
| VFloat (x : fl)
| VStr (s : string)
| VDate (d : date)
| VNone.

Definition dict : Type := list (string * value).

(** One iteration of the loop of [compare_drug_trends]. *)
Definition compare_one (drug : string) (df : ref) (comparison : list dict)
  : Py (list dict) :=
  d <- deref df ;;
  if df_empty d then ret comparison
  else
    d <- deref df ;;
    y <- getitem_int df "y" ;;
    let recent_trend :=
      if (4 <=? df_len d)%nat then Series.mean (Series.tail 4 y)
      else Series.mean y in
    y <- getitem_int df "y" ;;
    let total_reports := Series.sum y in
    d <- deref df ;;
    peak_quarter <-
      (if negb (df_empty d) then
         y <- getitem_int df "y" ;;
         d <- deref df ;;
         label <- of_option "ValueError" (Series.idxmax (df_index d) y) ;;
         quarter <- loc_date df label "ds" ;;
         ret (VDate quarter)
       else ret VNone) ;;
    d <- deref df ;;
    peak_reports <-
      (if negb (df_empty d) then
         y <- getitem_int df "y" ;;
         peak <- of_option "ValueError" (Series.max y) ;;
         ret (int_of peak)
       else ret 0%Z) ;;
    ret (comparison ++
         [[("drug", VStr drug);
           ("total_reports", VInt (int_of total_reports));
           ("recent_avg_quarterly", VFloat (round recent_trend 1));
           ("peak_quarter", peak_quarter);
           ("peak_reports", VInt peak_reports)]])%list.

Fixpoint compare_loop (items : list (string * ref)) (comparison : list dict)
  : Py (list dict) :=
  match items with
  | [] => ret comparison
  | (drug, df) :: items' =>
      comparison' <- compare_one drug df comparison ;;
      compare_loop items' comparison'
  end.

(** [compare_drug_trends(data_dict)]; the returned frame is held as the
    list of row dictionaries it is built from. *)
Definition compare_drug_trends (data_dict : list (string * ref))
  : Py (list dict) :=
  compare_loop data_dict [].

(** [generate_summary_stats(df, forecast)] *)
Definition generate_summary_stats (df : ref) (forecast : DataFrame) : Py dict :=
  d <- deref df ;;
  if df_empty d then ret []
  else
    y <- getitem_int df "y" ;;
    let total := Series.sum y in
    y <- getitem_int df "y" ;;
    let avg := round (Series.mean y) 2 in
    y <- getitem_int df "y" ;;
    let sd := round (Series.std y) 2 in
    y <- getitem_int df "y" ;;
    last <- iloc_last y ;;
    y <- getitem_int df "y" ;;
    first <- iloc_first y ;;
    let trend := if (first <? last)%Z then "increasing" else "decreasing" in
    d <- deref df ;;
    recent <-
      (if negb (df_empty d) then
         y <- getitem_int df "y" ;;
         last <- iloc_last y ;;
         ret (int_of last)
       else ret 0%Z) ;;
    d <- deref df ;;
    data_start <-
      (if negb (df_empty d) then
         ds <- getitem_date df "ds" ;;
         first_day <- of_option "ValueError" (Series.dmin ds) ;;
         ret (VStr (strftime_Ymd first_day))
       else ret VNone) ;;
    d <- deref df ;;
    data_end <-
      (if negb (df_empty d) then
         ds <- getitem_date df "ds" ;;
         last_day <- of_option "ValueError" (Series.dmax ds) ;;
         ret (VStr (strftime_Ymd last_day))
       else ret VNone) ;;
    let stats : dict :=
      [("total_reports", VInt (int_of total));
       ("avg_quarterly_reports", VFloat avg);
       ("std_quarterly_reports", VFloat sd);
       ("trend", VStr trend);
       ("recent_quarter_reports", VInt recent);
       ("data_start", data_start);
       ("data_end", data_end)] in
    if df_empty forecast then ret stats
    else
      fds <- item_date forecast "ds" ;;
      ds <- getitem_date df "ds" ;;
      horizon <- of_option "ValueError" (Series.dmax ds) ;;
      let future_forecast :=
        df_select (map (fun t => date_ltb horizon t) fds) forecast in
      if df_empty future_forecast then ret stats
      else
        yhat <- item_float future_forecast "yhat" ;;
        next <- iloc_first yhat ;;
        let stats :=
          assign "forecast_next_quarter" (VFloat (round next 1)) stats in
        yhat_upper <- item_float future_forecast "yhat_upper" ;;
        upper <- iloc_first yhat_upper ;;
        let stats :=
          assign "forecast_upper_bound" (VFloat (round upper 1)) stats in
        yhat_lower <- item_float future_forecast "yhat_lower" ;;
        lower <- iloc_first yhat_lower ;;
        let stats :=
          assign "forecast_lower_bound" (VFloat (round lower 1)) stats in
        ret stats.

(** The entries of the configuration the analysis reads. *)
Record config : Type := mkconfig {
  anomaly_threshold : fl;
  min_reports_for_signal : Z;
  forecast_horizon_quarters : Z;
  prophet_changepoint_prior : fl
}.

(** What one run of the analysis hands to its caller. *)
Record bundle : Type := mkbundle {
  b_forecast : DataFrame;
  b_anomalies : DataFrame;
  b_signals : DataFrame;
  b_summary : dict
}.

Section Prophet.

(** The forecasting library: a fitted model, [Prophet(...).fit(df)] and
    [model.predict(model.make_future_dataframe(periods, freq='Q'))].  The
    library reads the frame it is given and leaves it as it is. *)
Variable Model : Type.
Variable prophet_fit : DataFrame -> fl -> outcome Model.
Variable prophet_predict : Model -> Z -> outcome DataFrame.

Definition call {A : Type} (o : outcome A) : Py A := fun h => (o, h).

(** [train_prophet_model(df, config)]; [None] is the Python [None]. *)
Definition train_prophet_model (df : ref) (cfg : config) : Py (option Model) :=
  d <- deref df ;;
  if df_empty d || (df_len d <? 2)%nat then ret None
  else
    model <- call (prophet_fit d (prophet_changepoint_prior cfg)) ;;
    ret (Some model).

(** [generate_forecast(model, periods)] *)
Definition generate_forecast (model : option Model) (periods : Z)
  : Py DataFrame :=
  match model with
  | None => ret empty_frame
  | Some m => call (prophet_predict m periods)
  end.

(** The analysis block of [run_monitoring_pipeline] (and of [main]):
    everything between data collection and rendering.  [None] is the
    branch taken when no adverse-event data came back. *)
Definition run_analysis (df : ref) (cfg : config) : Py (option bundle) :=
  d <- deref df ;;
  if df_empty d then ret None
  else
    model <- train_prophet_model df cfg ;;
    forecast <- generate_forecast model (forecast_horizon_quarters cfg) ;;
    anomalies <- detect_anomalies df (anomaly_threshold cfg) ;;
    signals <- detect_safety_signals df (min_reports_for_signal cfg) ;;
    summary <- generate_summary_stats df forecast ;;
    ret (Some (mkbundle forecast anomalies signals summary)).

End Prophet.

(** ** Quarterly series as frames *)

(** A quarterly series: one [(period, count)] pair per quarter. *)
Definition series : Type := list (date * Z).

Definition periods (qs : series) : list date := map fst qs.
Definition counts (qs : series) : list Z := map snd qs.

(** The frame [fetch_fda_adverse_events] returns for a series: columns
    [ds] and [y] under a fresh [RangeIndex]. *)
Definition frame_of (qs : series) : DataFrame :=
  mkDF (seq 0 (List.length qs))
       [("ds", ColDate (periods qs)); ("y", ColInt (counts qs))].

(** One point of a forecast, and the frame [predict] returns for them. *)
Record ForecastPoint : Type := mkpoint {
  fp_ds : date;
  fp_yhat : fl;
  fp_yhat_lower : fl;
  fp_yhat_upper : fl
}.

Definition forecast_frame (fc : list ForecastPoint) : DataFrame :=
  mkDF (seq 0 (List.length fc))
       [("ds", ColDate (map fp_ds fc));
        ("yhat", ColFloat (map fp_yhat fc));
        ("yhat_lower", ColFloat (map fp_yhat_lower fc));
        ("yhat_upper", ColFloat (map fp_yhat_upper fc))].

(** ** Vocabulary of the properties *)

(** A frame holds a series when its rows are labelled 0, 1, ... and its
    [ds] and [y] columns are the periods and the counts of the series.  It
    may hold other columns: the frame [fetch_fda_adverse_events] returns
    holds its series, and still does after the detectors have written
    their working columns on it. *)
Definition holds_series (d : DataFrame) (qs : series) : Prop :=
  df_index d = seq 0 (List.length qs)
  /\ lookup "ds" (df_columns d) = Some (ColDate (periods qs))
  /\ lookup "y" (df_columns d) = Some (ColInt (counts qs)).

(** The count of period [i] of a series (0 out of range). *)
Definition count_at (qs : series) (i : nat) : Z := nth i (counts qs) 0%Z.

(** [count_i - count_{i-1}] *)
Definition absolute_change (qs : series) (i : nat) : Z :=
  (count_at qs i - count_at qs (i - 1))%Z.

(** [100 * (cur - prev) / prev > 50] on a positive base; on a zero base the
    percentage is infinite as soon as the count rose. *)
Definition percent_change_above_50 (prev cur : Z) : Prop :=
  (0 < prev /\ 50 * prev < 100 * (cur - prev))%Z \/ (prev = 0 /\ 0 < cur)%Z.

(** The two columns [detect_safety_signals] computes from the counts. *)
Definition pct_changes (ys : list Z) : list fl :=
  map (fun p => fmul p (of_Z 100)) (Series.pct_change ys).

Definition abs_changes (ys : list Z) : list fl := Series.diff ys.

(** The mask [(df['abs_change'] > min_reports) & (df['pct_change'] > 50)]. *)
Definition signal_mask (ys : list Z) (min_reports : Z) : list bool :=
  zip_with andb
    (map (fun a => fgt a (of_Z min_reports)) (abs_changes ys))
    (map (fun p => fgt p (of_Z 50)) (pct_changes ys)).

(** A frame once [detect_safety_signals] has gone past its guard. *)
Definition with_signal_columns (d : DataFrame) (ys : list Z) : DataFrame :=
  set_column "abs_change" (ColFloat (abs_changes ys))
    (set_column "pct_change" (ColFloat (pct_changes ys)) d).

(** The four columns [detect_anomalies] computes from the counts. *)
Definition rolling_means (ys : list Z) : list fl :=
  Series.rolling 4 1 Series.mean ys.

Definition rolling_stds (ys : list Z) : list fl :=
  Series.rolling 4 1 Series.std ys.

Definition z_scores (ys : list Z) : list fl :=
  zip_with fdiv
    (zip_with fsub (map of_Z ys) (rolling_means ys))
    (map (fun s => fadd s epsilon) (rolling_stds ys)).

Definition anomaly_mask (ys : list Z) (threshold : fl) : list bool :=
  map (fun z => fgt (fabs z) threshold) (z_scores ys).

(** A frame once [detect_anomalies] has gone past its guard. *)
Definition with_anomaly_columns (d : DataFrame) (ys : list Z) (threshold : fl)
  : DataFrame :=
  set_column "is_anomaly" (ColBool (anomaly_mask ys threshold))
    (set_column "z_score" (ColFloat (z_scores ys))
       (set_column "std" (ColFloat (rolling_stds ys))
          (set_column "mean" (ColFloat (rolling_means ys)) d))).

(** First and last count of a series, earliest and latest period. *)
Definition first_count (qs : series) : Z := hd 0%Z (counts qs).
Definition last_count (qs : series) : Z :=
  match counts qs with [] => 0%Z | y :: ys => last ys y end.

Definition start_date (qs : series) : date :=
  match Series.dmin (periods qs) with Some d => d | None => mkdate 0 0 0 end.
Definition end_date (qs : series) : date :=
  match Series.dmax (periods qs) with Some d => d | None => mkdate 0 0 0 end.

(** The forecast points strictly after a date, in forecast order. *)
Definition future_points (fc : list ForecastPoint) (after : date)
  : list ForecastPoint :=
  filter (fun p => date_ltb after (fp_ds p)) fc.

(** The seven entries every digest of a non-empty series starts with. *)
Definition summary_base (qs : series) : dict :=
  [("total_reports", VInt (Series.sum (counts qs)));
   ("avg_quarterly_reports", VFloat (round (Series.mean (counts qs)) 2));
   ("std_quarterly_reports", VFloat (round (Series.std (counts qs)) 2));
   ("trend",
    VStr (if (first_count qs <? last_count qs)%Z then "increasing"
          else "decreasing"));
   ("recent_quarter_reports", VInt (last_count qs));
   ("data_start", VStr (strftime_Ymd (start_date qs)));
   ("data_end", VStr (strftime_Ymd (end_date qs)))].

(** The digest of a non-empty series and a forecast. *)
Definition summary_of (qs : series) (fc : list ForecastPoint) : dict :=
  match future_points fc (end_date qs) with
  | [] => summary_base qs
  | p :: _ =>
      assign "forecast_lower_bound" (VFloat (round (fp_yhat_lower p) 1))
        (assign "forecast_upper_bound" (VFloat (round (fp_yhat_upper p) 1))
           (assign "forecast_next_quarter" (VFloat (round (fp_yhat p) 1))
              (summary_base qs)))
  end.

(** The counts the comparator averages: the last four, or all of them. *)
Definition recent_counts (qs : series) : list Z :=
  if (4 <=? List.length qs)%nat then Series.tail 4 (counts qs) else counts qs.

(** The label [idxmax] picks on a frame holding a series. *)
Definition peak_index (qs : series) : nat :=
  match Series.idxmax (seq 0 (List.length qs)) (counts qs) with
  | Some i => i
  | None => 0%nat
  end.

(** The comparator's row for a series whose peak is period [i]. *)
Definition comparison_row (drug : string) (qs : series) (i : nat) : dict :=
  [("drug", VStr drug);
   ("total_reports", VInt (Series.sum (counts qs)));
   ("recent_avg_quarterly", VFloat (round (Series.mean (recent_counts qs)) 1));
   ("peak_quarter", VDate (nth i (periods qs) (mkdate 0 0 0)));
   ("peak_reports", VInt (count_at qs i))].

(** The keys a digest can hold, in insertion order. *)
Definition digest_keys : list string :=
  ["total_reports"; "avg_quarterly_reports"; "std_quarterly_reports"; "trend";
   "recent_quarter_reports"; "data_start"; "data_end";
   "forecast_next_quarter"; "forecast_upper_bound"; "forecast_lower_bound"].

(** A value that is a number. *)
Definition is_number (v : value) : Prop :=
  match v with VInt _ | VFloat _ => True | _ => False end.

(** A value that is a date rendered as text by [strftime]. *)
Definition is_formatted_date (v : value) : Prop :=
  exists d, v = VStr (strftime_Ymd d).

(** A value that is a date proper. *)
Definition is_date_value (v : value) : Prop :=
  match v with VDate _ => True | _ => False end.

(** A computation that leaves every frame of the heap as it found it. *)
Definition preserves_heap {A : Type} (c : Py A) : Prop :=
  forall h, snd (c h) = h.

(** ** Worked examples *)

Definition Q1_2023 : date := mkdate 2023 3 31.
Definition Q2_2023 : date := mkdate 2023 6 30.
Definition Q3_2023 : date := mkdate 2023 9 30.
Definition Q4_2023 : date := mkdate 2023 12 31.

(** The series of the design's end-to-end scenario. *)
Definition scenario_series : series :=
  [(Q1_2023, 5); (Q2_2023, 4); (Q3_2023, 30)]%Z.

(** The series of the comparator example of the design. *)
Definition comparator_series : series :=
  [(Q1_2023, 10); (Q2_2023, 20); (Q3_2023, 5)]%Z.

(** Two quarters whose rise equals the default [min_reports] exactly. *)
Definition boundary_series : series := [(Q1_2023, 10); (Q2_2023, 20)]%Z.

(** A one-point series. *)
Definition single_point_series : series := [(Q1_2023, 3%Z)].

(** A forecast with one point inside the history of [comparator_series]
    and one after it. *)
Definition example_forecast : list ForecastPoint :=
  [mkpoint Q3_2023 (of_Z 6) (of_Z 2) (of_Z 9);
   mkpoint Q4_2023 (of_Q (2525 # 100)) (of_Z 11) (of_Z 40)].

(** The defaults of [load_config]. *)
Definition default_config : config :=
  mkconfig (of_Z 2) 10 4 (of_Q (5 # 100)).

(** A forecasting library that fits anything and predicts the points of
    [example_forecast], for running the pipeline on examples. *)
Definition stub_fit (d : DataFrame) (prior : fl) : outcome unit := Returned tt.
Definition stub_predict (m : unit) (periods : Z) : outcome DataFrame :=
  Returned (forecast_frame example_forecast).

From Stdlib Require Import Permutation Lqa.

(** ** Further vocabulary and examples *)

(** A three-row frame that has lost its [y] column. *)
Definition frame_without_y : DataFrame :=
  mkDF [0; 1; 2]%nat [("ds", ColDate [Q1_2023; Q2_2023; Q3_2023])].

(** A forecasting library whose fit fails, and one whose prediction
    fails. *)
Definition failing_fit (d : DataFrame) (prior : fl) : outcome unit :=
  Raised "RuntimeError".
Definition failing_predict (m : unit) (periods : Z) : outcome DataFrame :=
  Raised "RuntimeError".

(** ** Several drugs at once (main.py) *)

(** The loop of [monitor_variants()].  [collected] pairs each entry of
    [config['drug_variants']], in order, with the frame
    [collect_all_drug_data(drug, config)['adverse_events']] came back with;
    [all_data[drug] = ...] is an assignment to a [dict]. *)
Fixpoint collect_variants (collected : list (string * ref))
         (all_data : list (string * ref)) : Py (list (string * ref)) :=
  match collected with
  | [] => ret all_data
  | (drug, df) :: collected' =>
      d <- deref df ;;
      if negb (df_empty d)
      then collect_variants collected' (assign drug df all_data)
      else collect_variants collected' all_data
  end.

(** [monitor_variants()]: the comparison that is printed and saved, [None]
    when [all_data] is empty and nothing is compared. *)
Definition monitor_variants (collected : list (string * ref))
  : Py (option (list dict)) :=
  all_data <- collect_variants collected [] ;;
  match all_data with
  | [] => ret None
  | _ :: _ =>
      comparison <- compare_drug_trends all_data ;;
      ret (Some comparison)
  end.

(** The frame behind [r] holds the series [qs], or is empty and [qs] is. *)
Definition collected_as (h : heap) (r : ref) (qs : series) : Prop :=
  exists d, nth_error h r = Some d
            /\ (holds_series d qs \/ (df_empty d = true /\ qs = [])).

(** The rows the comparator builds for named series: one per series with
    data. *)
Definition comparison_rows (named : list (string * series)) : list dict :=
  flat_map (fun e : string * series =>
              match snd e with
              | [] => []
              | _ :: _ => [comparison_row (fst e) (snd e) (peak_index (snd e))]
              end) named.

(** The drug a comparison row is about. *)
Definition row_drug (row : dict) : option value := lookup "drug" row.

(** Two frames for the examples: one series each. *)
Definition two_drug_heap : heap :=
  [frame_of scenario_series; empty_frame; frame_of comparator_series].

(** ** The monitoring service (api_server.py) *)

(** [_cache], the module's global: three entries, each [None] until a run
    of the pipeline fills it. *)
Record cache : Type := mkcache {
  cache_last_update : option string;
  cache_data : option dict;
  cache_summary : option dict
}.

Definition initial_cache : cache := mkcache None None None.

(** What [collect_all_drug_data] returns: the adverse-event frame, which
    the analysis writes on, and three frames that are only measured and
    rendered. *)
Record collected : Type := mkcollected {
  adverse_events : ref;
  reactions : DataFrame;
  clinical_trials : DataFrame;
  pubmed_articles : DataFrame
}.

(** Code of the service: it runs on the cache and on the frames. *)
Definition Server (A : Type) : Type :=
  cache -> heap -> outcome A * cache * heap.

Definition sret {A : Type} (a : A) : Server A := fun c h => (Returned a, c, h).

Definition sbind {A B : Type} (m : Server A) (k : A -> Server B) : Server B :=
  fun c h =>
    match m c h with
    | (Returned a, c', h') => k a c' h'
    | (Raised e, c', h') => (Raised e, c', h')
    end.

(** Code that does not touch the cache. *)
Definition lift {A : Type} (p : Py A) : Server A :=
  fun c h => let (o, h') := p h in (o, c, h').

(** [_cache[key] = v] for the three keys. *)
Definition set_last_update (v : option string) : Server unit :=
  fun c h => (Returned tt, mkcache v (cache_data c) (cache_summary c), h).
Definition set_data (v : option dict) : Server unit :=
  fun c h => (Returned tt, mkcache (cache_last_update c) v (cache_summary c), h).
Definition set_summary (v : option dict) : Server unit :=
  fun c h => (Returned tt, mkcache (cache_last_update c) (cache_data c) v, h).

Declare Scope server_scope.
Delimit Scope server_scope with server.
Notation "x <~ c ;; k" := (sbind c (fun x => k))
  (at level 100, c at next level, right associativity) : server_scope.
Notation "c ;;; k" := (sbind c (fun _ => k))
  (at level 100, right associativity) : server_scope.

(** [len(df)] *)
Definition len (d : DataFrame) : value := VInt (Z.of_nat (df_len d)).

Section Service.

Variable Model : Type.
Variable prophet_fit : DataFrame -> fl -> outcome Model.
Variable prophet_predict : Model -> Z -> outcome DataFrame.

(** The writers: [save_data] on the four collected frames, and
    [create_dashboard] on the series, the forecast, the reactions, the
    trials and the digest.  They read their arguments and write files. *)
Variable save_data :
  DataFrame -> DataFrame -> DataFrame -> DataFrame -> outcome unit.
Variable create_dashboard :
  DataFrame -> DataFrame -> DataFrame -> DataFrame -> dict -> outcome unit.

Local Open Scope server_scope.

(** [run_monitoring_pipeline()], from the point where the configuration
    is loaded and the data collected; [now] is
    [datetime.now().isoformat()]. *)
Definition run_monitoring_pipeline (cfg : config) (data : collected)
           (now : string) : Server unit :=
  d <~ lift (deref (adverse_events data)) ;;
  lift (call (save_data d (reactions data) (clinical_trials data)
                (pubmed_articles data))) ;;;
  let df := adverse_events data in
  d <~ lift (deref df) ;;
  if negb (df_empty d) then
    model <~ lift (train_prophet_model Model prophet_fit df cfg) ;;
    forecast <~ lift (generate_forecast Model prophet_predict model
                        (forecast_horizon_quarters cfg)) ;;
    anomalies <~ lift (detect_anomalies df (anomaly_threshold cfg)) ;;
    signals <~ lift (detect_safety_signals df (min_reports_for_signal cfg)) ;;
    summary <~ lift (generate_summary_stats df forecast) ;;
    d <~ lift (deref df) ;;
    lift (call (create_dashboard d forecast (reactions data)
                  (clinical_trials data) summary)) ;;;
    set_last_update (Some now) ;;;
    d <~ lift (deref df) ;;
    set_data (Some [("adverse_events_count", len d);
                    ("reactions_count", len (reactions data));
                    ("trials_count", len (clinical_trials data));
                    ("articles_count", len (pubmed_articles data));
                    ("anomalies_detected", len anomalies);
                    ("signals_detected", len signals)]) ;;;
    set_summary (Some summary)
  else sret tt.

End Service.

(** [GET /status]: the dictionary with the two entries [last_update] and
    [data], and [GET /summary]. *)
Record status : Type := mkstatus {
  status_last_update : option string;
  status_data : option dict
}.

Definition get_status (c : cache) : status :=
  mkstatus (cache_last_update c) (cache_data c).

Definition get_summary (c : cache) : dict :=
  match cache_summary c with
  | None => [("error", VStr "no data available, run /update first")]
  | Some summary => summary
  end.

(** Writers for the examples: one that succeeds, one that cannot write. *)
Definition stub_save (d r t a : DataFrame) : outcome unit := Returned tt.
Definition stub_dashboard (d f r t : DataFrame) (s : dict) : outcome unit :=
  Returned tt.
Definition failing_dashboard (d f r t : DataFrame) (s : dict) : outcome unit :=
  Raised "OSError".

Definition example_collected : collected :=
  mkcollected 0 empty_frame empty_frame empty_frame.

(** The number of rows a mask keeps. *)
Definition flagged (mask : list bool) : Z :=
  Z.of_nat (List.length (filter (fun b => b) mask)).

(** ** The quarterly series (data_collection.py) *)

(** A row of the response's [results]: its [receivedate], as
    [astype(str)] gives it, and its [count].  Rows are taken to carry
    both keys, the count as an integer; on rows without a [receivedate]
    the function meets a [KeyError] and returns the empty frame, as on
    every exception. *)
Definition raw_row : Type := (string * Z)%type.

(** Calendar quarters, numbered through the years.  [resample('Q')] puts
    a date in the quarter of its month and labels the quarter by its last
    day. *)
Definition quarter_of (d : date) : Z := 4 * year d + (month d - 1) / 3.

Definition quarter_end (q : Z) : date :=
  let k := q mod 4 in
  mkdate (q / 4) (3 * k + 3) (if (k =? 0)%Z || (k =? 3)%Z then 31 else 30).

(** [agg({'count': 'sum'})] on one bin: the sum over the rows of the
    quarter, 0 when it has none. *)
Definition bin_sum (rows : list (date * Z)) (q : Z) : Z :=
  Series.sum (map snd (filter (fun r => (quarter_of (fst r) =? q)%Z) rows)).

Definition quarter_range (lo hi : Z) : list Z :=
  map (fun i => lo + Z.of_nat i) (seq 0 (Z.to_nat (hi - lo + 1))).

(** [df.set_index('receivedate').resample('Q').agg({'count': 'sum'})]:
    one bin per quarter from the earliest date's to the latest date's, in
    order, whether or not a row falls in it; nothing on no row. *)
Definition resample_Q (rows : list (date * Z)) : series :=
  match map (fun r => quarter_of (fst r)) rows with
  | [] => []
  | q :: qs =>
      let lo := fold_left Z.min qs q in
      let hi := fold_left Z.max qs q in
      map (fun q => (quarter_end q, bin_sum rows q)) (quarter_range lo hi)
  end.

Section Collection.

(** [pd.to_datetime(s, format='%Y%m%d', errors='coerce')] on one string;
    [None] is [NaT]. *)
Variable to_datetime : string -> option date.

(** The rows left by [dropna(subset=['receivedate'])], dated. *)
Definition dated_rows (results : list raw_row) : list (date * Z) :=
  flat_map (fun r : raw_row =>
              match to_datetime (fst r) with
              | Some d => [(d, snd r)]
              | None => []
              end) results.

(** [fetch_fda_adverse_events], from the answer to the request on:
    [response] is what [resp.json()] gave ([None] when it has no
    ['results']), or the exception met on the way.  A frame built from no
    row has no [receivedate] column, and the [KeyError] ends in the
    handler like any other exception. *)
Definition fetch_fda_adverse_events
           (response : outcome (option (list raw_row))) : DataFrame :=
  match response with
  | Raised _ => empty_frame
  | Returned None => empty_frame
  | Returned (Some []) => empty_frame
  | Returned (Some results) => frame_of (resample_Q (dated_rows results))
  end.

End Collection.

(** Dates in period order. *)
Definition date_lt (a b : date) : Prop := date_ltb a b = true.

(** A reader of dates for the examples: it knows four days and takes
    anything else for unreadable. *)
Definition example_to_datetime (s : string) : option date :=
  if String.eqb s "20230115" then Some (mkdate 2023 1 15)
  else if String.eqb s "20230220" then Some (mkdate 2023 2 20)
  else if String.eqb s "20230410" then Some (mkdate 2023 4 10)
  else if String.eqb s "20230701" then Some (mkdate 2023 7 1)
  else None.

Definition example_results : list raw_row :=
  [("20230115", 3); ("20230220", 2); ("n/a", 7); ("20230410", 4);
   ("20230701", 30)].

(** An entry of [all_data]: a drug whose frame holds a series with data,
    as one of the collected pairs [named] says. *)
Definition kept_entry (h : heap) (named : list (string * series))
           (e : string * ref) (qs : series) : Prop :=
  collected_as h (snd e) qs /\ qs <> [] /\ In (fst e, qs) named.

(** ** Values of floating-point computations *)

(** [x] is the finite number [p]. *)
Definition fval (x : fl) (p : Q) : Prop := exists q, x = FFin q /\ (q == p)%Q.

(** The unit of the last place of the truncated square root. *)
Definition sqrt_ulp : Q := 1 # Z.to_pos (2 ^ sqrt_bits).

(** [s] is the square root of [v] as [fsqrt] gives it: from below, to
    within one unit of the last place. *)
Definition is_sqrt_of (v s : Q) : Prop :=
  (0 <= s /\ s * s <= v /\ v < (s + sqrt_ulp) * (s + sqrt_ulp))%Q.

(** ** Rounded values *)

(** [round(x, ndigits)] on a numpy float scales [x] by a power of ten,
    takes the nearest integer and divides again, each step in binary
    floating point, and the statistics it is given are floats themselves.
    A value whose scaled form lies within a float rounding of a tie can
    therefore come out as either neighbour, where [round] above, exact on
    the rational, takes the even one.  The statements about rounded
    entries are made with [rounds_to], which holds of both: the entry is
    a decimal of [ndigits] places, and it is nearest to the value to
    within [float_tolerance] of the value (values beyond 10^300, which the
    scaling takes out of the range of the floats, aside). *)
Definition float_tolerance : Q := 1 # 1099511627776.

Definition rounds_to (ndigits : Z) (q : Q) (v : fl) : Prop :=
  exists k : Z,
    v = of_Q (inject_Z k / inject_Z (10 ^ ndigits))
    /\ (Qabs (inject_Z k / inject_Z (10 ^ ndigits) - q)
        <= (1 # 2) / inject_Z (10 ^ ndigits) + Qabs q * float_tolerance)%Q.

(** The same for a float: NaN and the infinities are left as they are. *)
Definition is_rounding (ndigits : Z) (x v : fl) : Prop :=
  match x with
  | FFin q => rounds_to ndigits q v
  | _ => v = x
  end.

(** The statistics, as numbers: the mean, and the sample variance (sum of
    the squared deviations from the mean over one less than the number of
    observations). *)
Definition exact_mean (ys : list Z) : Q :=
  inject_Z (Series.sum ys) / inject_Z (Z.of_nat (List.length ys)).

Definition sample_variance (ys : list Z) : Q :=
  fold_left Qplus
    (map (fun y => (inject_Z y - exact_mean ys) * (inject_Z y - exact_mean ys))%Q
         ys) (inject_Z 0)
  / (inject_Z (Z.of_nat (List.length ys)) - inject_Z 1).

(** Counts as the data has them: none negative, few enough quarters and
    small enough a total for the float computation of the mean and of the
    deviation to stay within [float_tolerance] of the exact statistic,
    and for the [int64] total to be the sum. *)
Definition counts_in_range (qs : series) : Prop :=
  Forall (fun q => 0 <= snd q)%Z qs
  /\ (List.length qs <= 4096)%nat
  /\ (Series.sum (counts qs) < 2 ^ 31)%Z.

(** A forecast whose values have two decimals, and one whose rows are not
    in period order. *)
Definition Q2_2024 : date := mkdate 2024 6 30.

Definition decimal_forecast : list ForecastPoint :=
  [mkpoint Q4_2023 (of_Q (2534 # 100)) (of_Q (1112 # 100)) (of_Q (4087 # 100))].

Definition unordered_forecast : list ForecastPoint :=
  [mkpoint Q2_2024 (of_Z 50) (of_Z 40) (of_Z 60);
   mkpoint Q4_2023 (of_Z 20) (of_Z 10) (of_Z 30)].

(** ** Answers of the trial registry and of PubMed (data_collection.py) *)

(** What [resp.json()] returns. *)
#[warnings="-register-all"]
Inductive json : Type :=
| JNull
| JBool (b : bool)
| JInt (z : Z)
| JFloat (x : fl)
| JStr (s : string)
| JList (items : list json)
| JObj (members : list (string * json)).

(** Code that returns or raises and touches no frame. *)
Definition obind {A B : Type} (o : outcome A) (k : A -> outcome B)
  : outcome B :=
  match o with
  | Returned a => k a
  | Raised e => Raised e
  end.

Declare Scope outcome_scope.
Delimit Scope outcome_scope with outcome.
Notation "x <-- c ;; k" := (obind c (fun x => k))
  (at level 100, c at next level, right associativity) : outcome_scope.

(** [x.get(key, default)]: only a [dict] has the method. *)
Definition get (x : json) (key : string) (default : json) : outcome json :=
  match x with
  | JObj members =>
      Returned (match lookup key members with
                | Some v => v
                | None => default
                end)
  | _ => Raised "AttributeError"
  end.

(** The truth value of [x] in a condition. *)
Definition truthy (x : json) : bool :=
  match x with
  | JNull => false
  | JBool b => b
  | JInt z => negb (z =? 0)%Z
  | JFloat (FFin q) => negb (Qis_zero q)
  | JFloat _ => true
  | JStr s => negb (String.eqb s "")
  | JList items => match items with [] => false | _ :: _ => true end
  | JObj members => match members with [] => false | _ :: _ => true end
  end.

(** [x[0]] *)
Definition first_item (x : json) : outcome json :=
  match x with
  | JList (item :: _) => Returned item
  | JList [] => Raised "IndexError"
  | JStr (String c _) => Returned (JStr (String c ""))
  | JStr EmptyString => Raised "IndexError"
  | JObj _ => Raised "KeyError"
  | _ => Raised "TypeError"
  end.

(** [for item in x]: the items of a list, the characters of a string, the
    keys of a dictionary. *)
Definition iterate (x : json) : outcome (list json) :=
  match x with
  | JList items => Returned items
  | JStr s => Returned (map (fun c => JStr (String c "")) (list_ascii_of_string s))
  | JObj members => Returned (map (fun m => JStr (fst m)) members)
  | _ => Raised "TypeError"
  end.

Local Open Scope outcome_scope.

(** The dictionary [fetch_clinical_trials] builds for one study. *)
Definition trial_record (study : json) : outcome (list (string * json)) :=
  protocol <-- get study "protocolSection" (JObj []) ;;
  identification <-- get protocol "identificationModule" (JObj []) ;;
  status <-- get protocol "statusModule" (JObj []) ;;
  design <-- get protocol "designModule" (JObj []) ;;
  nct_id <-- get identification "nctId" (JStr "") ;;
  title <-- get identification "briefTitle" (JStr "") ;;
  overall_status <-- get status "overallStatus" (JStr "") ;;
  start_struct <-- get status "startDateStruct" (JObj []) ;;
  start_date <-- get start_struct "date" (JStr "") ;;
  completion_struct <-- get status "completionDateStruct" (JObj []) ;;
  completion_date <-- get completion_struct "date" (JStr "") ;;
  phases <-- get design "phases" JNull ;;
  phase <-- (if truthy phases
             then (phases <-- get design "phases" (JList [JStr ""]) ;;
                   first_item phases)
             else Returned (JStr "")) ;;
  enrollment_info <-- get status "enrollmentInfo" (JObj []) ;;
  enrollment <-- get enrollment_info "count" (JInt 0) ;;
  Returned [("nct_id", nct_id);
            ("title", title);
            ("status", overall_status);
            ("start_date", start_date);
            ("completion_date", completion_date);
            ("phase", phase);
            ("enrollment", enrollment)].

(** The loop over the studies. *)
Fixpoint collect_trials (studies : list json)
         (trials : list (list (string * json)))
  : outcome (list (list (string * json))) :=
  match studies with
  | [] => Returned trials
  | study :: studies' =>
      record <-- trial_record study ;;
      collect_trials studies' (trials ++ [record])
  end.

(** [fetch_clinical_trials], from the answer to the request on; the
    returned frame is held as its rows, and the frame without rows is the
    empty frame.  An answer that is not a dictionary either has no
    ['studies'] or cannot be indexed by it, and ends in the handler. *)
Definition fetch_clinical_trials (response : outcome json)
  : list (list (string * json)) :=
  match response with
  | Returned (JObj members) =>
      match lookup "studies" members with
      | None => []
      | Some studies =>
          match (items <-- iterate studies ;; collect_trials items []) with
          | Returned trials => trials
          | Raised _ => []
          end
      end
  | _ => []
  end.

(** The columns of the trials frame, and the record of a study that says
    nothing. *)
Definition trial_keys : list string :=
  ["nct_id"; "title"; "status"; "start_date"; "completion_date"; "phase";
   "enrollment"].

Definition blank_trial : list (string * json) :=
  [("nct_id", JStr ""); ("title", JStr ""); ("status", JStr "");
   ("start_date", JStr ""); ("completion_date", JStr "");
   ("phase", JStr ""); ("enrollment", JInt 0)].

(** [','.join(items)]: every item has to be a string. *)
Fixpoint as_strings (items : list json) : outcome (list string) :=
  match items with
  | [] => Returned []
  | JStr s :: items' =>
      rest <-- as_strings items' ;;
      Returned (s :: rest)
  | _ :: _ => Raised "TypeError"
  end.

Definition join (sep : string) (parts : list string) : string :=
  String.concat sep parts.

(** The rows of the articles frame: [clock i] is
    [datetime.now().strftime('%Y-%m-%d')] as read for row [i]. *)
Fixpoint articles_from (clock : nat -> string) (i : nat) (pmids : list string)
  : list (list (string * string)) :=
  match pmids with
  | [] => []
  | pmid :: pmids' =>
      [("pmid", pmid);
       ("title", "article " ++ pmid);
       ("pub_date", clock i);
       ("url", "https://pubmed.ncbi.nlm.nih.gov/" ++ pmid ++ "/")]%string
      :: articles_from clock (S i) pmids'
  end.

Section PubMed.

(** The second request, for the details of the articles whose ids are
    joined in [ids]; its answer is not read. *)
Variable efetch : string -> outcome unit.

(** [fetch_pubmed_articles], from the answer to the search on. *)
Definition fetch_pubmed_articles (search : outcome json)
           (clock : nat -> string) : list (list (string * string)) :=
  match search with
  | Raised _ => []
  | Returned search_data =>
      match (result <-- get search_data "esearchresult" (JObj []) ;;
             get result "idlist" (JList [])) with
      | Raised _ => []
      | Returned pmids =>
          if negb (truthy pmids) then []
          else
            match (items <-- iterate pmids ;;
                   ids <-- as_strings items ;;
                   _ <-- efetch (join "," ids) ;;
                   Returned ids) with
            | Raised _ => []
            | Returned ids => articles_from clock 0 ids
            end
      end
  end.

End PubMed.

(** Requests for the examples. *)
Definition efetch_ok (ids : string) : outcome unit := Returned tt.
Definition efetch_down (ids : string) : outcome unit := Raised "HTTPError".

Definition example_search : json :=
  JObj [("esearchresult", JObj [("idlist", JList [JStr "111"; JStr "222"])])].

Definition example_studies : json :=
  JObj [("studies",
         JList [JObj [("protocolSection",
                       JObj [("identificationModule",
                              JObj [("nctId", JStr "NCT01")])])];
                JObj []])].

(** A day of the calendar (February taken at its longest). *)
Definition days_in_month (m : Z) : Z :=
  if (m =? 2)%Z then 29
  else if (m =? 4)%Z || (m =? 6)%Z || (m =? 9)%Z || (m =? 11)%Z then 30
  else 31.

Definition calendar_date (d : date) : Prop :=
  (1 <= month d <= 12)%Z /\ (1 <= day d <= days_in_month (month d))%Z.

(** ** Arithmetic of the float model *)

Lemma Qlt_bool_iff (x y : Q) : Qlt_bool x y = true <-> (x < y)%Q.
Proof. unfold Qlt_bool, Qlt. apply Z.ltb_lt. Qed.

Lemma Qred_inject_Z (z : Z) : Qred (inject_Z z) = inject_Z z.
Proof.
  apply Qred_identity. unfold inject_Z. simpl. apply Z.gcd_1_r.
Qed.

Lemma of_Q_inject_Z (q : Q) (z : Z) : (q == inject_Z z)%Q -> of_Q q = of_Z z.
Proof.
  intros H. unfold of_Q, of_Z. f_equal.
  rewrite (Qred_complete _ _ H). apply Qred_inject_Z.
Qed.

Lemma fsub_of_Z (a b : Z) : fsub (of_Z a) (of_Z b) = of_Z (a - b).
Proof.
  unfold fsub, of_Z, fneg, of_Q, fadd.
  fold (of_Q (inject_Z a + Qred (- inject_Z b))).
  apply of_Q_inject_Z.
  rewrite Qred_correct. unfold Z.sub.
  rewrite inject_Z_plus, inject_Z_opp. reflexivity.
Qed.

Lemma fgt_of_Z (a b : Z) : fgt (of_Z a) (of_Z b) = true <-> (b < a)%Z.
Proof.
  unfold fgt, of_Z. rewrite Qlt_bool_iff. rewrite <- Zlt_Qlt. reflexivity.
Qed.

Lemma fdiv_of_Z (a b : Z) :
  fdiv (of_Z a) (of_Z b) =
  if (b =? 0)%Z then (if (a =? 0)%Z then FNaN else FInf (a <? 0)%Z)
  else of_Q (inject_Z a / inject_Z b).
Proof. reflexivity. Qed.

Lemma inject_Z_pos_nonzero (z : Z) : (0 < z)%Z -> ~ (inject_Z z == 0)%Q.
Proof.
  intros H E. unfold Qeq in E. simpl in E. lia.
Qed.

Lemma pct_above_50 (prev cur : Z) :
  (0 <= prev)%Z ->
  fgt (fmul (fsub (fdiv (of_Z cur) (of_Z prev)) (of_Z 1)) (of_Z 100)) (of_Z 50)
    = true
  <-> percent_change_above_50 prev cur.
Proof.
  intros Hprev. unfold percent_change_above_50.
  rewrite fdiv_of_Z.
  destruct (Z.eqb_spec prev 0) as [->|Hnz].
  - destruct (Z.eqb_spec cur 0) as [->|Hc].
    + simpl. split; [discriminate | lia].
    + destruct (Z.ltb_spec cur 0); simpl; split; try discriminate; lia.
  - assert (Hpos : (0 < prev)%Z) by lia.
    pose proof (inject_Z_pos_nonzero _ Hpos) as HnzQ.
    cbn [fsub fneg of_Z of_Q fadd fmul fgt].
    rewrite Qlt_bool_iff.
    rewrite !Qred_correct.
    assert (HposQ : (0 < inject_Z prev)%Q).
    { change 0%Q with (inject_Z 0). rewrite <- Zlt_Qlt. exact Hpos. }
    assert (Heq : ((inject_Z cur / inject_Z prev + - inject_Z 1) * inject_Z 100
                   == inject_Z (100 * (cur - prev)) / inject_Z prev)%Q).
    { rewrite inject_Z_mult. unfold Z.sub. rewrite inject_Z_plus, inject_Z_opp.
      field. exact HnzQ. }
    rewrite Heq.
    split.
    + intros H. left. split; [exact Hpos|].
      apply (Qmult_lt_r _ _ _ HposQ) in H.
      assert (E : (inject_Z (100 * (cur - prev)) / inject_Z prev * inject_Z prev
                   == inject_Z (100 * (cur - prev)))%Q).
      { field. exact HnzQ. }
      rewrite E in H. rewrite <- inject_Z_mult in H.
      rewrite <- Zlt_Qlt in H. exact H.
    + intros [[_ H]|[H _]]; [|lia].
      apply Qlt_shift_div_l; [exact HposQ|].
      rewrite <- inject_Z_mult. rewrite <- Zlt_Qlt. exact H.
Qed.

(** ** Lists, masks and positions *)

Section ListFacts.

Context {A B C : Type}.

Lemma length_zip_with (f : A -> B -> C) (l : list A) (l' : list B) :
  List.length (zip_with f l l') = Nat.min (List.length l) (List.length l').
Proof.
  revert l'. induction l as [|a l IH]; intros [|b l']; simpl; auto.
Qed.

Lemma nth_zip_with (f : A -> B -> C) (l : list A) (l' : list B)
      (i : nat) (da : A) (db : B) :
  List.length l = List.length l' ->
  nth i (zip_with f l l') (f da db) = f (nth i l da) (nth i l' db).
Proof.
  revert l' i. induction l as [|a l IH]; intros [|b l'] i Hlen;
    simpl in Hlen; try discriminate.
  - destruct i; reflexivity.
  - destruct i as [|i]; simpl; [reflexivity|]. apply IH. lia.
Qed.

Lemma nth_map_default (g : A -> B) (l : list A) (i : nat) (d : A) (d' : B) :
  g d = d' -> nth i (map g l) d' = g (nth i l d).
Proof. intros <-. apply map_nth. Qed.

Lemma select_map (g : A -> B) (mask : list bool) (l : list A) :
  select mask (map g l) = map g (select mask l).
Proof.
  revert l. induction mask as [|b mask IH]; intros [|a l]; simpl; auto.
  destruct b; simpl; rewrite IH; reflexivity.
Qed.

End ListFacts.

Lemma In_select_seq (mask : list bool) (s n i : nat) :
  List.length mask = n ->
  In i (select mask (seq s n)) <->
  (s <= i < s + n)%nat /\ nth (i - s) mask false = true.
Proof.
  revert s n. induction mask as [|b mask IH]; intros s n Hlen; simpl in Hlen; subst n.
  - simpl. split; [tauto | lia].
  - simpl seq. simpl select.
    assert (Hrec := IH (S s) (List.length mask) eq_refl).
    destruct b.
    + simpl In. rewrite Hrec. split.
      * intros [<-|[Hr Hn]].
        -- split; [lia|]. rewrite Nat.sub_diag. reflexivity.
        -- split; [lia|]. replace (i - s)%nat with (S (i - S s)) by lia. exact Hn.
      * intros [Hr Hn]. destruct (Nat.eq_dec s i) as [E|E]; [left; exact E|right].
        split; [lia|]. replace (i - s)%nat with (S (i - S s)) in Hn by lia. exact Hn.
    + rewrite Hrec. split.
      * intros [Hr Hn]. split; [lia|].
        replace (i - s)%nat with (S (i - S s)) by lia. exact Hn.
      * intros [Hr Hn]. destruct (Nat.eq_dec s i) as [E|E].
        -- subst i. rewrite Nat.sub_diag in Hn. discriminate.
        -- split; [lia|]. replace (i - s)%nat with (S (i - S s)) in Hn by lia. exact Hn.
Qed.

Lemma In_select_range (mask : list bool) (n i : nat) :
  List.length mask = n ->
  In i (select mask (seq 0 n)) <-> (i < n)%nat /\ nth i mask false = true.
Proof.
  intros Hlen. rewrite (In_select_seq _ 0 _ i Hlen).
  rewrite Nat.sub_0_r. split; intros [H1 H2]; split; auto; lia.
Qed.

(** Rows kept by a stricter mask are kept by a laxer one. *)
Lemma select_mask_weaken {A : Type} (m1 m2 : list bool) (l : list A) :
  List.length m1 = List.length m2 ->
  (forall i, nth i m2 false = true -> nth i m1 false = true) ->
  (List.length (select m2 l) <= List.length (select m1 l))%nat.
Proof.
  revert m2 l. induction m1 as [|b1 m1 IH]; intros [|b2 m2] l Hlen Himp;
    simpl in Hlen; try discriminate.
  - simpl. lia.
  - destruct l as [|a l]; simpl; [lia|].
    assert (Hrec : (List.length (select m2 l) <= List.length (select m1 l))%nat).
    { apply IH; [lia|]. intros i Hi. apply (Himp (S i)). exact Hi. }
    destruct b2.
    + assert (Hb : b1 = true) by (apply (Himp 0%nat); reflexivity).
      subst b1. simpl. lia.
    + destruct b1; simpl; lia.
Qed.

(** ** Series operations, position by position *)

Lemma length_shift (ys : list Z) :
  List.length (Series.shift ys) = List.length ys.
Proof.
  destruct ys as [|y ys]; [reflexivity|].
  unfold Series.shift. simpl List.length at 1. rewrite length_map.
  induction ys as [|z ys IH] in y |- *; [reflexivity|].
  change (removelast (y :: z :: ys)) with (y :: removelast (z :: ys)).
  simpl List.length. rewrite (IH z). reflexivity.
Qed.

Lemma nth_removelast (ys : list Z) (j : nat) :
  (S j < List.length ys)%nat -> nth j (removelast ys) 0%Z = nth j ys 0%Z.
Proof.
  revert j. induction ys as [|y ys IH]; intros j Hj; simpl in Hj; [lia|].
  destruct ys as [|z ys]; [simpl in Hj; lia|].
  change (removelast (y :: z :: ys)) with (y :: removelast (z :: ys)).
  destruct j as [|j]; [reflexivity|].
  simpl nth. apply IH. simpl. simpl in Hj. lia.
Qed.

Lemma length_removelast_pred (ys : list Z) :
  List.length (removelast ys) = pred (List.length ys).
Proof.
  induction ys as [|y ys IH]; [reflexivity|].
  destruct ys as [|z ys]; [reflexivity|].
  change (removelast (y :: z :: ys)) with (y :: removelast (z :: ys)).
  simpl List.length in *. rewrite IH. reflexivity.
Qed.

Lemma nth_shift (ys : list Z) (j : nat) :
  (S j < List.length ys)%nat ->
  nth (S j) (Series.shift ys) FNaN = of_Z (nth j ys 0%Z).
Proof.
  intros Hj. destruct ys as [|y ys]; [simpl in Hj; lia|].
  unfold Series.shift.
  change (nth j (map of_Z (removelast (y :: ys))) FNaN = of_Z (nth j (y :: ys) 0%Z)).
  rewrite (nth_indep _ FNaN (of_Z 0)).
  - rewrite map_nth. f_equal. apply nth_removelast. exact Hj.
  - rewrite length_map, length_removelast_pred. simpl. simpl in Hj. lia.
Qed.

Lemma nth_of_Z (ys : list Z) (i : nat) :
  (i < List.length ys)%nat ->
  nth i (map of_Z ys) FNaN = of_Z (nth i ys 0%Z).
Proof.
  intros Hi. rewrite (nth_indep _ FNaN (of_Z 0)).
  - apply map_nth.
  - rewrite length_map. exact Hi.
Qed.

Lemma nth_diff_first (ys : list Z) : nth 0 (Series.diff ys) FNaN = FNaN.
Proof. destruct ys as [|y ys]; reflexivity. Qed.

Lemma nth_diff (ys : list Z) (j : nat) :
  (S j < List.length ys)%nat ->
  nth (S j) (Series.diff ys) FNaN = of_Z (nth (S j) ys 0 - nth j ys 0)%Z.
Proof.
  intros Hj. unfold Series.diff.
  change FNaN with (fsub FNaN FNaN) at 1.
  rewrite nth_zip_with by (rewrite length_map, length_shift; reflexivity).
  rewrite nth_of_Z by exact Hj. rewrite nth_shift by exact Hj.
  apply fsub_of_Z.
Qed.

Lemma length_diff (ys : list Z) :
  List.length (Series.diff ys) = List.length ys.
Proof.
  unfold Series.diff. rewrite length_zip_with, length_map, length_shift.
  apply Nat.min_id.
Qed.

Lemma length_pct_change (ys : list Z) :
  List.length (Series.pct_change ys) = List.length ys.
Proof.
  unfold Series.pct_change.
  rewrite length_map, length_zip_with, length_map, length_shift.
  apply Nat.min_id.
Qed.

Lemma nth_pct_change (ys : list Z) (j : nat) :
  (S j < List.length ys)%nat ->
  nth (S j) (Series.pct_change ys) FNaN =
  fsub (fdiv (of_Z (nth (S j) ys 0%Z)) (of_Z (nth j ys 0%Z))) (of_Z 1).
Proof.
  intros Hj. unfold Series.pct_change.
  rewrite (nth_map_default (fun q => fsub q (of_Z 1)) _ _ FNaN _ eq_refl).
  f_equal.
  change FNaN with (fdiv FNaN FNaN) at 1.
  rewrite nth_zip_with by (rewrite length_map, length_shift; reflexivity).
  rewrite nth_of_Z by exact Hj. rewrite nth_shift by exact Hj.
  reflexivity.
Qed.

Lemma length_signal_mask (ys : list Z) (m : Z) :
  List.length (signal_mask ys m) = List.length ys.
Proof.
  unfold signal_mask, abs_changes, pct_changes.
  rewrite length_zip_with, !length_map, length_diff, length_pct_change.
  apply Nat.min_id.
Qed.

(** The mask of [detect_safety_signals], read off the counts. *)
Lemma nth_signal_mask (ys : list Z) (m : Z) (i : nat) :
  Forall (fun y => 0 <= y)%Z ys ->
  nth i (signal_mask ys m) false = true <->
  (1 <= i < List.length ys)%nat
  /\ (m < nth i ys 0 - nth (i - 1) ys 0)%Z
  /\ percent_change_above_50 (nth (i - 1) ys 0%Z) (nth i ys 0%Z).
Proof.
  intros Hpos.
  destruct (Nat.lt_ge_cases i (List.length ys)) as [Hi|Hi].
  2:{ rewrite nth_overflow by (rewrite length_signal_mask; exact Hi).
      split; [discriminate | lia]. }
  unfold signal_mask, abs_changes, pct_changes.
  change false with (andb false false) at 1.
  rewrite nth_zip_with
    by (rewrite !length_map, length_diff, length_pct_change; reflexivity).
  rewrite (nth_map_default (fun a => fgt a (of_Z m)) _ _ FNaN _ eq_refl).
  rewrite (nth_map_default (fun p => fgt p (of_Z 50)) _ _ FNaN _ eq_refl).
  rewrite (nth_map_default (fun p => fmul p (of_Z 100)) _ _ FNaN _ eq_refl).
  destruct i as [|j].
  - rewrite nth_diff_first. simpl. split; [discriminate | lia].
  - rewrite nth_diff by exact Hi. rewrite nth_pct_change by exact Hi.
    simpl Nat.sub. rewrite Nat.sub_0_r.
    rewrite andb_true_iff, fgt_of_Z, pct_above_50.
    + split; [intros [H1 H2] | intros (_ & H1 & H2)]; repeat split; auto; lia.
    + rewrite Forall_forall in Hpos. apply Hpos. apply nth_In. lia.
Qed.

Lemma list_as_map_nth {A : Type} (l : list A) (d : A) :
  l = map (fun i => nth i l d) (seq 0 (List.length l)).
Proof.
  apply (nth_ext _ _ d d).
  - rewrite length_map, length_seq. reflexivity.
  - intros i Hi.
    rewrite (nth_indep (map _ _) d (nth 0 l d))
      by (rewrite length_map, length_seq; exact Hi).
    rewrite (map_nth (fun i => nth i l d) (seq 0 (List.length l)) 0%nat).
    rewrite seq_nth by exact Hi. reflexivity.
Qed.

Lemma Forall_select {A : Type} (P : A -> Prop) (mask : list bool) (l : list A)
      (d : A) :
  (forall i, (i < List.length l)%nat -> nth i mask false = true -> P (nth i l d)) ->
  Forall P (select mask l).
Proof.
  revert l. induction mask as [|b mask IH]; intros [|a l] H; simpl; auto.
  assert (Hrec : Forall P (select mask l)).
  { apply IH. intros i Hi Hm. apply (H (S i)); simpl; [lia | exact Hm]. }
  destruct b; [|exact Hrec].
  constructor; [|exact Hrec]. apply (H 0%nat); simpl; [lia | reflexivity].
Qed.

(** ** Columns by name *)

Lemma lookup_assign_same {V : Type} (k : string) (v : V) (m : list (string * V)) :
  lookup k (assign k v m) = Some v.
Proof.
  induction m as [|[k' v'] m IH]; simpl.
  - rewrite String.eqb_refl. reflexivity.
  - destruct (String.eqb k' k) eqn:E; simpl; rewrite E; [reflexivity | exact IH].
Qed.

Lemma lookup_assign_other {V : Type} (k k' : string) (v : V)
      (m : list (string * V)) :
  String.eqb k' k = false -> lookup k (assign k' v m) = lookup k m.
Proof.
  intros Hne. induction m as [|[k0 v0] m IH]; simpl.
  - rewrite Hne. reflexivity.
  - destruct (String.eqb k0 k') eqn:E; simpl.
    + apply String.eqb_eq in E. subst k0. rewrite Hne. reflexivity.
    + destruct (String.eqb k0 k); [reflexivity | exact IH].
Qed.

Lemma lookup_set_column_same (name : string) (c : column) (d : DataFrame) :
  lookup name (df_columns (set_column name c d)) = Some c.
Proof. apply lookup_assign_same. Qed.

Lemma lookup_set_column_other (name name' : string) (c : column) (d : DataFrame) :
  String.eqb name' name = false ->
  lookup name (df_columns (set_column name' c d)) = lookup name (df_columns d).
Proof. apply lookup_assign_other. Qed.

Lemma lookup_df_select (name : string) (mask : list bool) (d : DataFrame) :
  lookup name (df_columns (df_select mask d)) =
  option_map (col_select mask) (lookup name (df_columns d)).
Proof.
  unfold df_select. simpl df_columns.
  induction (df_columns d) as [|[k c] m IH]; [reflexivity|].
  simpl. destruct (String.eqb k name); [reflexivity | exact IH].
Qed.

(** Looking a column up through the columns written after it. *)
Ltac find_column :=
  repeat first
    [ rewrite lookup_set_column_same
    | rewrite lookup_set_column_other by reflexivity ].

(** ** Running Python code step by step *)

Lemma bind_run {A B : Type} (c : Py A) (k : A -> Py B) (h h' : heap) (a : A) :
  c h = (Returned a, h') -> bind c k h = k a h'.
Proof. intros H. unfold bind. rewrite H. reflexivity. Qed.

Lemma bind_assoc {A B C : Type} (c : Py A) (f : A -> Py B) (k : B -> Py C)
      (h : heap) :
  bind (bind c f) k h = bind c (fun a => bind (f a) k) h.
Proof. unfold bind. destruct (c h) as [[a|e] h']; reflexivity. Qed.

Lemma deref_run (d : DataFrame) (h : heap) :
  deref 0 (d :: h) = (Returned d, d :: h).
Proof. reflexivity. Qed.

Lemma setitem_run (name : string) (c : column) (d : DataFrame) (h : heap) :
  setitem 0 name c (d :: h) = (Returned tt, set_column name c d :: h).
Proof. reflexivity. Qed.

Lemma getitem_int_run (name : string) (l : list Z) (d : DataFrame) (h : heap) :
  lookup name (df_columns d) = Some (ColInt l) ->
  getitem_int 0 name (d :: h) = (Returned l, d :: h).
Proof.
  intros H. cbv [getitem_int item_int item bind deref nth_error].
  rewrite H. reflexivity.
Qed.

Lemma getitem_float_run (name : string) (l : list fl) (d : DataFrame) (h : heap) :
  lookup name (df_columns d) = Some (ColFloat l) ->
  getitem_float 0 name (d :: h) = (Returned l, d :: h).
Proof.
  intros H. cbv [getitem_float item_float item bind deref nth_error].
  rewrite H. reflexivity.
Qed.

Lemma getitem_bool_run (name : string) (l : list bool) (d : DataFrame) (h : heap) :
  lookup name (df_columns d) = Some (ColBool l) ->
  getitem_bool 0 name (d :: h) = (Returned l, d :: h).
Proof.
  intros H. cbv [getitem_bool item_bool item bind deref nth_error].
  rewrite H. reflexivity.
Qed.

Lemma getitem_date_run (name : string) (l : list date) (d : DataFrame) (h : heap) :
  lookup name (df_columns d) = Some (ColDate l) ->
  getitem_date 0 name (d :: h) = (Returned l, d :: h).
Proof.
  intros H. cbv [getitem_date item_date item bind deref nth_error].
  rewrite H. reflexivity.
Qed.

(** ** Frames that hold a series *)

Lemma counts_length (qs : series) : List.length (counts qs) = List.length qs.
Proof. apply length_map. Qed.

Lemma periods_length (qs : series) : List.length (periods qs) = List.length qs.
Proof. apply length_map. Qed.

Lemma counts_nonneg (qs : series) :
  Forall (fun q => 0 <= snd q)%Z qs -> Forall (fun y => 0 <= y)%Z (counts qs).
Proof.
  intros H. unfold counts. rewrite Forall_map. exact H.
Qed.

Lemma frame_of_holds (qs : series) : holds_series (frame_of qs) qs.
Proof. repeat split. Qed.

Lemma set_column_holds (name : string) (c : column) (d : DataFrame) (qs : series) :
  String.eqb name "ds" = false -> String.eqb name "y" = false ->
  holds_series d qs -> holds_series (set_column name c d) qs.
Proof.
  intros Hds Hy (Hi & Hd & Hc). repeat split.
  - exact Hi.
  - rewrite lookup_set_column_other by exact Hds. exact Hd.
  - rewrite lookup_set_column_other by exact Hy. exact Hc.
Qed.

Lemma with_anomaly_columns_holds (d : DataFrame) (qs : series) (t : fl) :
  holds_series d qs -> holds_series (with_anomaly_columns d (counts qs) t) qs.
Proof.
  intros H. unfold with_anomaly_columns.
  repeat (apply set_column_holds; [reflexivity | reflexivity |]). exact H.
Qed.

Lemma with_signal_columns_holds (d : DataFrame) (qs : series) :
  holds_series d qs -> holds_series (with_signal_columns d (counts qs)) qs.
Proof.
  intros H. unfold with_signal_columns.
  repeat (apply set_column_holds; [reflexivity | reflexivity |]). exact H.
Qed.

Lemma holds_len (d : DataFrame) (qs : series) :
  holds_series d qs -> df_len d = List.length qs.
Proof. intros (Hi & _). unfold df_len. rewrite Hi. apply length_seq. Qed.

Lemma holds_empty (d : DataFrame) (qs : series) :
  holds_series d qs -> df_empty d = match qs with [] => true | _ :: _ => false end.
Proof.
  intros (Hi & Hd & _). unfold df_empty. rewrite Hi.
  destruct qs as [|q qs]; [reflexivity|]. simpl.
  destruct (df_columns d); [discriminate | reflexivity].
Qed.

Lemma holds_guard (d : DataFrame) (qs : series) (n : nat) :
  holds_series d qs -> (0 < n)%nat ->
  df_empty d || (df_len d <? n)%nat = (List.length qs <? n)%nat.
Proof.
  intros H Hn. rewrite (holds_empty d qs H), (holds_len d qs H).
  destruct qs as [|q qs]; [|reflexivity].
  simpl. symmetry. apply Nat.ltb_lt. exact Hn.
Qed.

(** One statement of a function body run on a frame that holds a series:
    [Hds] and [Hy] say what its [ds] and [y] columns are. *)
Ltac py_frame_step Hds Hy :=
  first
    [ rewrite bind_assoc
    | erewrite bind_run by apply deref_run
    | erewrite bind_run by apply setitem_run
    | erewrite bind_run by (apply getitem_int_run; find_column; exact Hy)
    | erewrite bind_run by (apply getitem_date_run; find_column; exact Hds)
    | erewrite bind_run by (apply getitem_float_run; find_column; reflexivity)
    | erewrite bind_run by (apply getitem_bool_run; find_column; reflexivity)
    | lazymatch goal with
      | |- context [bind (ret ?a) ?k ?h] =>
          change (bind (ret a) k h) with (k a h)
      | |- context [of_option ?e (Some ?x)] =>
          change (of_option e (Some x)) with (ret x)
      end ];
  cbv beta.

(** ** Running the detectors *)

Lemma detect_safety_signals_run (qs : series) (m : Z) (d : DataFrame) (h : heap) :
  holds_series d qs -> (2 <= List.length qs)%nat ->
  detect_safety_signals 0 m (d :: h) =
  (Returned (df_select (signal_mask (counts qs) m)
               (with_signal_columns d (counts qs))),
   with_signal_columns d (counts qs) :: h).
Proof.
  intros H Hlen. pose proof H as (Hi & Hds & Hy).
  unfold detect_safety_signals.
  py_frame_step Hds Hy.
  rewrite (holds_guard d qs 2 H) by lia.
  replace (List.length qs <? 2)%nat with false by (symmetry; apply Nat.ltb_ge; lia).
  repeat py_frame_step Hds Hy.
  reflexivity.
Qed.

Lemma detect_safety_signals_short (qs : series) (m : Z) (d : DataFrame) (h : heap) :
  holds_series d qs -> (List.length qs < 2)%nat ->
  detect_safety_signals 0 m (d :: h) = (Returned empty_frame, d :: h).
Proof.
  intros H Hlen. unfold detect_safety_signals.
  erewrite bind_run by apply deref_run. cbv beta.
  rewrite (holds_guard d qs 2 H) by lia.
  replace (List.length qs <? 2)%nat with true by (symmetry; apply Nat.ltb_lt; lia).
  reflexivity.
Qed.

Lemma detect_anomalies_run (qs : series) (t : fl) (d : DataFrame) (h : heap) :
  holds_series d qs -> (3 <= List.length qs)%nat ->
  detect_anomalies 0 t (d :: h) =
  (Returned (df_select (anomaly_mask (counts qs) t)
               (with_anomaly_columns d (counts qs) t)),
   with_anomaly_columns d (counts qs) t :: h).
Proof.
  intros H Hlen. pose proof H as (Hi & Hds & Hy).
  unfold detect_anomalies.
  py_frame_step Hds Hy.
  rewrite (holds_guard d qs 3 H) by lia.
  replace (List.length qs <? 3)%nat with false by (symmetry; apply Nat.ltb_ge; lia).
  repeat py_frame_step Hds Hy.
  reflexivity.
Qed.

Lemma detect_anomalies_short (qs : series) (t : fl) (d : DataFrame) (h : heap) :
  holds_series d qs -> (List.length qs < 3)%nat ->
  detect_anomalies 0 t (d :: h) = (Returned empty_frame, d :: h).
Proof.
  intros H Hlen. unfold detect_anomalies.
  erewrite bind_run by apply deref_run. cbv beta.
  rewrite (holds_guard d qs 3 H) by lia.
  replace (List.length qs <? 3)%nat with true by (symmetry; apply Nat.ltb_lt; lia).
  reflexivity.
Qed.

(** ** Safety signals *)

(** C1, as worded, fails at the boundary: a rise of exactly
    [min_reports] with a percent change above 50 satisfies both of the
    stated conditions, and the detector does not flag it. *)
Lemma C1_boundary_not_flagged :
  exists signals h',
    detect_safety_signals 0 10 [frame_of boundary_series] = (Returned signals, h')
    /\ (absolute_change boundary_series 1 >= 10)%Z
    /\ percent_change_above_50 (count_at boundary_series 0)
                               (count_at boundary_series 1)
    /\ ~ In 1%nat (df_index signals).
Proof.
  eexists. eexists. split; [vm_compute; reflexivity|].
  split; [vm_compute; discriminate|].
  split; [left; vm_compute; split; reflexivity|].
  simpl. tauto.
Qed.

Lemma signal_flags (qs : series) (m : Z) (i : nat) :
  Forall (fun q => 0 <= snd q)%Z qs ->
  In i (select (signal_mask (counts qs) m) (seq 0 (List.length qs))) <->
  (1 <= i < List.length qs)%nat
  /\ (m < absolute_change qs i)%Z
  /\ percent_change_above_50 (count_at qs (i - 1)) (count_at qs i).
Proof.
  intros Hpos.
  rewrite In_select_range by (rewrite length_signal_mask; apply counts_length).
  rewrite (nth_signal_mask _ m i (counts_nonneg _ Hpos)), counts_length.
  unfold absolute_change, count_at. intuition lia.
Qed.

(** C1 (amended): on a frame holding a series of at least two non-negative
    counts, the detector flags period [i] exactly when [i] is not the first
    period, the absolute change is strictly greater than [min_reports] and
    the percent change is above 50 (infinite on a zero base that rose).
    Every returned record carries that absolute change, and its two stored
    changes pass the two comparisons of the detector. *)
Theorem detect_safety_signals_flags (qs : series) (min_reports : Z)
        (d : DataFrame) (h : heap) :
  holds_series d qs ->
  (2 <= List.length qs)%nat ->
  Forall (fun q => 0 <= snd q)%Z qs ->
  exists signals d' pct,
    detect_safety_signals 0 min_reports (d :: h) = (Returned signals, d' :: h)
    /\ (forall i,
          In i (df_index signals) <->
          (1 <= i < List.length qs)%nat
          /\ (min_reports < absolute_change qs i)%Z
          /\ percent_change_above_50 (count_at qs (i - 1)) (count_at qs i))
    /\ lookup "abs_change" (df_columns signals) =
       Some (ColFloat (map (fun i => of_Z (absolute_change qs i))
                         (df_index signals)))
    /\ Forall (fun i => fgt (of_Z (absolute_change qs i)) (of_Z min_reports) = true)
         (df_index signals)
    /\ lookup "pct_change" (df_columns signals) = Some (ColFloat pct)
    /\ Forall (fun p => fgt p (of_Z 50) = true) pct.
Proof.
  intros Hd Hlen Hpos. pose proof Hd as (Hi & _).
  pose proof (signal_flags qs min_reports) as Hflag.
  eexists. eexists. eexists.
  split; [apply (detect_safety_signals_run qs); assumption|].
  rewrite !lookup_df_select. unfold with_signal_columns. find_column.
  cbn [df_select df_index set_column option_map col_select]. rewrite Hi.
  split; [intros i; apply Hflag; exact Hpos|].
  split.
  - do 2 f_equal. unfold abs_changes.
    rewrite (list_as_map_nth (Series.diff (counts qs)) FNaN) at 1.
    rewrite length_diff, counts_length, select_map.
    apply map_ext_in. intros i Hin. apply (Hflag i Hpos) in Hin.
    destruct Hin as (Hr & _). destruct i as [|j]; [lia|].
    rewrite nth_diff by (rewrite counts_length; lia).
    unfold absolute_change, count_at. simpl Nat.sub. rewrite Nat.sub_0_r.
    reflexivity.
  - split.
    + apply Forall_forall. intros i Hin. apply (Hflag i Hpos) in Hin.
      apply fgt_of_Z. tauto.
    + split; [reflexivity|].
      apply (Forall_select _ _ _ FNaN). intros i Hlt Hm.
      unfold signal_mask in Hm.
      change false with (andb false false) in Hm.
      rewrite nth_zip_with in Hm
        by (unfold abs_changes, pct_changes;
            rewrite !length_map, length_diff, length_pct_change; reflexivity).
      apply andb_true_iff in Hm. destruct Hm as [_ Hm].
      rewrite (nth_map_default (fun p => fgt p (of_Z 50)) _ _ FNaN _ eq_refl) in Hm.
      exact Hm.
Qed.

(** The end-to-end scenario of the design: counts 5, 4, 30 and
    [min_reports = 10]. *)
Lemma detect_safety_signals_flags_witness :
  exists signals d' pct,
    detect_safety_signals 0 10 [frame_of scenario_series]
      = (Returned signals, [d'])
    /\ (forall i,
          In i (df_index signals) <->
          (1 <= i < List.length scenario_series)%nat
          /\ (10 < absolute_change scenario_series i)%Z
          /\ percent_change_above_50 (count_at scenario_series (i - 1))
                                     (count_at scenario_series i))
    /\ lookup "abs_change" (df_columns signals) =
       Some (ColFloat (map (fun i => of_Z (absolute_change scenario_series i))
                         (df_index signals)))
    /\ Forall (fun i => fgt (of_Z (absolute_change scenario_series i)) (of_Z 10)
                        = true)
         (df_index signals)
    /\ lookup "pct_change" (df_columns signals) = Some (ColFloat pct)
    /\ Forall (fun p => fgt p (of_Z 50) = true) pct.
Proof.
  apply (detect_safety_signals_flags scenario_series 10
           (frame_of scenario_series) []).
  - apply frame_of_holds.
  - simpl. lia.
  - repeat constructor; simpl; lia.
Defined.

(** The scenario computed: the third quarter alone is flagged, with an
    absolute change of 26 and a percent change of 650. *)
Example detect_safety_signals_scenario :
  fst (detect_safety_signals 0 10 [frame_of scenario_series]) =
  Returned (mkDF [2%nat]
              [("ds", ColDate [Q3_2023]); ("y", ColInt [30%Z]);
               ("pct_change", ColFloat [of_Z 650]);
               ("abs_change", ColFloat [of_Z 26])]).
Proof. vm_compute. reflexivity. Qed.

(** ** Anomalies *)

Lemma length_rolling (w mp : nat) (agg : list Z -> fl) (ys : list Z) :
  List.length (Series.rolling w mp agg ys) = List.length ys.
Proof. unfold Series.rolling. rewrite length_map, length_seq. reflexivity. Qed.

Lemma length_z_scores (ys : list Z) : List.length (z_scores ys) = List.length ys.
Proof.
  unfold z_scores, rolling_means, rolling_stds.
  rewrite !length_zip_with, !length_map, !length_rolling. lia.
Qed.

Lemma length_anomaly_mask (ys : list Z) (t : fl) :
  List.length (anomaly_mask ys t) = List.length ys.
Proof. unfold anomaly_mask. rewrite length_map. apply length_z_scores. Qed.

Lemma nth_anomaly_mask (ys : list Z) (t : fl) (i : nat) :
  nth i (anomaly_mask ys t) false = fgt (fabs (nth i (z_scores ys) FNaN)) t.
Proof.
  unfold anomaly_mask.
  apply (nth_map_default (fun z => fgt (fabs z) t) _ _ FNaN false eq_refl).
Qed.

(** A threshold below a threshold that is exceeded is exceeded. *)
Lemma fgt_weaken (x t1 t2 : fl) :
  fle t1 t2 = true -> fgt x t2 = true -> fgt x t1 = true.
Proof.
  destruct x as [|sx|x], t1 as [|s1|q1], t2 as [|s2|q2]; simpl;
    try discriminate; try (destruct sx); try (destruct s1); try (destruct s2);
    simpl; try discriminate; try reflexivity.
  rewrite Qle_bool_iff, !Qlt_bool_iff. apply Qle_lt_trans.
Qed.

(** C4: for thresholds [t1 <= t2] and a frame holding a series, every
    period [detect_anomalies] flags at [t2] it also flags at [t1], so
    raising the threshold never raises the number of flagged periods. *)
Theorem detect_anomalies_monotone (qs : series) (t1 t2 : fl)
        (d : DataFrame) (h : heap) :
  holds_series d qs ->
  fle t1 t2 = true ->
  exists a1 a2 h1 h2,
    detect_anomalies 0 t1 (d :: h) = (Returned a1, h1)
    /\ detect_anomalies 0 t2 (d :: h) = (Returned a2, h2)
    /\ (forall i, In i (df_index a2) -> In i (df_index a1))
    /\ (df_len a2 <= df_len a1)%nat.
Proof.
  intros Hd Hle. pose proof Hd as (Hi & _).
  destruct (Nat.lt_ge_cases (List.length qs) 3) as [Hshort|Hlong].
  - exists empty_frame, empty_frame. eexists. eexists.
    rewrite !(detect_anomalies_short qs) by assumption.
    repeat split; auto.
  - eexists. eexists. eexists. eexists.
    rewrite !(detect_anomalies_run qs) by assumption.
    split; [reflexivity|]. split; [reflexivity|].
    unfold df_len.
    cbn [df_select df_index with_anomaly_columns set_column]. rewrite Hi.
    assert (Himp : forall i,
      nth i (anomaly_mask (counts qs) t2) false = true ->
      nth i (anomaly_mask (counts qs) t1) false = true).
    { intros i. rewrite !nth_anomaly_mask. apply fgt_weaken. exact Hle. }
    split.
    + intros i.
      rewrite !In_select_range
        by (rewrite length_anomaly_mask; apply counts_length).
      intros [Hlt Hm]. split; [exact Hlt | apply Himp; exact Hm].
    + apply select_mask_weaken; [|exact Himp].
      rewrite !length_anomaly_mask. reflexivity.
Qed.

Lemma detect_anomalies_monotone_witness :
  exists a1 a2 h1 h2,
    detect_anomalies 0 (of_Q (1 # 2)) [frame_of scenario_series] = (Returned a1, h1)
    /\ detect_anomalies 0 (of_Z 2) [frame_of scenario_series] = (Returned a2, h2)
    /\ (forall i, In i (df_index a2) -> In i (df_index a1))
    /\ (df_len a2 <= df_len a1)%nat.
Proof.
  apply (detect_anomalies_monotone scenario_series (of_Q (1 # 2)) (of_Z 2)
           (frame_of scenario_series) []).
  - apply frame_of_holds.
  - vm_compute. reflexivity.
Defined.

(** On 5, 4, 30 a threshold of 1/2 flags the last two quarters and the
    default threshold of 2 flags none. *)
Example detect_anomalies_scenario :
  (exists a h, detect_anomalies 0 (of_Q (1 # 2)) [frame_of scenario_series]
               = (Returned a, h) /\ df_index a = [1; 2]%nat)
  /\ (exists a h, detect_anomalies 0 (of_Z 2) [frame_of scenario_series]
                  = (Returned a, h) /\ df_index a = []).
Proof.
  split; eexists; eexists; (split; [vm_compute; reflexivity | reflexivity]).
Qed.
Lemma nth_rolling (w mp : nat) (agg : list Z -> fl) (ys : list Z) (i : nat) :
  (i < List.length ys)%nat ->
  nth i (Series.rolling w mp agg ys) FNaN =
  if (List.length (Series.window_at w ys i) <? mp)%nat then FNaN
  else agg (Series.window_at w ys i).
Proof.
  intros Hi. unfold Series.rolling.
  rewrite (nth_indep _ FNaN
             ((fun i => if (List.length (Series.window_at w ys i) <? mp)%nat
                        then FNaN else agg (Series.window_at w ys i)) 0%nat))
    by (rewrite length_map, length_seq; exact Hi).
  rewrite (map_nth (fun i => if (List.length (Series.window_at w ys i) <? mp)%nat
                             then FNaN else agg (Series.window_at w ys i))).
  rewrite seq_nth by exact Hi. reflexivity.
Qed.

(** The trailing window at [i] holds the last [min (i + 1) w] counts up to
    and including the one of period [i]. *)
Lemma length_window_at (w : nat) (ys : list Z) (i : nat) :
  (i < List.length ys)%nat ->
  List.length (Series.window_at w ys i) = Nat.min (S i) w.
Proof.
  intros Hi. unfold Series.window_at.
  rewrite length_skipn, length_firstn. lia.
Qed.

Lemma nth_window_at (w : nat) (ys : list Z) (i k : nat) :
  (i < List.length ys)%nat -> (k < Nat.min (S i) w)%nat ->
  nth k (Series.window_at w ys i) 0%Z = nth (S i - Nat.min (S i) w + k) ys 0%Z.
Proof.
  intros Hi Hk. unfold Series.window_at.
  rewrite nth_skipn, nth_firstn.
  replace (S i - w + k <? S i)%nat with true by (symmetry; apply Nat.ltb_lt; lia).
  f_equal. lia.
Qed.

Lemma window_at_first (w : nat) (ys : list Z) :
  (0 < w)%nat -> (0 < List.length ys)%nat ->
  Series.window_at w ys 0 = [nth 0 ys 0%Z].
Proof.
  intros Hw Hlen. destruct ys as [|y ys]; [simpl in Hlen; lia|].
  unfold Series.window_at. destruct w as [|w]; [lia|]. reflexivity.
Qed.

Lemma fdiv_nan_r (x : fl) : fdiv x FNaN = FNaN.
Proof. destruct x; reflexivity. Qed.

Lemma nth_z_scores (ys : list Z) (i : nat) :
  (i < List.length ys)%nat ->
  nth i (z_scores ys) FNaN =
  fdiv (fsub (of_Z (nth i ys 0%Z)) (nth i (rolling_means ys) FNaN))
       (fadd (nth i (rolling_stds ys) FNaN) epsilon).
Proof.
  intros Hi. unfold z_scores.
  change FNaN with (fdiv (fsub FNaN FNaN) (fadd FNaN epsilon)) at 1.
  rewrite nth_zip_with.
  - f_equal.
    + rewrite nth_zip_with.
      * rewrite nth_of_Z by exact Hi. reflexivity.
      * unfold rolling_means. rewrite length_map, length_rolling. reflexivity.
    + apply (map_nth (fun s => fadd s epsilon)).
  - unfold rolling_means, rolling_stds.
    rewrite length_zip_with, !length_map, !length_rolling. lia.
Qed.

(** C5, as worded, fails on the deviation of a one-period window: after
    [detect_anomalies] the first row's [std] is NaN, not 0, and so is its
    [z_score]. *)
Lemma C5_first_std_not_zero :
  exists anomalies frame stds zs,
    detect_anomalies 0 (of_Z 2) [frame_of scenario_series]
      = (Returned anomalies, [frame])
    /\ lookup "std" (df_columns frame) = Some (ColFloat stds)
    /\ lookup "z_score" (df_columns frame) = Some (ColFloat zs)
    /\ nth_error stds 0 = Some FNaN
    /\ nth_error zs 0 = Some FNaN
    /\ FNaN <> of_Z 0.
Proof.
  eexists. eexists. eexists. eexists.
  split; [vm_compute; reflexivity|].
  split; [reflexivity|]. split; [reflexivity|].
  split; [reflexivity|]. split; [reflexivity|]. discriminate.
Qed.

(** C5 (amended): on a frame holding a series of at least three periods,
    period [i] is judged on the trailing window of the last
    [min (i + 1) 4] counts up to [i] itself; [mean] is the window's mean and
    [std] its sample standard deviation, which is NaN (not 0) on a window
    of one; the first period's [z_score] is therefore NaN and the first
    period is never flagged, whatever the threshold. *)
Theorem detect_anomalies_window (qs : series) (threshold : fl)
        (d : DataFrame) (h : heap) :
  holds_series d qs ->
  (3 <= List.length qs)%nat ->
  exists anomalies d' means stds zs,
    detect_anomalies 0 threshold (d :: h) = (Returned anomalies, d' :: h)
    /\ lookup "mean" (df_columns d') = Some (ColFloat means)
    /\ lookup "std" (df_columns d') = Some (ColFloat stds)
    /\ lookup "z_score" (df_columns d') = Some (ColFloat zs)
    /\ (forall i, (i < List.length qs)%nat ->
          let w := Series.window_at 4 (counts qs) i in
          List.length w = Nat.min (S i) 4
          /\ (forall k, (k < List.length w)%nat ->
                nth k w 0%Z = count_at qs (S i - List.length w + k))
          /\ nth i means FNaN = Series.mean w
          /\ nth i stds FNaN = Series.std w
          /\ nth i zs FNaN =
             fdiv (fsub (of_Z (count_at qs i)) (nth i means FNaN))
                  (fadd (nth i stds FNaN) epsilon))
    /\ nth 0 stds FNaN = FNaN
    /\ nth 0 zs FNaN = FNaN
    /\ ~ In 0%nat (df_index anomalies).
Proof.
  intros Hd Hlen. pose proof Hd as (Hi & _).
  assert (Hys : List.length (counts qs) = List.length qs) by apply counts_length.
  assert (Hstd0 : nth 0 (rolling_stds (counts qs)) FNaN = FNaN).
  { unfold rolling_stds. rewrite nth_rolling by lia.
    rewrite window_at_first by lia. reflexivity. }
  assert (Hz0 : nth 0 (z_scores (counts qs)) FNaN = FNaN).
  { rewrite nth_z_scores by lia. rewrite Hstd0. simpl fadd. apply fdiv_nan_r. }
  eexists. eexists. eexists. eexists. eexists.
  split; [apply (detect_anomalies_run qs); assumption|].
  unfold with_anomaly_columns. find_column.
  split; [reflexivity|]. split; [reflexivity|]. split; [reflexivity|].
  split; [|split; [exact Hstd0|split; [exact Hz0|]]].
  - intros i Hlt. cbv zeta.
    rewrite length_window_at by lia.
    split; [reflexivity|].
    split; [intros k Hk; apply nth_window_at; lia|].
    assert (Hmp : (Nat.min (S i) 4 <? 1)%nat = false) by (apply Nat.ltb_ge; lia).
    split; [|split].
    + unfold rolling_means. rewrite nth_rolling by lia.
      rewrite length_window_at by lia. rewrite Hmp. reflexivity.
    + unfold rolling_stds. rewrite nth_rolling by lia.
      rewrite length_window_at by lia. rewrite Hmp. reflexivity.
    + apply nth_z_scores. lia.
  - cbn [df_select df_index set_column]. rewrite Hi.
    rewrite In_select_range by (rewrite length_anomaly_mask; exact Hys).
    rewrite nth_anomaly_mask, Hz0. simpl. intros [_ H]. discriminate.
Qed.

Lemma detect_anomalies_window_witness :
  exists anomalies d' means stds zs,
    detect_anomalies 0 (of_Z 2) [frame_of scenario_series]
      = (Returned anomalies, [d'])
    /\ lookup "mean" (df_columns d') = Some (ColFloat means)
    /\ lookup "std" (df_columns d') = Some (ColFloat stds)
    /\ lookup "z_score" (df_columns d') = Some (ColFloat zs)
    /\ (forall i, (i < List.length scenario_series)%nat ->
          let w := Series.window_at 4 (counts scenario_series) i in
          List.length w = Nat.min (S i) 4
          /\ (forall k, (k < List.length w)%nat ->
                nth k w 0%Z = count_at scenario_series (S i - List.length w + k))
          /\ nth i means FNaN = Series.mean w
          /\ nth i stds FNaN = Series.std w
          /\ nth i zs FNaN =
             fdiv (fsub (of_Z (count_at scenario_series i)) (nth i means FNaN))
                  (fadd (nth i stds FNaN) epsilon))
    /\ nth 0 stds FNaN = FNaN
    /\ nth 0 zs FNaN = FNaN
    /\ ~ In 0%nat (df_index anomalies).
Proof.
  apply (detect_anomalies_window scenario_series (of_Z 2)
           (frame_of scenario_series) []).
  - apply frame_of_holds.
  - simpl. lia.
Defined.

(** ** Running the summarizer *)

Lemma select_map_filter {A B : Type} (g : A -> bool) (f : A -> B) (l : list A) :
  select (map g l) (map f l) = map f (filter g l).
Proof.
  induction l as [|a l IH]; simpl; [reflexivity|].
  destruct (g a); simpl; rewrite IH; reflexivity.
Qed.

Lemma select_nil_filter {A B : Type} (g : A -> bool) (l : list A) (l' : list B) :
  List.length l' = List.length l ->
  (select (map g l) l' = [] <-> filter g l = []).
Proof.
  revert l'. induction l as [|a l IH]; intros [|b l'] Hlen; simpl in Hlen;
    try discriminate; simpl; [tauto|].
  destruct (g a); [split; discriminate|]. apply IH. lia.
Qed.

Lemma item_forecast_ds (fc : list ForecastPoint) (h : heap) :
  item_date (forecast_frame fc) "ds" h = (Returned (map fp_ds fc), h).
Proof. reflexivity. Qed.

Lemma item_future_yhat (mask : list bool) (fc : list ForecastPoint) (h : heap) :
  item_float (df_select mask (forecast_frame fc)) "yhat" h =
  (Returned (select mask (map fp_yhat fc)), h).
Proof. reflexivity. Qed.

Lemma item_future_yhat_upper (mask : list bool) (fc : list ForecastPoint) (h : heap) :
  item_float (df_select mask (forecast_frame fc)) "yhat_upper" h =
  (Returned (select mask (map fp_yhat_upper fc)), h).
Proof. reflexivity. Qed.

Lemma item_future_yhat_lower (mask : list bool) (fc : list ForecastPoint) (h : heap) :
  item_float (df_select mask (forecast_frame fc)) "yhat_lower" h =
  (Returned (select mask (map fp_yhat_lower fc)), h).
Proof. reflexivity. Qed.

Lemma future_frame_empty (fc : list ForecastPoint) (after : date) :
  df_empty (df_select (map (fun t => date_ltb after t) (map fp_ds fc))
              (forecast_frame fc)) =
  match future_points fc after with [] => true | _ :: _ => false end.
Proof.
  unfold df_empty. cbn [df_select forecast_frame df_index df_columns map].
  rewrite map_map.
  pose proof (select_nil_filter (fun p => date_ltb after (fp_ds p)) fc
                (seq 0 (List.length fc)) (length_seq _ _)) as Hnil.
  unfold future_points.
  destruct (filter _ fc) as [|p ps].
  - rewrite (proj2 Hnil eq_refl). reflexivity.
  - destruct (select _ (seq 0 (List.length fc))) as [|i js] eqn:E; [|reflexivity].
    destruct Hnil as [Hnil _]. specialize (Hnil eq_refl). discriminate.
Qed.

Lemma iloc_last_counts (q : date * Z) (qs : series) (h : heap) :
  iloc_last (counts (q :: qs)) h = (Returned (last_count (q :: qs)), h).
Proof. reflexivity. Qed.

Lemma iloc_first_counts (q : date * Z) (qs : series) (h : heap) :
  iloc_first (counts (q :: qs)) h = (Returned (first_count (q :: qs)), h).
Proof. reflexivity. Qed.

Lemma dmin_periods (q : date * Z) (qs : series) (h : heap) :
  of_option "ValueError" (Series.dmin (periods (q :: qs))) h =
  (Returned (start_date (q :: qs)), h).
Proof. reflexivity. Qed.

Lemma dmax_periods (q : date * Z) (qs : series) (h : heap) :
  of_option "ValueError" (Series.dmax (periods (q :: qs))) h =
  (Returned (end_date (q :: qs)), h).
Proof. reflexivity. Qed.

(** One statement run on a frame [d] that holds the non-empty series
    [q :: qs], as [H] says. *)
Ltac py_series_step H Hds Hy :=
  first
    [ progress (rewrite (holds_empty _ _ H); cbn [negb]; cbv iota)
    | erewrite bind_run by apply iloc_last_counts; cbv beta
    | erewrite bind_run by apply iloc_first_counts; cbv beta
    | erewrite bind_run by apply dmin_periods; cbv beta
    | erewrite bind_run by apply dmax_periods; cbv beta
    | py_frame_step Hds Hy ].

Lemma generate_summary_stats_run (qs : series) (fc : list ForecastPoint)
      (d : DataFrame) (h : heap) :
  holds_series d qs -> qs <> [] ->
  generate_summary_stats 0 (forecast_frame fc) (d :: h) =
  (Returned (summary_of qs fc), d :: h).
Proof.
  intros H Hne. destruct qs as [|q qs]; [congruence|].
  pose proof H as (Hi & Hds & Hy).
  unfold generate_summary_stats.
  repeat py_series_step H Hds Hy.
  fold (summary_base (q :: qs)).
  destruct fc as [|p fc]; [reflexivity|].
  change (df_empty (forecast_frame (p :: fc))) with false. cbv iota.
  erewrite bind_run by apply item_forecast_ds. cbv beta.
  repeat py_series_step H Hds Hy.
  rewrite future_frame_empty.
  unfold summary_of.
  destruct (future_points (p :: fc) (end_date (q :: qs))) as [|p' ps] eqn:Hfut;
    [reflexivity|].
  erewrite bind_run by apply item_future_yhat. cbv beta.
  rewrite map_map, select_map_filter.
  fold (future_points (p :: fc) (end_date (q :: qs))). rewrite Hfut.
  erewrite bind_run by reflexivity. cbv beta.
  erewrite bind_run by apply item_future_yhat_upper. cbv beta.
  rewrite select_map_filter.
  fold (future_points (p :: fc) (end_date (q :: qs))). rewrite Hfut.
  erewrite bind_run by reflexivity. cbv beta.
  erewrite bind_run by apply item_future_yhat_lower. cbv beta.
  rewrite select_map_filter.
  fold (future_points (p :: fc) (end_date (q :: qs))). rewrite Hfut.
  erewrite bind_run by reflexivity. cbv beta.
  reflexivity.
Qed.

(** With the empty frame [generate_forecast] returns for no model. *)
Lemma generate_summary_stats_absent (qs : series) (d : DataFrame) (h : heap) :
  holds_series d qs -> qs <> [] ->
  generate_summary_stats 0 empty_frame (d :: h) =
  (Returned (summary_base qs), d :: h).
Proof.
  intros H Hne. destruct qs as [|q qs]; [congruence|].
  pose proof H as (Hi & Hds & Hy).
  unfold generate_summary_stats.
  repeat py_series_step H Hds Hy.
  reflexivity.
Qed.

(** ** Running the comparator *)

Lemma skipn_cons_inv {A : Type} (s : nat) (L : list A) (y : A) (ys : list A) (d : A) :
  skipn s L = y :: ys -> nth s L d = y /\ skipn (S s) L = ys.
Proof.
  intros H. split.
  - rewrite <- (Nat.add_0_r s). rewrite <- nth_skipn. rewrite H. reflexivity.
  - change (S s) with (1 + s)%nat. rewrite <- skipn_skipn. rewrite H. reflexivity.
Qed.

(** [idxmax_from] scans the rest of a column [L] from position [s] on,
    holding the first position [best] of the largest value [m] seen. *)
Lemma idxmax_from_spec (L : list Z) (ys : list Z) :
  forall s best m,
    ys = skipn s L -> (best < s)%nat -> (s <= List.length L)%nat ->
    m = nth best L 0%Z ->
    (forall j, (j < s)%nat -> (nth j L 0 <= m)%Z) ->
    (forall j, (j < best)%nat -> (nth j L 0 < m)%Z) ->
    let r := Series.idxmax_from (seq s (List.length ys)) ys best m in
    (r < List.length L)%nat
    /\ (forall j, (j < List.length L)%nat -> (nth j L 0 <= nth r L 0)%Z)
    /\ (forall j, (j < r)%nat -> (nth j L 0 < nth r L 0)%Z).
Proof.
  induction ys as [|y ys IH]; intros s best m Hys Hbest Hs Hm Hle Hlt.
  - simpl.
    assert (Hlen : List.length (skipn s L) = 0%nat) by (rewrite <- Hys; reflexivity).
    rewrite length_skipn in Hlen.
    subst m. repeat split; [lia | | exact Hlt].
    intros j Hj. apply Hle. lia.
  - symmetry in Hys. destruct (skipn_cons_inv s L y ys 0%Z Hys) as [Hy Hys2].
    assert (Hlen : List.length (skipn s L) = S (List.length ys))
      by (rewrite Hys; reflexivity).
    rewrite length_skipn in Hlen.
    simpl List.length. simpl seq. simpl Series.idxmax_from.
    destruct (Z.ltb_spec m y) as [Hmy|Hmy].
    + apply IH; try lia; auto.
      * intros j Hj. destruct (Nat.eq_dec j s) as [->|Hne]; [lia|].
        specialize (Hle j). lia.
      * intros j Hj. specialize (Hle j). lia.
    + apply IH; try lia; auto.
      intros j Hj. destruct (Nat.eq_dec j s) as [->|Hne]; [lia|].
      apply Hle. lia.
Qed.

Lemma peak_index_spec (qs : series) :
  qs <> [] ->
  (peak_index qs < List.length qs)%nat
  /\ (forall j, (j < List.length qs)%nat ->
        (count_at qs j <= count_at qs (peak_index qs))%Z)
  /\ (forall j, (j < peak_index qs)%nat ->
        (count_at qs j < count_at qs (peak_index qs))%Z).
Proof.
  intros Hne. destruct qs as [|q qs]; [congruence|].
  unfold peak_index, count_at.
  change (counts (q :: qs)) with (snd q :: counts qs).
  change (List.length (q :: qs)) with (S (List.length qs)).
  simpl seq. cbn [Series.idxmax].
  rewrite <- (counts_length qs).
  pose proof (idxmax_from_spec (snd q :: counts qs) (counts qs) 1 0 (snd q)
                eq_refl ltac:(lia) ltac:(simpl; lia) eq_refl) as H.
  simpl List.length in H.
  apply H.
  - intros j Hj. replace j with 0%nat by lia. simpl. lia.
  - intros j Hj. lia.
Qed.

Lemma fold_left_max_spec (l : list Z) (a : Z) :
  let M := fold_left Z.max l a in
  (a <= M)%Z /\ (forall x, In x l -> (x <= M)%Z) /\ (M = a \/ In M l).
Proof.
  revert a. induction l as [|y l IH]; intros a; simpl.
  - repeat split; [lia | tauto | left; reflexivity].
  - destruct (IH (Z.max a y)) as (H1 & H2 & H3).
    repeat split.
    + lia.
    + intros x [<-|Hx]; [lia | apply H2; exact Hx].
    + destruct H3 as [H3|H3]; [|right; right; exact H3].
      destruct (Z.max_spec a y) as [[_ E]|[_ E]]; rewrite E in *.
      * right. left. symmetry. exact H3.
      * left. exact H3.
Qed.

Lemma max_is_peak (qs : series) :
  qs <> [] -> Series.max (counts qs) = Some (count_at qs (peak_index qs)).
Proof.
  intros Hne. destruct (peak_index_spec qs Hne) as (Hr & Hmax & _).
  destruct qs as [|q qs]; [congruence|].
  change (counts (q :: qs)) with (snd q :: counts qs). cbn [Series.max].
  f_equal.
  destruct (fold_left_max_spec (counts qs) (snd q)) as (H1 & H2 & H3).
  set (M := fold_left Z.max (counts qs) (snd q)) in *.
  assert (HinM : In M (counts (q :: qs))).
  { change (counts (q :: qs)) with (snd q :: counts qs).
    destruct H3 as [->|H3]; [left; reflexivity | right; exact H3]. }
  assert (Hup : forall x, In x (counts (q :: qs)) -> (x <= M)%Z).
  { change (counts (q :: qs)) with (snd q :: counts qs).
    intros x [<-|Hx]; [exact H1 | apply H2; exact Hx]. }
  apply Z.le_antisymm.
  - destruct (In_nth _ _ 0%Z HinM) as (j & Hj & Ej).
    rewrite counts_length in Hj. rewrite <- Ej. apply Hmax. exact Hj.
  - apply Hup. apply nth_In. rewrite counts_length. exact Hr.
Qed.

Lemma position_seq (i s n : nat) :
  (s <= i < s + n)%nat -> position i (seq s n) = Some (i - s)%nat.
Proof.
  revert s. induction n as [|n IH]; intros s Hi; [lia|].
  simpl. destruct (Nat.eqb_spec s i) as [->|Hne].
  - rewrite Nat.sub_diag. reflexivity.
  - rewrite IH by lia. simpl. f_equal. lia.
Qed.

Lemma loc_date_ds (qs : series) (i : nat) (d : DataFrame) (h : heap) :
  holds_series d qs -> (i < List.length qs)%nat ->
  loc_date 0 i "ds" (d :: h) =
  (Returned (nth i (periods qs) (mkdate 0 0 0)), d :: h).
Proof.
  intros (Hi & Hds & Hy) Hlt. unfold loc_date.
  erewrite bind_run by apply deref_run. cbv beta.
  unfold item_date, item. rewrite Hds.
  erewrite bind_run by reflexivity. cbv beta.
  rewrite Hi, position_seq by lia. rewrite Nat.sub_0_r.
  rewrite (nth_error_nth' (periods qs) (mkdate 0 0 0))
    by (rewrite periods_length; exact Hlt).
  reflexivity.
Qed.

Lemma idxmax_counts (q : date * Z) (qs : series) (h : heap) :
  of_option "ValueError"
    (Series.idxmax (seq 0 (List.length (q :: qs))) (counts (q :: qs))) h =
  (Returned (peak_index (q :: qs)), h).
Proof. reflexivity. Qed.

Lemma compare_one_run (drug : string) (qs : series) (comparison : list dict)
      (d : DataFrame) (h : heap) :
  holds_series d qs -> qs <> [] ->
  compare_one drug 0 comparison (d :: h) =
  (Returned (comparison ++ [comparison_row drug qs (peak_index qs)])%list,
   d :: h).
Proof.
  intros H Hne. pose proof (peak_index_spec qs Hne) as (Hr & _).
  pose proof (max_is_peak qs Hne) as Hmax.
  pose proof (holds_len d qs H) as Hlen.
  destruct qs as [|q qs]; [congruence|].
  pose proof H as (Hi & Hds & Hy).
  unfold compare_one.
  repeat first
    [ py_series_step H Hds Hy
    | rewrite Hi
    | erewrite bind_run by apply idxmax_counts; cbv beta
    | erewrite bind_run by (apply (loc_date_ds (q :: qs)); [exact H | exact Hr]);
      cbv beta
    | rewrite Hmax ].
  unfold ret, comparison_row, recent_counts. rewrite Hlen.
  destruct (4 <=? List.length (q :: qs))%nat; reflexivity.
Qed.

Lemma compare_drug_trends_run (drug : string) (qs : series)
      (d : DataFrame) (h : heap) :
  holds_series d qs -> qs <> [] ->
  compare_drug_trends [(drug, 0%nat)] (d :: h) =
  (Returned [comparison_row drug qs (peak_index qs)], d :: h).
Proof.
  intros H Hne. unfold compare_drug_trends, compare_loop.
  erewrite bind_run by (apply (compare_one_run drug qs); assumption).
  reflexivity.
Qed.

(** ** The comparator's row *)

(** C6, as worded, fails on the average: the comparator returns 35/3
    rounded to one decimal place, 11.7, which is neither 35/3 nor 11.67. *)
Lemma C6_recent_average_is_11_7 :
  exists row h',
    compare_drug_trends [("A", 0%nat)] [frame_of comparator_series]
      = (Returned [row], h')
    /\ lookup "recent_avg_quarterly" row = Some (VFloat (of_Q (117 # 10)))
    /\ of_Q (117 # 10) <> of_Q (35 # 3)
    /\ of_Q (117 # 10) <> of_Q (1167 # 100).
Proof.
  eexists. eexists. split; [vm_compute; reflexivity|].
  split; [reflexivity|]. split; vm_compute; discriminate.
Qed.

(** The comparator's row for the series 10, 20, 5 of the design. *)
Example compare_drug_trends_example :
  compare_drug_trends [("A", 0%nat)] [frame_of comparator_series] =
  (Returned [[("drug", VStr "A");
              ("total_reports", VInt 35);
              ("recent_avg_quarterly", VFloat (of_Q (117 # 10)));
              ("peak_quarter", VDate Q2_2023);
              ("peak_reports", VInt 20)]],
   [frame_of comparator_series]).
Proof. vm_compute. reflexivity. Qed.

(** C6 (amended): for a frame holding a non-empty series the comparator
    returns one row.  Its peak is the earliest period holding the largest
    count, and its recent average is the mean of the last four counts (of
    all of them when there are fewer than four) rounded to one decimal
    place; on 10, 20, 5 that is the second period, 20 and 11.7. *)
Theorem compare_drug_trends_row (drug : string) (qs : series)
        (d : DataFrame) (h : heap) :
  holds_series d qs ->
  qs <> [] ->
  exists row i,
    compare_drug_trends [(drug, 0%nat)] (d :: h) = (Returned [row], d :: h)
    /\ (i < List.length qs)%nat
    /\ (forall j, (j < List.length qs)%nat -> (count_at qs j <= count_at qs i)%Z)
    /\ (forall j, (j < i)%nat -> (count_at qs j < count_at qs i)%Z)
    /\ lookup "peak_quarter" row = Some (VDate (nth i (periods qs) (mkdate 0 0 0)))
    /\ lookup "peak_reports" row = Some (VInt (count_at qs i))
    /\ lookup "recent_avg_quarterly" row =
       Some (VFloat (round (Series.mean
                              (if (4 <=? List.length qs)%nat
                               then skipn (List.length qs - 4) (counts qs)
                               else counts qs)) 1)).
Proof.
  intros Hd Hne.
  destruct (peak_index_spec qs Hne) as (Hr & Hmax & Hfirst).
  exists (comparison_row drug qs (peak_index qs)), (peak_index qs).
  split; [apply compare_drug_trends_run; assumption|].
  repeat (split; [assumption|]).
  split; [reflexivity|]. split; [reflexivity|].
  cbn [comparison_row lookup String.eqb Ascii.eqb Bool.eqb].
  unfold recent_counts, Series.tail. rewrite counts_length. reflexivity.
Qed.

Lemma compare_drug_trends_row_witness :
  exists row i,
    compare_drug_trends [("A", 0%nat)] [frame_of comparator_series]
      = (Returned [row], [frame_of comparator_series])
    /\ (i < List.length comparator_series)%nat
    /\ (forall j, (j < List.length comparator_series)%nat ->
          (count_at comparator_series j <= count_at comparator_series i)%Z)
    /\ (forall j, (j < i)%nat ->
          (count_at comparator_series j < count_at comparator_series i)%Z)
    /\ lookup "peak_quarter" row =
       Some (VDate (nth i (periods comparator_series) (mkdate 0 0 0)))
    /\ lookup "peak_reports" row = Some (VInt (count_at comparator_series i))
    /\ lookup "recent_avg_quarterly" row =
       Some (VFloat (round (Series.mean
                              (if (4 <=? List.length comparator_series)%nat
                               then skipn (List.length comparator_series - 4)
                                      (counts comparator_series)
                               else counts comparator_series)) 1)).
Proof.
  apply (compare_drug_trends_row "A" comparator_series
           (frame_of comparator_series) []).
  - apply frame_of_holds.
  - discriminate.
Defined.

(** ** Trend, forecast entries and dates of the digest *)

Lemma last_cons {A : Type} (a d : A) (l : list A) : last (a :: l) d = last l a.
Proof.
  revert a d. induction l as [|b l IH]; intros a d; [reflexivity|].
  change (last (a :: b :: l) d) with (last (b :: l) d).
  rewrite (IH b d). symmetry. apply IH.
Qed.

Lemma last_count_is_last (qs : series) : last_count qs = last (counts qs) 0%Z.
Proof.
  unfold last_count. destruct (counts qs) as [|y ys]; [reflexivity|].
  symmetry. apply last_cons.
Qed.

Lemma lookup_trend (qs : series) (fc : list ForecastPoint) :
  lookup "trend" (summary_of qs fc) =
  Some (VStr (if (first_count qs <? last_count qs)%Z then "increasing"
              else "decreasing")).
Proof.
  unfold summary_of. destruct (future_points fc (end_date qs)); reflexivity.
Qed.

(** C7: the digest of a frame holding a non-empty series says
    ["increasing"] exactly when the last count is strictly greater than
    the first, and ["decreasing"] otherwise, equal counts included. *)
Theorem summary_trend (qs : series) (fc : list ForecastPoint)
        (d : DataFrame) (h : heap) :
  holds_series d qs ->
  qs <> [] ->
  exists stats,
    generate_summary_stats 0 (forecast_frame fc) (d :: h)
      = (Returned stats, d :: h)
    /\ (lookup "trend" stats = Some (VStr "increasing")
        <-> (hd 0 (counts qs) < last (counts qs) 0)%Z)
    /\ (lookup "trend" stats = Some (VStr "decreasing")
        <-> (last (counts qs) 0 <= hd 0 (counts qs))%Z)
    /\ ((hd 0 (counts qs) = last (counts qs) 0)%Z ->
        lookup "trend" stats = Some (VStr "decreasing")).
Proof.
  intros Hd Hne. exists (summary_of qs fc).
  split; [apply generate_summary_stats_run; assumption|].
  rewrite lookup_trend, <- last_count_is_last.
  fold (first_count qs).
  destruct (Z.ltb_spec (first_count qs) (last_count qs)) as [H|H].
  - split; [split; [intros _; exact H | reflexivity]|].
    split; [split; [discriminate | lia] | lia].
  - split; [split; [discriminate | lia]|].
    split; [split; [intros _; exact H | reflexivity] | reflexivity].
Qed.

Lemma summary_trend_witness :
  exists stats,
    generate_summary_stats 0 (forecast_frame []) [frame_of boundary_series]
      = (Returned stats, [frame_of boundary_series])
    /\ (lookup "trend" stats = Some (VStr "increasing")
        <-> (hd 0 (counts boundary_series) < last (counts boundary_series) 0)%Z)
    /\ (lookup "trend" stats = Some (VStr "decreasing")
        <-> (last (counts boundary_series) 0 <= hd 0 (counts boundary_series))%Z)
    /\ ((hd 0 (counts boundary_series) = last (counts boundary_series) 0)%Z ->
        lookup "trend" stats = Some (VStr "decreasing")).
Proof.
  apply (summary_trend boundary_series [] (frame_of boundary_series) []).
  - apply frame_of_holds.
  - discriminate.
Defined.

(** Equal first and last counts, computed: 7, 9, 7 is ["decreasing"]. *)
Example summary_trend_tie :
  exists stats h',
    generate_summary_stats 0 empty_frame
      [frame_of [(Q1_2023, 7); (Q2_2023, 9); (Q3_2023, 7)]%Z]
      = (Returned stats, h')
    /\ lookup "trend" stats = Some (VStr "decreasing").
Proof. eexists. eexists. split; [vm_compute; reflexivity | reflexivity]. Qed.

Lemma date_ltb_irrefl (a : date) : date_ltb a a = false.
Proof.
  unfold date_ltb. rewrite !Z.ltb_irrefl, !Z.eqb_refl. reflexivity.
Qed.

Lemma date_leb_refl (a : date) : date_leb a a = true.
Proof. unfold date_leb. rewrite date_ltb_irrefl. reflexivity. Qed.

(** On periods in increasing order the latest period is the last one. *)
Lemma dmax_sorted (ds : list date) (d : date) :
  StronglySorted (fun a b => date_ltb a b = true) (d :: ds) ->
  fold_left date_max ds d = last ds d.
Proof.
  revert d. induction ds as [|e ds IH]; intros d Hs; [reflexivity|].
  inversion Hs as [|? ? Hs' Hall]; subst.
  assert (Hde : date_ltb d e = true) by (inversion Hall; assumption).
  simpl fold_left. unfold date_max at 2. rewrite Hde.
  rewrite (IH e Hs'). symmetry. apply last_cons.
Qed.

Lemma end_date_sorted (qs : series) :
  StronglySorted (fun a b => date_ltb a b = true) (periods qs) ->
  end_date qs = last (periods qs) (mkdate 0 0 0).
Proof.
  intros Hs. unfold end_date.
  destruct (periods qs) as [|d ds]; [reflexivity|].
  cbn [Series.dmax]. rewrite last_cons. apply dmax_sorted. exact Hs.
Qed.

(** In a forecast in period order, the first point after a date is the
    earliest one after it. *)
Lemma first_future_is_earliest (fc : list ForecastPoint) (after : date)
      (p : ForecastPoint) (ps : list ForecastPoint) :
  StronglySorted (fun a b => date_leb (fp_ds a) (fp_ds b) = true) fc ->
  future_points fc after = p :: ps ->
  In p fc
  /\ date_ltb after (fp_ds p) = true
  /\ (forall p', In p' fc -> date_ltb after (fp_ds p') = true ->
        date_leb (fp_ds p) (fp_ds p') = true).
Proof.
  unfold future_points.
  induction fc as [|a fc IH]; intros Hs Hf; [discriminate|].
  inversion Hs as [|? ? Hs' Hall]; subst.
  simpl in Hf. destruct (date_ltb after (fp_ds a)) eqn:Ha.
  - injection Hf as -> _. split; [left; reflexivity|]. split; [exact Ha|].
    intros p' [<-|Hin] _; [apply date_leb_refl|].
    rewrite Forall_forall in Hall. apply Hall. exact Hin.
  - destruct (IH Hs' Hf) as (Hin & Hp & Hmin).
    split; [right; exact Hin|]. split; [exact Hp|].
    intros p' [<-|Hin'] Hp'; [congruence|]. apply Hmin; assumption.
Qed.

Lemma no_future_points (fc : list ForecastPoint) (after : date) :
  (forall p, In p fc -> date_ltb after (fp_ds p) = false) ->
  future_points fc after = [].
Proof.
  intros H. unfold future_points.
  induction fc as [|a fc IH]; [reflexivity|].
  simpl. rewrite (H a) by (left; reflexivity).
  apply IH. intros p Hp. apply H. right. exact Hp.
Qed.

(** The digest of 10, 20, 5 with [example_forecast], computed: the point
    of the third quarter is not after the series, the point of the fourth
    is the one recorded. *)
Example generate_summary_stats_example :
  generate_summary_stats 0 (forecast_frame example_forecast)
    [frame_of comparator_series] =
  (Returned [("total_reports", VInt 35);
             ("avg_quarterly_reports", VFloat (of_Q (1167 # 100)));
             ("std_quarterly_reports", VFloat (of_Q (764 # 100)));
             ("trend", VStr "decreasing");
             ("recent_quarter_reports", VInt 5);
             ("data_start", VStr "2023-03-31");
             ("data_end", VStr "2023-09-30");
             ("forecast_next_quarter", VFloat (of_Q (252 # 10)));
             ("forecast_upper_bound", VFloat (of_Z 40));
             ("forecast_lower_bound", VFloat (of_Z 11))],
   [frame_of comparator_series]).
Proof. vm_compute. reflexivity. Qed.

Ltac case_keys k :=
  repeat match goal with
         | |- context [String.eqb ?a k] =>
             destruct (String.eqb_spec a k); [subst k|]
         end.

(** C9, as worded, fails on the two dates of the digest: [data_start]
    (and [data_end]) hold the text that [strftime('%Y-%m-%d')] renders,
    not a date value. *)
Lemma C9_data_start_is_text :
  exists stats h',
    generate_summary_stats 0 (forecast_frame []) [frame_of comparator_series]
      = (Returned stats, h')
    /\ lookup "data_start" stats = Some (VStr "2023-03-31")
    /\ is_formatted_date (VStr "2023-03-31")
    /\ ~ is_date_value (VStr "2023-03-31").
Proof.
  eexists. eexists. split; [vm_compute; reflexivity|].
  split; [reflexivity|]. split; [exists Q1_2023; reflexivity|].
  simpl. tauto.
Qed.

Lemma summary_of_entries (qs : series) (fc : list ForecastPoint) :
  summary_of qs fc =
  match future_points fc (end_date qs) with
  | [] => summary_base qs
  | p :: _ =>
      (summary_base qs ++
       [("forecast_next_quarter", VFloat (round (fp_yhat p) 1));
        ("forecast_upper_bound", VFloat (round (fp_yhat_upper p) 1));
        ("forecast_lower_bound", VFloat (round (fp_yhat_lower p) 1))])%list
  end.
Proof.
  unfold summary_of. destruct (future_points fc (end_date qs)); reflexivity.
Qed.

(** ** Rounding of the returned metrics *)

(** On 10, 20, 5 the returned average, deviation and recent average are
    not the exact statistics: 35/3 is returned as 11.67 and as 11.7. *)
Example rounded_values_differ :
  round (Series.mean (counts comparator_series)) 2 = of_Q (1167 # 100)
  /\ Series.mean (counts comparator_series) = of_Q (35 # 3)
  /\ round (Series.mean (recent_counts comparator_series)) 1 = of_Q (117 # 10)
  /\ round (Series.std (counts comparator_series)) 2
     <> Series.std (counts comparator_series)
  /\ round (of_Q (2525 # 100)) 1 = of_Q (252 # 10).
Proof. vm_compute. repeat split; try reflexivity. discriminate. Qed.

(** ** What the operations do to the frames they are given *)

Lemma preserves_ret {A : Type} (a : A) : preserves_heap (ret a).
Proof. intros h. reflexivity. Qed.

Lemma preserves_raise {A : Type} (e : string) : preserves_heap (@raise A e).
Proof. intros h. reflexivity. Qed.

Lemma preserves_deref (r : ref) : preserves_heap (deref r).
Proof. intros h. unfold deref. destruct (nth_error h r); reflexivity. Qed.

Lemma preserves_bind {A B : Type} (c : Py A) (k : A -> Py B) :
  preserves_heap c -> (forall a, preserves_heap (k a)) ->
  preserves_heap (bind c k).
Proof.
  intros Hc Hk h. unfold bind. specialize (Hc h).
  destruct (c h) as [[a|e] h']; simpl in Hc; subst h'; [apply Hk | reflexivity].
Qed.

Ltac read_only :=
  lazymatch goal with
  | |- preserves_heap (bind _ _) =>
      apply preserves_bind; [read_only | intro; read_only]
  | |- preserves_heap (ret _) => apply preserves_ret
  | |- preserves_heap (raise _) => apply preserves_raise
  | |- preserves_heap (deref _) => apply preserves_deref
  | |- preserves_heap (if ?b then _ else _) => destruct b; read_only
  | |- preserves_heap (match ?x with _ => _ end) => destruct x; read_only
  | |- preserves_heap ?c =>
      first [ assumption
            | let f := head_of c in unfold f; cbv zeta; read_only ]
  end
with head_of c :=
  lazymatch c with
  | ?f _ => head_of f
  | ?f => f
  end.

Lemma preserves_compare_drug_trends (data_dict : list (string * ref)) :
  preserves_heap (compare_drug_trends data_dict).
Proof.
  unfold compare_drug_trends. generalize (@nil dict).
  induction data_dict as [|[drug df] items IH]; intros comparison; simpl.
  - apply preserves_ret.
  - apply preserves_bind; [|intro; apply IH].
    read_only.
Qed.

Lemma preserves_generate_summary_stats (df : ref) (forecast : DataFrame) :
  preserves_heap (generate_summary_stats df forecast).
Proof. read_only. Qed.

Lemma lookup_set_column_neq (name name' : string) (c : column) (d : DataFrame) :
  name' <> name ->
  lookup name (df_columns (set_column name' c d)) = lookup name (df_columns d).
Proof.
  intros Hne. apply lookup_set_column_other. apply String.eqb_neq. exact Hne.
Qed.

(** C2, as worded, fails for the two detectors: after [detect_anomalies]
    the caller's series frame is no longer the frame that was passed in;
    it has a [mean] column it did not have. *)
Lemma C2_detect_anomalies_changes_series :
  exists frame,
    snd (detect_anomalies 0 (of_Z 2) [frame_of scenario_series]) = [frame]
    /\ frame <> frame_of scenario_series
    /\ lookup "mean" (df_columns (frame_of scenario_series)) = None
    /\ lookup "mean" (df_columns frame)
       = Some (ColFloat [of_Z 5; of_Q (9 # 2); of_Z 13]).
Proof.
  eexists. split; [vm_compute; reflexivity|].
  split; [discriminate|]. split; reflexivity.
Qed.

(** C2 (amended): comparison and summarization leave every frame of the
    heap as it was.  Each detector leaves a series shorter than its minimum
    length (3 for anomalies, 2 for signals) as it was, and otherwise writes
    its working columns on the series frame itself: [mean], [std],
    [z_score], [is_anomaly], respectively [pct_change], [abs_change]; the
    index and every other column, [ds] and [y] among them, stay as they
    were. *)
Theorem frame_effects (qs : series) (threshold : fl) (min_reports : Z)
        (data_dict : list (string * ref)) (df : ref) (forecast : DataFrame)
        (d : DataFrame) (h h0 : heap) :
  holds_series d qs ->
  let d1 := with_anomaly_columns d (counts qs) threshold in
  let d2 := with_signal_columns d (counts qs) in
  snd (compare_drug_trends data_dict h0) = h0
  /\ snd (generate_summary_stats df forecast h0) = h0
  /\ snd (detect_anomalies 0 threshold (d :: h))
     = (if (List.length qs <? 3)%nat then d else d1) :: h
  /\ snd (detect_safety_signals 0 min_reports (d :: h))
     = (if (List.length qs <? 2)%nat then d else d2) :: h
  /\ df_index d1 = df_index d
  /\ df_index d2 = df_index d
  /\ lookup "mean" (df_columns d1) = Some (ColFloat (rolling_means (counts qs)))
  /\ lookup "std" (df_columns d1) = Some (ColFloat (rolling_stds (counts qs)))
  /\ lookup "z_score" (df_columns d1) = Some (ColFloat (z_scores (counts qs)))
  /\ lookup "is_anomaly" (df_columns d1)
     = Some (ColBool (anomaly_mask (counts qs) threshold))
  /\ lookup "pct_change" (df_columns d2) = Some (ColFloat (pct_changes (counts qs)))
  /\ lookup "abs_change" (df_columns d2) = Some (ColFloat (abs_changes (counts qs)))
  /\ (forall name, ~ In name ["mean"; "std"; "z_score"; "is_anomaly"] ->
        lookup name (df_columns d1) = lookup name (df_columns d))
  /\ (forall name, ~ In name ["pct_change"; "abs_change"] ->
        lookup name (df_columns d2) = lookup name (df_columns d)).
Proof.
  intros Hd d1 d2.
  split; [apply preserves_compare_drug_trends|].
  split; [apply preserves_generate_summary_stats|].
  split.
  { destruct (Nat.ltb_spec (List.length qs) 3) as [Hs|Hl].
    - rewrite (detect_anomalies_short qs) by assumption. reflexivity.
    - rewrite (detect_anomalies_run qs) by assumption. reflexivity. }
  split.
  { destruct (Nat.ltb_spec (List.length qs) 2) as [Hs|Hl].
    - rewrite (detect_safety_signals_short qs) by assumption. reflexivity.
    - rewrite (detect_safety_signals_run qs) by assumption. reflexivity. }
  subst d1 d2. unfold with_anomaly_columns, with_signal_columns.
  split; [reflexivity|]. split; [reflexivity|].
  do 6 (split; [find_column; reflexivity|]).
  split; intros name Hname; simpl in Hname;
    rewrite !lookup_set_column_neq by (intros E; apply Hname; tauto);
    reflexivity.
Qed.

Lemma frame_effects_witness :
  let d := frame_of scenario_series in
  let d1 := with_anomaly_columns d (counts scenario_series) (of_Z 2) in
  let d2 := with_signal_columns d (counts scenario_series) in
  snd (compare_drug_trends [("A", 0%nat)] [d]) = [d]
  /\ snd (generate_summary_stats 0 empty_frame [d]) = [d]
  /\ snd (detect_anomalies 0 (of_Z 2) [d])
     = [if (List.length scenario_series <? 3)%nat then d else d1]
  /\ snd (detect_safety_signals 0 10 [d])
     = [if (List.length scenario_series <? 2)%nat then d else d2]
  /\ df_index d1 = df_index d
  /\ df_index d2 = df_index d
  /\ lookup "mean" (df_columns d1)
     = Some (ColFloat (rolling_means (counts scenario_series)))
  /\ lookup "std" (df_columns d1)
     = Some (ColFloat (rolling_stds (counts scenario_series)))
  /\ lookup "z_score" (df_columns d1)
     = Some (ColFloat (z_scores (counts scenario_series)))
  /\ lookup "is_anomaly" (df_columns d1)
     = Some (ColBool (anomaly_mask (counts scenario_series) (of_Z 2)))
  /\ lookup "pct_change" (df_columns d2)
     = Some (ColFloat (pct_changes (counts scenario_series)))
  /\ lookup "abs_change" (df_columns d2)
     = Some (ColFloat (abs_changes (counts scenario_series)))
  /\ (forall name, ~ In name ["mean"; "std"; "z_score"; "is_anomaly"] ->
        lookup name (df_columns d1) = lookup name (df_columns d))
  /\ (forall name, ~ In name ["pct_change"; "abs_change"] ->
        lookup name (df_columns d2) = lookup name (df_columns d)).
Proof.
  apply (frame_effects scenario_series (of_Z 2) 10 [("A", 0%nat)] 0 empty_frame
           (frame_of scenario_series) [] [frame_of scenario_series]).
  apply frame_of_holds.
Defined.

(** ** The analysis of one product *)

Section Analysis.

Variable Model : Type.
Variable prophet_fit : DataFrame -> fl -> outcome Model.
Variable prophet_predict : Model -> Z -> outcome DataFrame.

Lemma train_prophet_model_short (qs : series) (cfg : config)
      (d : DataFrame) (h : heap) :
  holds_series d qs -> (List.length qs < 2)%nat ->
  train_prophet_model Model prophet_fit 0 cfg (d :: h) = (Returned None, d :: h).
Proof.
  intros H Hlen. unfold train_prophet_model.
  erewrite bind_run by apply deref_run. cbv beta.
  rewrite (holds_guard d qs 2 H) by lia.
  replace (List.length qs <? 2)%nat with true by (symmetry; apply Nat.ltb_lt; lia).
  reflexivity.
Qed.

Lemma train_prophet_model_fits (qs : series) (cfg : config)
      (d : DataFrame) (h : heap) (m : Model) :
  holds_series d qs -> (2 <= List.length qs)%nat ->
  prophet_fit d (prophet_changepoint_prior cfg) = Returned m ->
  train_prophet_model Model prophet_fit 0 cfg (d :: h) = (Returned (Some m), d :: h).
Proof.
  intros H Hlen Hfit. unfold train_prophet_model.
  erewrite bind_run by apply deref_run. cbv beta.
  rewrite (holds_guard d qs 2 H) by lia.
  replace (List.length qs <? 2)%nat with false by (symmetry; apply Nat.ltb_ge; lia).
  unfold call, bind. rewrite Hfit. reflexivity.
Qed.

(** A full run on a series long enough for every step.  The three
    analyses share the one frame: the signals are selected from a frame
    that already carries the columns of the anomaly detector, and the
    digest is read from the frame as both detectors left it. *)
Lemma run_analysis_long (qs : series) (cfg : config) (d : DataFrame) (h : heap)
      (m : Model) (fc : list ForecastPoint) :
  holds_series d qs -> (3 <= List.length qs)%nat ->
  prophet_fit d (prophet_changepoint_prior cfg) = Returned m ->
  prophet_predict m (forecast_horizon_quarters cfg) = Returned (forecast_frame fc) ->
  let d1 := with_anomaly_columns d (counts qs) (anomaly_threshold cfg) in
  let d2 := with_signal_columns d1 (counts qs) in
  run_analysis Model prophet_fit prophet_predict 0 cfg (d :: h) =
  (Returned (Some (mkbundle
     (forecast_frame fc)
     (df_select (anomaly_mask (counts qs) (anomaly_threshold cfg)) d1)
     (df_select (signal_mask (counts qs) (min_reports_for_signal cfg)) d2)
     (summary_of qs fc))),
   d2 :: h).
Proof.
  intros H Hlen Hfit Hpredict d1 d2.
  assert (Hne : qs <> []) by (destruct qs; [simpl in Hlen; lia | discriminate]).
  pose proof (with_anomaly_columns_holds d qs (anomaly_threshold cfg) H) as H1.
  pose proof (with_signal_columns_holds _ qs H1) as H2.
  unfold run_analysis.
  erewrite bind_run by apply deref_run. cbv beta.
  rewrite (holds_empty d qs H).
  destruct qs as [|q qs]; [congruence|]. cbv iota.
  erewrite bind_run
    by (apply (train_prophet_model_fits (q :: qs)); [exact H | lia | exact Hfit]).
  cbv beta.
  unfold generate_forecast, call at 1.
  erewrite bind_run by (rewrite Hpredict; reflexivity). cbv beta.
  erewrite bind_run by (apply (detect_anomalies_run (q :: qs)); [exact H | lia]).
  cbv beta.
  erewrite bind_run
    by (apply (detect_safety_signals_run (q :: qs)); [exact H1 | lia]).
  cbv beta.
  erewrite bind_run
    by (apply (generate_summary_stats_run (q :: qs)); [exact H2 | exact Hne]).
  reflexivity.
Qed.

(** C3 (amended): on a frame holding a series with fewer than two points
    nothing is raised.  [train_prophet_model] returns [None] without
    calling the library, [generate_forecast] turns [None] into an empty
    frame, and on a one-point series the analysis runs to its end: no
    forecast, no anomalies, no signals, and a digest without the three
    forecast entries.  On no point at all the analysis is skipped. *)
Theorem short_series_has_no_forecast (qs : series) (cfg : config)
        (d : DataFrame) (h : heap) :
  holds_series d qs ->
  (List.length qs < 2)%nat ->
  train_prophet_model Model prophet_fit 0 cfg (d :: h) = (Returned None, d :: h)
  /\ (forall periods h0,
        generate_forecast Model prophet_predict None periods h0
        = (Returned empty_frame, h0))
  /\ (qs = [] ->
      run_analysis Model prophet_fit prophet_predict 0 cfg (d :: h)
      = (Returned None, d :: h))
  /\ (qs <> [] ->
      exists summary,
        run_analysis Model prophet_fit prophet_predict 0 cfg (d :: h)
        = (Returned (Some (mkbundle empty_frame empty_frame empty_frame summary)),
           d :: h)
        /\ lookup "total_reports" summary = Some (VInt (Series.sum (counts qs)))
        /\ lookup "forecast_next_quarter" summary = None
        /\ lookup "forecast_upper_bound" summary = None
        /\ lookup "forecast_lower_bound" summary = None).
Proof.
  intros H Hlen.
  split; [apply (train_prophet_model_short qs); assumption|].
  split; [reflexivity|].
  split.
  - intros ->. unfold run_analysis.
    erewrite bind_run by apply deref_run. cbv beta.
    rewrite (holds_empty d [] H). reflexivity.
  - intros Hne. exists (summary_base qs).
    split; [|repeat split; reflexivity].
    unfold run_analysis.
    erewrite bind_run by apply deref_run. cbv beta.
    rewrite (holds_empty d qs H).
    destruct qs as [|q qs]; [congruence|]. cbv iota.
    erewrite bind_run
      by (apply (train_prophet_model_short (q :: qs)); assumption).
    cbv beta.
    erewrite bind_run by reflexivity. cbv beta.
    erewrite bind_run by (apply (detect_anomalies_short (q :: qs)); [exact H | lia]).
    cbv beta.
    erewrite bind_run
      by (apply (detect_safety_signals_short (q :: qs)); assumption).
    cbv beta.
    erewrite bind_run
      by (apply (generate_summary_stats_absent (q :: qs)); assumption).
    reflexivity.
Qed.

End Analysis.

(** C3, as worded, fails on the error: fitting on one point raises
    nothing, [InsufficientDataError] or other; the call returns [None]. *)
Lemma C3_no_error_is_raised :
  fst (train_prophet_model unit stub_fit 0 default_config
         [frame_of single_point_series])
  = Returned None
  /\ fst (train_prophet_model unit stub_fit 0 default_config
            [frame_of single_point_series])
     <> Raised "InsufficientDataError"
  /\ (forall e,
        fst (train_prophet_model unit stub_fit 0 default_config
               [frame_of single_point_series])
        <> Raised e)
  /\ (forall e,
        fst (generate_forecast unit stub_predict None 4
               [frame_of single_point_series])
        <> Raised e).
Proof.
  repeat split; try reflexivity; try intros e; discriminate.
Qed.

Lemma short_series_has_no_forecast_witness :
  train_prophet_model unit stub_fit 0 default_config
    [frame_of single_point_series]
  = (Returned None, [frame_of single_point_series])
  /\ (forall periods h0,
        generate_forecast unit stub_predict None periods h0
        = (Returned empty_frame, h0))
  /\ (single_point_series = [] ->
      run_analysis unit stub_fit stub_predict 0 default_config
        [frame_of single_point_series]
      = (Returned None, [frame_of single_point_series]))
  /\ (single_point_series <> [] ->
      exists summary,
        run_analysis unit stub_fit stub_predict 0 default_config
          [frame_of single_point_series]
        = (Returned (Some (mkbundle empty_frame empty_frame empty_frame summary)),
           [frame_of single_point_series])
        /\ lookup "total_reports" summary
           = Some (VInt (Series.sum (counts single_point_series)))
        /\ lookup "forecast_next_quarter" summary = None
        /\ lookup "forecast_upper_bound" summary = None
        /\ lookup "forecast_lower_bound" summary = None).
Proof.
  apply (short_series_has_no_forecast unit stub_fit stub_predict
           single_point_series default_config
           (frame_of single_point_series) []).
  - apply frame_of_holds.
  - simpl. lia.
Defined.

(** The one-point scenario of the design, computed. *)
Example run_analysis_single_point :
  run_analysis unit stub_fit stub_predict 0 default_config
    [frame_of single_point_series] =
  (Returned (Some (mkbundle empty_frame empty_frame empty_frame
     [("total_reports", VInt 3);
      ("avg_quarterly_reports", VFloat (of_Z 3));
      ("std_quarterly_reports", VFloat FNaN);
      ("trend", VStr "decreasing");
      ("recent_quarter_reports", VInt 3);
      ("data_start", VStr "2023-03-31");
      ("data_end", VStr "2023-03-31")])),
   [frame_of single_point_series]).
Proof. vm_compute. reflexivity. Qed.

(** The end-to-end scenario of the design, computed: after the run the
    series frame has eight columns, and so has the frame of signals. *)
Example run_analysis_scenario :
  exists b d',
    run_analysis unit stub_fit stub_predict 0 default_config
      [frame_of scenario_series] = (Returned (Some b), [d'])
    /\ map fst (df_columns d')
       = ["ds"; "y"; "mean"; "std"; "z_score"; "is_anomaly";
          "pct_change"; "abs_change"]
    /\ df_index (b_signals b) = [2%nat]
    /\ map fst (df_columns (b_signals b)) = map fst (df_columns d')
    /\ df_index (b_anomalies b) = []
    /\ lookup "forecast_next_quarter" (b_summary b)
       = Some (VFloat (of_Q (252 # 10))).
Proof.
  eexists. eexists. split; [vm_compute; reflexivity|].
  repeat split; reflexivity.
Qed.

(** * Further properties of the code *)

(** ** The rows the detectors return *)

Lemma select_seq_sorted (mask : list bool) (s n : nat) :
  StronglySorted lt (select mask (seq s n))
  /\ Forall (fun i => (s <= i < s + n)%nat) (select mask (seq s n)).
Proof.
  revert mask s. induction n as [|n IH]; intros mask s.
  - destruct mask; simpl; split; constructor.
  - destruct mask as [|b mask]; [simpl; split; constructor|].
    destruct (IH mask (S s)) as [Hs Hr].
    assert (Hr' : Forall (fun i => (s <= i < s + S n)%nat)
                    (select mask (seq (S s) n))).
    { eapply Forall_impl; [|exact Hr]. simpl. intros i Hi. lia. }
    simpl. destruct b; [|split; assumption].
    split.
    + constructor; [exact Hs|].
      eapply Forall_impl; [|exact Hr]. simpl. intros i Hi. lia.
    + constructor; [lia | exact Hr'].
Qed.

Lemma select_rows {A : Type} (mask : list bool) (l : list A) (d : A) :
  select mask l =
  map (fun i => nth i l d) (select mask (seq 0 (List.length l))).
Proof.
  rewrite (list_as_map_nth l d) at 1. apply select_map.
Qed.

(** What a selection of a frame holding a series looks like. *)
Lemma selection_of_series (mask : list bool) (d : DataFrame) (qs : series) :
  holds_series d qs ->
  let r := df_select mask d in
  StronglySorted lt (df_index r)
  /\ Forall (fun i => (i < List.length qs)%nat) (df_index r)
  /\ lookup "ds" (df_columns r)
     = Some (ColDate (map (fun i => nth i (periods qs) (mkdate 0 0 0))
                        (df_index r)))
  /\ lookup "y" (df_columns r)
     = Some (ColInt (map (count_at qs) (df_index r))).
Proof.
  intros (Hi & Hds & Hy) r. subst r.
  rewrite !lookup_df_select, Hds, Hy.
  cbn [df_select df_index option_map col_select]. rewrite Hi.
  destruct (select_seq_sorted mask 0 (List.length qs)) as [Hs Hr].
  split; [exact Hs|].
  split; [eapply Forall_impl; [|exact Hr]; simpl; intros i H; lia|].
  split; do 2 f_equal.
  - rewrite (select_rows mask (periods qs) (mkdate 0 0 0)), periods_length.
    reflexivity.
  - rewrite (select_rows mask (counts qs) 0%Z), counts_length. reflexivity.
Qed.

(** X1: whatever the threshold and [min_reports], both detectors return
    rows of the series they were given: the labels of the returned frame
    increase strictly (chronological order, no period twice), each is the
    position of a period of the series, and the row under label [i] carries
    the period and the count of position [i]. *)
Theorem flagged_rows_are_series_rows (qs : series) (threshold : fl)
        (min_reports : Z) (d : DataFrame) (h : heap) :
  holds_series d qs ->
  exists anomalies signals h1 h2,
    detect_anomalies 0 threshold (d :: h) = (Returned anomalies, h1)
    /\ detect_safety_signals 0 min_reports (d :: h) = (Returned signals, h2)
    /\ forall r, r = anomalies \/ r = signals ->
         StronglySorted lt (df_index r)
         /\ Forall (fun i => (i < List.length qs)%nat) (df_index r)
         /\ (df_index r <> [] ->
             lookup "ds" (df_columns r)
             = Some (ColDate (map (fun i => nth i (periods qs) (mkdate 0 0 0))
                                (df_index r)))
             /\ lookup "y" (df_columns r)
                = Some (ColInt (map (count_at qs) (df_index r)))).
Proof.
  intros Hd.
  assert (Hempty : StronglySorted lt (df_index empty_frame)
                   /\ Forall (fun i => (i < List.length qs)%nat)
                        (df_index empty_frame)
                   /\ (df_index empty_frame <> [] ->
                       lookup "ds" (df_columns empty_frame)
                       = Some (ColDate (map (fun i => nth i (periods qs) (mkdate 0 0 0))
                                          (df_index empty_frame)))
                       /\ lookup "y" (df_columns empty_frame)
                          = Some (ColInt (map (count_at qs) (df_index empty_frame))))).
  { simpl. repeat split; try constructor; congruence. }
  assert (Hsel : forall mask d0, holds_series d0 qs ->
            StronglySorted lt (df_index (df_select mask d0))
            /\ Forall (fun i => (i < List.length qs)%nat) (df_index (df_select mask d0))
            /\ (df_index (df_select mask d0) <> [] ->
                lookup "ds" (df_columns (df_select mask d0))
                = Some (ColDate (map (fun i => nth i (periods qs) (mkdate 0 0 0))
                                   (df_index (df_select mask d0))))
                /\ lookup "y" (df_columns (df_select mask d0))
                   = Some (ColInt (map (count_at qs) (df_index (df_select mask d0)))))).
  { intros mask d0 H0.
    destruct (selection_of_series mask d0 qs H0) as (H1 & H2 & H3 & H4).
    repeat split; assumption. }
  destruct (Nat.lt_ge_cases (List.length qs) 3) as [Ha|Ha];
    destruct (Nat.lt_ge_cases (List.length qs) 2) as [Hs|Hs]; try lia.
  - exists empty_frame, empty_frame. eexists. eexists.
    split; [apply (detect_anomalies_short qs); assumption|].
    split; [apply (detect_safety_signals_short qs); assumption|].
    intros r [->| ->]; exact Hempty.
  - exists empty_frame. eexists. eexists. eexists.
    split; [apply (detect_anomalies_short qs); assumption|].
    split; [apply (detect_safety_signals_run qs); assumption|].
    intros r [->| ->]; [exact Hempty|].
    apply Hsel. apply with_signal_columns_holds. exact Hd.
  - eexists. eexists. eexists. eexists.
    split; [apply (detect_anomalies_run qs); assumption|].
    split; [apply (detect_safety_signals_run qs); assumption|].
    intros r [->| ->]; apply Hsel.
    + apply with_anomaly_columns_holds. exact Hd.
    + apply with_signal_columns_holds. exact Hd.
Qed.

Lemma flagged_rows_are_series_rows_witness :
  exists anomalies signals h1 h2,
    detect_anomalies 0 (of_Q (1 # 2)) [frame_of scenario_series]
      = (Returned anomalies, h1)
    /\ detect_safety_signals 0 10 [frame_of scenario_series]
       = (Returned signals, h2)
    /\ forall r, r = anomalies \/ r = signals ->
         StronglySorted lt (df_index r)
         /\ Forall (fun i => (i < List.length scenario_series)%nat) (df_index r)
         /\ (df_index r <> [] ->
             lookup "ds" (df_columns r)
             = Some (ColDate (map (fun i => nth i (periods scenario_series)
                                              (mkdate 0 0 0))
                                (df_index r)))
             /\ lookup "y" (df_columns r)
                = Some (ColInt (map (count_at scenario_series) (df_index r)))).
Proof.
  apply (flagged_rows_are_series_rows scenario_series (of_Q (1 # 2)) 10
           (frame_of scenario_series) []).
  apply frame_of_holds.
Defined.

(** X2: on non-negative counts, a period is flagged by
    [detect_safety_signals] exactly when it is not the first, its count
    exceeds the previous count by more than [min_reports] and is more than
    one and a half times the previous count.  So a period whose count did
    not rise is never flagged, even under a negative [min_reports], and a
    rise from zero is flagged as soon as it exceeds [min_reports]. *)
Theorem signal_needs_rise (qs : series) (min_reports : Z)
        (d : DataFrame) (h : heap) :
  holds_series d qs ->
  Forall (fun q => 0 <= snd q)%Z qs ->
  exists signals h',
    detect_safety_signals 0 min_reports (d :: h) = (Returned signals, h')
    /\ (forall i,
          In i (df_index signals) <->
          (1 <= i < List.length qs)%nat
          /\ (min_reports < count_at qs i - count_at qs (i - 1))%Z
          /\ (3 * count_at qs (i - 1) < 2 * count_at qs i)%Z)
    /\ (forall i, In i (df_index signals) ->
          (count_at qs (i - 1) < count_at qs i)%Z)
    /\ (forall i, (1 <= i < List.length qs)%nat ->
          count_at qs (i - 1) = 0%Z ->
          (In i (df_index signals) <->
           (0 < count_at qs i /\ min_reports < count_at qs i)%Z)).
Proof.
  intros Hd Hpos. pose proof Hd as (Hi & _).
  assert (Hnn : forall i, (0 <= count_at qs i)%Z).
  { intros i. unfold count_at.
    destruct (Nat.lt_ge_cases i (List.length (counts qs))) as [Hlt|Hge].
    - pose proof (counts_nonneg _ Hpos) as Hc. rewrite Forall_forall in Hc.
      apply Hc. apply nth_In. exact Hlt.
    - rewrite nth_overflow by exact Hge. lia. }
  assert (Hchar : forall i,
    In i (select (signal_mask (counts qs) min_reports) (seq 0 (List.length qs))) <->
    (1 <= i < List.length qs)%nat
    /\ (min_reports < count_at qs i - count_at qs (i - 1))%Z
    /\ (3 * count_at qs (i - 1) < 2 * count_at qs i)%Z).
  { intros i. rewrite (signal_flags qs min_reports i Hpos).
    unfold absolute_change, percent_change_above_50.
    pose proof (Hnn i). pose proof (Hnn (i - 1)%nat). intuition lia. }
  destruct (Nat.lt_ge_cases (List.length qs) 2) as [Hs|Hl].
  - exists empty_frame. eexists.
    split; [apply (detect_safety_signals_short qs); assumption|].
    simpl. repeat split; try tauto; try lia.
  - eexists. eexists.
    split; [apply (detect_safety_signals_run qs); assumption|].
    cbn [df_select df_index with_signal_columns set_column]. rewrite Hi.
    split; [exact Hchar|]. split.
    + intros i Hin. apply Hchar in Hin. pose proof (Hnn (i - 1)%nat). lia.
    + intros i Hr H0. rewrite Hchar, H0. pose proof (Hnn i). intuition lia.
Qed.

Lemma signal_needs_rise_witness :
  exists signals h',
    detect_safety_signals 0 (-5) [frame_of comparator_series]
      = (Returned signals, h')
    /\ (forall i,
          In i (df_index signals) <->
          (1 <= i < List.length comparator_series)%nat
          /\ (-5 < count_at comparator_series i
                   - count_at comparator_series (i - 1))%Z
          /\ (3 * count_at comparator_series (i - 1)
              < 2 * count_at comparator_series i)%Z)
    /\ (forall i, In i (df_index signals) ->
          (count_at comparator_series (i - 1) < count_at comparator_series i)%Z)
    /\ (forall i, (1 <= i < List.length comparator_series)%nat ->
          count_at comparator_series (i - 1) = 0%Z ->
          (In i (df_index signals) <->
           (0 < count_at comparator_series i
            /\ -5 < count_at comparator_series i)%Z)).
Proof.
  apply (signal_needs_rise comparator_series (-5)
           (frame_of comparator_series) []).
  - apply frame_of_holds.
  - repeat constructor; simpl; lia.
Defined.

(** ** A frame without its [y] column *)

Lemma bind_raise {A B : Type} (c : Py A) (k : A -> Py B) (h h' : heap)
      (e : string) :
  c h = (Raised e, h') -> bind c k h = (Raised e, h').
Proof. intros H. unfold bind. rewrite H. reflexivity. Qed.

Lemma getitem_int_missing (name : string) (d : DataFrame) (h : heap) :
  lookup name (df_columns d) = None ->
  getitem_int 0 name (d :: h) = (Raised "KeyError", d :: h).
Proof.
  intros H. cbv [getitem_int item_int item bind deref nth_error].
  rewrite H. reflexivity.
Qed.

(** X3: handed a non-empty frame of three rows or more that has no [y]
    column, every operation of the analysis raises [KeyError] at its first
    read and writes nothing: the detectors add none of their working
    columns, and neither a digest nor a comparison row is produced. *)
Theorem missing_counts_raise_KeyError (d : DataFrame) (h : heap)
        (threshold : fl) (min_reports : Z) (forecast : DataFrame)
        (drug : string) :
  lookup "y" (df_columns d) = None ->
  df_empty d = false ->
  (3 <= df_len d)%nat ->
  detect_anomalies 0 threshold (d :: h) = (Raised "KeyError", d :: h)
  /\ detect_safety_signals 0 min_reports (d :: h) = (Raised "KeyError", d :: h)
  /\ generate_summary_stats 0 forecast (d :: h) = (Raised "KeyError", d :: h)
  /\ compare_drug_trends [(drug, 0%nat)] (d :: h) = (Raised "KeyError", d :: h).
Proof.
  intros Hy He Hlen.
  assert (H3 : (df_len d <? 3)%nat = false) by (apply Nat.ltb_ge; lia).
  assert (H2 : (df_len d <? 2)%nat = false) by (apply Nat.ltb_ge; lia).
  repeat split.
  - unfold detect_anomalies.
    erewrite bind_run by apply deref_run. cbv beta.
    rewrite He, H3. cbn [orb].
    apply bind_raise, getitem_int_missing, Hy.
  - unfold detect_safety_signals.
    erewrite bind_run by apply deref_run. cbv beta.
    rewrite He, H2. cbn [orb].
    apply bind_raise, getitem_int_missing, Hy.
  - unfold generate_summary_stats.
    erewrite bind_run by apply deref_run. cbv beta.
    rewrite He.
    apply bind_raise, getitem_int_missing, Hy.
  - unfold compare_drug_trends, compare_loop.
    apply bind_raise. unfold compare_one.
    erewrite bind_run by apply deref_run. cbv beta.
    rewrite He.
    erewrite bind_run by apply deref_run. cbv beta.
    apply bind_raise, getitem_int_missing, Hy.
Qed.

Lemma missing_counts_raise_KeyError_witness :
  detect_anomalies 0 (of_Z 2) [frame_without_y]
    = (Raised "KeyError", [frame_without_y])
  /\ detect_safety_signals 0 10 [frame_without_y]
     = (Raised "KeyError", [frame_without_y])
  /\ generate_summary_stats 0 empty_frame [frame_without_y]
     = (Raised "KeyError", [frame_without_y])
  /\ compare_drug_trends [("A", 0%nat)] [frame_without_y]
     = (Raised "KeyError", [frame_without_y]).
Proof.
  apply (missing_counts_raise_KeyError frame_without_y [] (of_Z 2) 10
           empty_frame "A").
  - reflexivity.
  - reflexivity.
  - unfold df_len. simpl. lia.
Defined.

(** ** The analysis block as a whole *)

Section AnalysisBlock.

Variable Model : Type.
Variable prophet_fit : DataFrame -> fl -> outcome Model.
Variable prophet_predict : Model -> Z -> outcome DataFrame.

(** X4: when the forecasting library raises, in the fit or in the
    prediction, the analysis of a series of two periods or more stops with
    that exception before either detector has run: no working column has
    been written on the frame and no digest exists. *)
Theorem library_failure_stops_analysis (qs : series) (cfg : config)
        (d : DataFrame) (h : heap) (e : string) :
  holds_series d qs -> (2 <= List.length qs)%nat ->
  (prophet_fit d (prophet_changepoint_prior cfg) = Raised e
   \/ exists m, prophet_fit d (prophet_changepoint_prior cfg) = Returned m
                /\ prophet_predict m (forecast_horizon_quarters cfg) = Raised e) ->
  run_analysis Model prophet_fit prophet_predict 0 cfg (d :: h)
  = (Raised e, d :: h).
Proof.
  intros H Hlen Hfail.
  unfold run_analysis.
  erewrite bind_run by apply deref_run. cbv beta.
  rewrite (holds_empty d qs H).
  destruct qs as [|q qs]; [simpl in Hlen; lia|]. cbv iota.
  destruct Hfail as [Hfit | (m & Hfit & Hpredict)].
  - apply bind_raise. unfold train_prophet_model.
    erewrite bind_run by apply deref_run. cbv beta.
    rewrite (holds_guard d (q :: qs) 2 H) by lia.
    replace (List.length (q :: qs) <? 2)%nat with false
      by (symmetry; apply Nat.ltb_ge; lia).
    apply bind_raise. unfold call. rewrite Hfit. reflexivity.
  - erewrite bind_run
      by (apply (train_prophet_model_fits Model prophet_fit (q :: qs));
          [exact H | lia | exact Hfit]).
    cbv beta. apply bind_raise.
    unfold generate_forecast, call. rewrite Hpredict. reflexivity.
Qed.

(** X5: in a run on three periods or more in which the library answers,
    the detectors and the digest compose as follows.  The frame ends with
    the six working columns of both detectors; the rows reported as safety
    signals also carry the z-score and the anomaly flag the earlier
    detector wrote; and the digest is the one [generate_summary_stats]
    gives on the frame as it was collected, whatever the detectors wrote
    in between. *)
Theorem analysis_block_composes (qs : series) (cfg : config)
        (d : DataFrame) (h : heap) (m : Model) (fc : list ForecastPoint) :
  holds_series d qs -> (3 <= List.length qs)%nat ->
  prophet_fit d (prophet_changepoint_prior cfg) = Returned m ->
  prophet_predict m (forecast_horizon_quarters cfg)
    = Returned (forecast_frame fc) ->
  exists b d',
    run_analysis Model prophet_fit prophet_predict 0 cfg (d :: h)
      = (Returned (Some b), d' :: h)
    /\ holds_series d' qs
    /\ (forall name,
          In name ["mean"; "std"; "z_score"; "is_anomaly";
                   "pct_change"; "abs_change"] ->
          lookup name (df_columns d') <> None)
    /\ b_forecast b = forecast_frame fc
    /\ lookup "z_score" (df_columns (b_signals b))
       = Some (ColFloat (select (signal_mask (counts qs)
                                   (min_reports_for_signal cfg))
                           (z_scores (counts qs))))
    /\ lookup "is_anomaly" (df_columns (b_signals b))
       = Some (ColBool (select (signal_mask (counts qs)
                                  (min_reports_for_signal cfg))
                          (anomaly_mask (counts qs) (anomaly_threshold cfg))))
    /\ generate_summary_stats 0 (forecast_frame fc) (d :: h)
       = (Returned (b_summary b), d :: h).
Proof.
  intros H Hlen Hfit Hpredict.
  assert (Hne : qs <> []) by (destruct qs; [simpl in Hlen; lia | discriminate]).
  eexists. eexists.
  split; [apply (run_analysis_long Model prophet_fit prophet_predict qs cfg d h m fc);
          assumption|].
  cbn [b_forecast b_signals b_summary].
  split.
  { apply with_signal_columns_holds, with_anomaly_columns_holds, H. }
  split.
  { intros name Hin. simpl in Hin.
    unfold with_signal_columns, with_anomaly_columns.
    repeat (destruct Hin as [<-|Hin]; [find_column; discriminate|]).
    contradiction. }
  split; [reflexivity|].
  split.
  { rewrite lookup_df_select.
    unfold with_signal_columns, with_anomaly_columns. find_column.
    reflexivity. }
  split.
  { rewrite lookup_df_select.
    unfold with_signal_columns, with_anomaly_columns. find_column.
    reflexivity. }
  symmetry. rewrite (generate_summary_stats_run qs fc d h H Hne). reflexivity.
Qed.

End AnalysisBlock.

Lemma analysis_block_composes_witness :
  exists b d',
    run_analysis unit stub_fit stub_predict 0 default_config
      [frame_of scenario_series] = (Returned (Some b), [d'])
    /\ holds_series d' scenario_series
    /\ (forall name,
          In name ["mean"; "std"; "z_score"; "is_anomaly";
                   "pct_change"; "abs_change"] ->
          lookup name (df_columns d') <> None)
    /\ b_forecast b = forecast_frame example_forecast
    /\ lookup "z_score" (df_columns (b_signals b))
       = Some (ColFloat (select (signal_mask (counts scenario_series)
                                   (min_reports_for_signal default_config))
                           (z_scores (counts scenario_series))))
    /\ lookup "is_anomaly" (df_columns (b_signals b))
       = Some (ColBool (select (signal_mask (counts scenario_series)
                                  (min_reports_for_signal default_config))
                          (anomaly_mask (counts scenario_series)
                             (anomaly_threshold default_config))))
    /\ generate_summary_stats 0 (forecast_frame example_forecast)
         [frame_of scenario_series]
       = (Returned (b_summary b), [frame_of scenario_series]).
Proof.
  apply (analysis_block_composes unit stub_fit stub_predict scenario_series
           default_config (frame_of scenario_series) [] tt example_forecast).
  - apply frame_of_holds.
  - simpl. lia.
  - reflexivity.
  - reflexivity.
Defined.

Lemma library_failure_stops_analysis_witness :
  run_analysis unit failing_fit stub_predict 0 default_config
    [frame_of scenario_series]
  = (Raised "RuntimeError", [frame_of scenario_series])
  /\ run_analysis unit stub_fit failing_predict 0 default_config
       [frame_of scenario_series]
     = (Raised "RuntimeError", [frame_of scenario_series]).
Proof.
  split.
  - apply (library_failure_stops_analysis unit failing_fit stub_predict
             scenario_series default_config (frame_of scenario_series) []
             "RuntimeError").
    + apply frame_of_holds.
    + simpl. lia.
    + left. reflexivity.
  - apply (library_failure_stops_analysis unit stub_fit failing_predict
             scenario_series default_config (frame_of scenario_series) []
             "RuntimeError").
    + apply frame_of_holds.
    + simpl. lia.
    + right. exists tt. split; reflexivity.
Defined.

(** ** Comparing several drugs *)

Lemma deref_at (r : ref) (d : DataFrame) (h : heap) :
  nth_error h r = Some d -> deref r h = (Returned d, h).
Proof. intros H. unfold deref. rewrite H. reflexivity. Qed.

Lemma getitem_int_at (r : ref) (name : string) (l : list Z) (d : DataFrame)
      (h : heap) :
  nth_error h r = Some d ->
  lookup name (df_columns d) = Some (ColInt l) ->
  getitem_int r name h = (Returned l, h).
Proof.
  intros Hr H. cbv [getitem_int item_int item bind deref].
  rewrite Hr, H. reflexivity.
Qed.

Lemma loc_date_at (r : ref) (qs : series) (i : nat) (d : DataFrame) (h : heap) :
  nth_error h r = Some d ->
  holds_series d qs -> (i < List.length qs)%nat ->
  loc_date r i "ds" h = (Returned (nth i (periods qs) (mkdate 0 0 0)), h).
Proof.
  intros Hr (Hi & Hds & Hy) Hlt. unfold loc_date.
  erewrite bind_run by (apply deref_at; exact Hr). cbv beta.
  unfold item_date, item. rewrite Hds.
  erewrite bind_run by reflexivity. cbv beta.
  rewrite Hi, position_seq by lia. rewrite Nat.sub_0_r.
  rewrite (nth_error_nth' (periods qs) (mkdate 0 0 0))
    by (rewrite periods_length; exact Hlt).
  reflexivity.
Qed.

(** One statement of the comparator run on the frame behind [r]. *)
Ltac py_read_step Hr H Hy :=
  first
    [ progress (rewrite (holds_empty _ _ H); cbn [negb]; cbv iota)
    | rewrite bind_assoc
    | erewrite bind_run by (apply deref_at; exact Hr)
    | erewrite bind_run by (eapply getitem_int_at; [exact Hr | exact Hy])
    | lazymatch goal with
      | |- context [bind (ret ?a) ?k ?h] =>
          change (bind (ret a) k h) with (k a h)
      | |- context [of_option ?e (Some ?x)] =>
          change (of_option e (Some x)) with (ret x)
      end ];
  cbv beta.

Lemma compare_one_at (drug : string) (r : ref) (qs : series)
      (comparison : list dict) (d : DataFrame) (h : heap) :
  nth_error h r = Some d -> holds_series d qs -> qs <> [] ->
  compare_one drug r comparison h =
  (Returned (comparison ++ [comparison_row drug qs (peak_index qs)])%list, h).
Proof.
  intros Hr H Hne. pose proof (peak_index_spec qs Hne) as (Hp & _).
  pose proof (max_is_peak qs Hne) as Hmax.
  pose proof (holds_len d qs H) as Hlen.
  destruct qs as [|q qs]; [congruence|].
  pose proof H as (Hi & Hds & Hy).
  unfold compare_one.
  repeat first
    [ py_read_step Hr H Hy
    | rewrite Hi
    | erewrite bind_run by apply idxmax_counts; cbv beta
    | erewrite bind_run
        by (apply (loc_date_at r (q :: qs) _ d); [exact Hr | exact H | exact Hp]);
      cbv beta
    | rewrite Hmax ].
  unfold ret, comparison_row, recent_counts. rewrite Hlen.
  destruct (4 <=? List.length (q :: qs))%nat; reflexivity.
Qed.

Lemma compare_one_skips (drug : string) (r : ref) (comparison : list dict)
      (d : DataFrame) (h : heap) :
  nth_error h r = Some d -> df_empty d = true ->
  compare_one drug r comparison h = (Returned comparison, h).
Proof.
  intros Hr He. unfold compare_one.
  erewrite bind_run by (apply deref_at; exact Hr). cbv beta.
  rewrite He. reflexivity.
Qed.

Lemma compare_loop_rows (data_dict : list (string * ref)) (ss : list series)
      (comparison : list dict) (h : heap) :
  Forall2 (fun e qs => collected_as h (snd e) qs) data_dict ss ->
  compare_loop data_dict comparison h =
  (Returned (comparison
             ++ comparison_rows (combine (map fst data_dict) ss))%list, h).
Proof.
  intros HF. revert comparison.
  induction HF as [|[drug r] qs data_dict ss (d & Hr & Hd) HF IH];
    intros comparison.
  - simpl. rewrite app_nil_r. reflexivity.
  - cbn [compare_loop map combine fst snd comparison_rows flat_map].
    cbn [snd] in Hr.
    destruct Hd as [Hd | [He ->]].
    + destruct qs as [|q qs].
      * erewrite bind_run
          by (apply (compare_one_skips drug r comparison d h Hr);
              apply (holds_empty d [] Hd)).
        cbv beta. rewrite IH. reflexivity.
      * erewrite bind_run
          by (apply (compare_one_at drug r (q :: qs) comparison d h Hr Hd);
              discriminate).
        cbv beta. rewrite IH. rewrite <- app_assoc. reflexivity.
    + erewrite bind_run by (apply (compare_one_skips drug r comparison d h Hr He)).
      cbv beta. rewrite IH. reflexivity.
Qed.

(** X6: [compare_drug_trends] on a dictionary of several frames, each
    holding a series or empty, returns one row per frame with data, in the
    order of the dictionary, each row computed from its own series alone;
    drugs whose frame is empty are left out, and no frame is written to. *)
Theorem compare_drug_trends_rows (data_dict : list (string * ref))
        (ss : list series) (h : heap) :
  Forall2 (fun e qs => collected_as h (snd e) qs) data_dict ss ->
  compare_drug_trends data_dict h =
  (Returned (comparison_rows (combine (map fst data_dict) ss)), h).
Proof.
  intros HF. unfold compare_drug_trends.
  rewrite (compare_loop_rows data_dict ss [] h HF). reflexivity.
Qed.

Lemma compare_drug_trends_rows_witness :
  compare_drug_trends [("A", 0%nat); ("B", 1%nat); ("C", 2%nat)] two_drug_heap =
  (Returned (comparison_rows [("A", scenario_series); ("B", []);
                              ("C", comparator_series)]),
   two_drug_heap).
Proof.
  apply (compare_drug_trends_rows
           [("A", 0%nat); ("B", 1%nat); ("C", 2%nat)]
           [scenario_series; []; comparator_series] two_drug_heap).
  repeat constructor.
  - exists (frame_of scenario_series). split; [reflexivity|].
    left. apply frame_of_holds.
  - exists empty_frame. split; [reflexivity|]. right. split; reflexivity.
  - exists (frame_of comparator_series). split; [reflexivity|].
    left. apply frame_of_holds.
Defined.

(** ** The variants loop *)

Lemma assign_keys {V : Type} (k : string) (v : V) (m : list (string * V))
      (k' : string) :
  In k' (map fst (assign k v m)) <-> k' = k \/ In k' (map fst m).
Proof.
  induction m as [|[k0 v0] m IH]; simpl.
  - intuition congruence.
  - destruct (String.eqb_spec k0 k) as [->|Hne]; simpl.
    + intuition congruence.
    + rewrite IH. intuition congruence.
Qed.

Lemma assign_NoDup {V : Type} (k : string) (v : V) (m : list (string * V)) :
  NoDup (map fst m) -> NoDup (map fst (assign k v m)).
Proof.
  induction m as [|[k0 v0] m IH]; simpl; intros Hnd.
  - constructor; [intros []|constructor].
  - inversion Hnd as [|? ? Hnotin Hnd']; subst.
    destruct (String.eqb_spec k0 k) as [->|Hne]; simpl.
    + constructor; assumption.
    + constructor; [|apply IH; exact Hnd'].
      rewrite assign_keys. intros [Heq|Hin]; [congruence|contradiction].
Qed.

Lemma assign_In {V : Type} (k : string) (v : V) (m : list (string * V))
      (e : string * V) :
  In e (assign k v m) -> e = (k, v) \/ In e m.
Proof.
  induction m as [|[k0 v0] m IH]; simpl.
  - intuition congruence.
  - destruct (String.eqb_spec k0 k) as [->|Hne]; simpl.
    + intuition congruence.
    + intros [<-|Hin]; [tauto|]. destruct (IH Hin); tauto.
Qed.

Lemma collect_variants_spec (collected : list (string * ref))
      (ss : list series) (h : heap) :
  Forall2 (fun e qs => collected_as h (snd e) qs) collected ss ->
  forall all_data,
  exists all_data',
    collect_variants collected all_data h = (Returned all_data', h)
    /\ (NoDup (map fst all_data) -> NoDup (map fst all_data'))
    /\ (forall drug,
          In drug (map fst all_data') <->
          In drug (map fst all_data)
          \/ exists qs, In (drug, qs) (combine (map fst collected) ss)
                        /\ qs <> [])
    /\ (forall e, In e all_data' ->
          In e all_data
          \/ exists qs, kept_entry h (combine (map fst collected) ss) e qs).
Proof.
  intros HF.
  induction HF as [|[drug r] qs collected ss Hc HF IH]; intros all_data.
  - exists all_data. simpl. split; [reflexivity|].
    split; [tauto|]. split; [|tauto].
    intros drug. split; [tauto|]. intros [H|(qs & [] & _)]. exact H.
  - cbn [collect_variants map combine fst snd].
    pose proof Hc as (d & Hr & Hd). cbn [snd] in Hr.
    erewrite bind_run by (apply deref_at; exact Hr). cbv beta.
    assert (Hcase : (df_empty d = true /\ qs = [])
                    \/ (df_empty d = false /\ qs <> [] /\ holds_series d qs)).
    { destruct Hd as [Hd|[He ->]]; [|left; tauto].
      destruct qs as [|q qs].
      - left. split; [apply (holds_empty d [] Hd)|reflexivity].
      - right. split; [apply (holds_empty d (q :: qs) Hd)|].
        split; [discriminate|exact Hd]. }
    destruct Hcase as [[He ->]|(He & Hne & Hd')]; rewrite He; cbn [negb].
    + destruct (IH all_data) as (acc & Hrun & Hnd & Hkeys & Hent).
      exists acc. split; [exact Hrun|]. split; [exact Hnd|]. split.
      * intros k. rewrite Hkeys. simpl. split.
        -- intros [H|(qs & Hin & Hq)]; [tauto|].
           right. exists qs. tauto.
        -- intros [H|(qs & [Heq|Hin] & Hq)]; [tauto| |].
           ++ inversion Heq; subst. congruence.
           ++ right. exists qs. tauto.
      * intros e Hin. destruct (Hent e Hin) as [H|(qs & Hk & Hq & Hn)];
          [tauto|].
        right. exists qs. repeat split; try assumption. right. exact Hn.
    + destruct (IH (assign drug r all_data)) as (acc & Hrun & Hnd & Hkeys & Hent).
      exists acc. split; [exact Hrun|].
      split; [intros H; apply Hnd, assign_NoDup, H|]. split.
      * intros k. rewrite Hkeys, assign_keys. simpl. split.
        -- intros [[->|H]|(qs' & Hin & Hq)]; [|tauto|].
           ++ right. exists qs. tauto.
           ++ right. exists qs'. tauto.
        -- intros [H|(qs' & [Heq|Hin] & Hq)]; [tauto| |].
           ++ inversion Heq; subst. tauto.
           ++ right. exists qs'. tauto.
      * intros e Hin. destruct (Hent e Hin) as [H|(qs' & Hk & Hq & Hn)].
        -- apply assign_In in H. destruct H as [->|H]; [|tauto].
           right. exists qs. repeat split; try assumption. left. reflexivity.
        -- right. exists qs'. repeat split; try assumption. right. exact Hn.
Qed.

Lemma NoDup_map_injective {A B : Type} (f : A -> B) (l : list A) :
  (forall a b, f a = f b -> a = b) -> NoDup l -> NoDup (map f l).
Proof.
  intros Hinj. induction 1 as [|a l Hnotin _ IH]; simpl; constructor.
  - rewrite in_map_iff. intros (b & Hb & Hin).
    apply Hinj in Hb. subst b. contradiction.
  - exact IH.
Qed.

Lemma Forall_exists_Forall2 {A B : Type} (P : A -> B -> Prop) (l : list A) :
  Forall (fun a => exists b, P a b) l -> exists l', Forall2 P l l'.
Proof.
  induction 1 as [|a l (b & Hb) _ (l' & IH)].
  - exists []. constructor.
  - exists (b :: l'). constructor; assumption.
Qed.

Lemma comparison_rows_kept (h : heap) (named : list (string * series))
      (all_data : list (string * ref)) (ss : list series) :
  Forall2 (kept_entry h named) all_data ss ->
  map row_drug (comparison_rows (combine (map fst all_data) ss))
  = map (fun drug => Some (VStr drug)) (map fst all_data)
  /\ forall row, In row (comparison_rows (combine (map fst all_data) ss)) ->
       exists drug qs, In (drug, qs) named /\ qs <> []
                       /\ row = comparison_row drug qs (peak_index qs).
Proof.
  induction 1 as [|[drug r] qs all_data ss (Hc & Hne & Hin) HF [IH1 IH2]].
  - split; [reflexivity|]. intros row [].
  - cbn [map combine fst comparison_rows flat_map snd].
    destruct qs as [|q qs]; [congruence|].
    cbn [app map]. split.
    + f_equal. exact IH1.
    + intros row [<-|Hrow].
      * exists drug, (q :: qs). repeat split; assumption.
      * apply IH2, Hrow.
Qed.

Lemma all_collected_empty (collected : list (string * ref)) (ss : list series)
      (h : heap) :
  Forall2 (fun e qs => collected_as h (snd e) qs) collected ss ->
  (forall drug, ~ exists qs, In (drug, qs) (combine (map fst collected) ss)
                             /\ qs <> [])
  <-> Forall (fun qs => qs = []) ss.
Proof.
  induction 1 as [|[drug r] qs collected ss _ HF IH]; simpl.
  - split; [constructor|]. intros _ drug (qs & [] & _).
  - split.
    + intros Hall. constructor.
      * destruct qs as [|q qs]; [reflexivity|].
        exfalso. apply (Hall drug). exists (q :: qs).
        split; [left; reflexivity|discriminate].
      * apply IH. intros k (qs' & Hin & Hq). apply (Hall k).
        exists qs'. tauto.
    + intros Hall k (qs' & [Heq|Hin] & Hq).
      * inversion Hall; subst. inversion Heq; subst. congruence.
      * inversion Hall as [|? ? _ Hall']; subst.
        apply (proj2 IH Hall' k). exists qs'. tauto.
Qed.

(** X7: [monitor_variants], given what the collection returned for each
    configured variant, compares nothing when every frame came back empty,
    and otherwise produces a comparison in which no drug appears twice
    (even when the configuration names a variant twice), a drug appears
    exactly when one of its collected frames has data, and each row is the
    comparator's row of a collected series of that drug.  The collected
    frames are left as they are. *)
Theorem monitor_variants_rows (collected : list (string * ref))
        (ss : list series) (h : heap) :
  Forall2 (fun e qs => collected_as h (snd e) qs) collected ss ->
  exists res,
    monitor_variants collected h = (Returned res, h)
    /\ (res = None <-> Forall (fun qs => qs = []) ss)
    /\ forall rows, res = Some rows ->
         NoDup (map row_drug rows)
         /\ (forall drug,
               In (Some (VStr drug)) (map row_drug rows) <->
               exists qs, In (drug, qs) (combine (map fst collected) ss)
                          /\ qs <> [])
         /\ (forall row, In row rows ->
               exists drug qs,
                 In (drug, qs) (combine (map fst collected) ss) /\ qs <> []
                 /\ row = comparison_row drug qs (peak_index qs)).
Proof.
  intros HF.
  destruct (collect_variants_spec collected ss h HF [])
    as (acc & Hrun & Hnd & Hkeys & Hent).
  pose proof (all_collected_empty collected ss h HF) as Hall.
  unfold monitor_variants.
  erewrite bind_run by exact Hrun. cbv beta.
  destruct acc as [|e acc].
  - exists None. split; [reflexivity|]. split.
    + split; [|reflexivity]. intros _. apply Hall.
      intros drug Hex. apply (Hkeys drug). right. exact Hex.
    + intros rows Heq. discriminate.
  - assert (HF' : exists ss', Forall2 (kept_entry h (combine (map fst collected) ss))
                                (e :: acc) ss').
    { apply Forall_exists_Forall2. apply Forall_forall. intros e' Hin.
      destruct (Hent e' Hin) as [[]|H]. exact H. }
    destruct HF' as (ss' & HF').
    assert (HF2 : Forall2 (fun e qs => collected_as h (snd e) qs) (e :: acc) ss').
    { eapply Forall2_impl; [|exact HF']. intros a b (Hc & _). exact Hc. }
    destruct (comparison_rows_kept h _ _ _ HF') as [Hdrugs Hrows].
    unfold compare_drug_trends.
    erewrite bind_run by (apply (compare_loop_rows (e :: acc) ss' [] h HF2)).
    cbv beta. cbn [app].
    exists (Some (comparison_rows (combine (map fst (e :: acc)) ss'))).
    split; [reflexivity|]. split.
    + split; [discriminate|]. intros Hempty. exfalso.
      apply (proj2 Hall Hempty (fst e)).
      destruct (proj1 (Hkeys (fst e)) (in_eq (fst e) (map fst acc)))
        as [[]|Hk].
      exact Hk.
    + intros rows Heq.
      assert (Hr : rows = comparison_rows (combine (map fst (e :: acc)) ss'))
        by congruence.
      clear Heq. subst rows. rewrite Hdrugs.
      split; [|split].
      * apply NoDup_map_injective; [|apply Hnd; constructor].
        intros a b Hab. congruence.
      * intros drug. rewrite in_map_iff. split.
        -- intros (k & Hk & Hin). inversion Hk; subst k.
           apply Hkeys in Hin. destruct Hin as [[]|Hin]. exact Hin.
        -- intros Hex. exists drug. split; [reflexivity|].
           apply Hkeys. right. exact Hex.
      * exact Hrows.
Qed.

Lemma monitor_variants_rows_witness :
  exists res,
    monitor_variants [("A", 0%nat); ("B", 1%nat); ("A", 2%nat)] two_drug_heap
      = (Returned res, two_drug_heap)
    /\ (res = None <->
        Forall (fun qs : series => qs = [])
          [scenario_series; []; comparator_series])
    /\ forall rows, res = Some rows ->
         NoDup (map row_drug rows)
         /\ (forall drug,
               In (Some (VStr drug)) (map row_drug rows) <->
               exists qs,
                 In (drug, qs)
                    (combine (map fst [("A", 0%nat); ("B", 1%nat); ("A", 2%nat)])
                             [scenario_series; []; comparator_series])
                 /\ qs <> [])
         /\ (forall row, In row rows ->
               exists drug qs,
                 In (drug, qs)
                    (combine (map fst [("A", 0%nat); ("B", 1%nat); ("A", 2%nat)])
                             [scenario_series; []; comparator_series])
                 /\ qs <> []
                 /\ row = comparison_row drug qs (peak_index qs)).
Proof.
  apply (monitor_variants_rows [("A", 0%nat); ("B", 1%nat); ("A", 2%nat)]
           [scenario_series; []; comparator_series] two_drug_heap).
  repeat constructor.
  - exists (frame_of scenario_series). split; [reflexivity|].
    left. apply frame_of_holds.
  - exists empty_frame. split; [reflexivity|]. right. split; reflexivity.
  - exists (frame_of comparator_series). split; [reflexivity|].
    left. apply frame_of_holds.
Defined.

(** ** The service's cache *)

Lemma sbind_lift {A B : Type} (p : Py A) (k : A -> Server B) (c : cache)
      (h : heap) :
  sbind (lift p) k c h =
  match p h with
  | (Returned a, h') => k a c h'
  | (Raised e, h') => (Raised e, c, h')
  end.
Proof. unfold sbind, lift. destruct (p h) as [[a|e] h']; reflexivity. Qed.

Lemma sbind_lift_run {A B : Type} (p : Py A) (k : A -> Server B) (c : cache)
      (h h' : heap) (a : A) :
  p h = (Returned a, h') -> sbind (lift p) k c h = k a c h'.
Proof. intros H. rewrite sbind_lift, H. reflexivity. Qed.

Lemma sbind_lift_raise {A B : Type} (p : Py A) (k : A -> Server B) (c : cache)
      (h h' : heap) (e : string) :
  p h = (Raised e, h') -> sbind (lift p) k c h = (Raised e, c, h').
Proof. intros H. rewrite sbind_lift, H. reflexivity. Qed.

Lemma length_select {A : Type} (mask : list bool) (l : list A) :
  List.length mask = List.length l ->
  List.length (select mask l) = List.length (filter (fun b => b) mask).
Proof.
  revert l. induction mask as [|b mask IH]; intros [|x l] Hl;
    try discriminate; [reflexivity|].
  simpl in Hl. injection Hl as Hl. simpl.
  destruct b; simpl; rewrite (IH l Hl); reflexivity.
Qed.

Lemma df_len_select (mask : list bool) (d : DataFrame) :
  List.length mask = df_len d ->
  Z.of_nat (df_len (df_select mask d)) = flagged mask.
Proof.
  intros Hl. unfold flagged, df_len. cbn [df_select df_index].
  rewrite length_select by exact Hl. reflexivity.
Qed.

Lemma holds_series_mask_len (mask : list bool) (d : DataFrame) (qs : series) :
  holds_series d qs -> List.length mask = List.length (counts qs) ->
  List.length mask = df_len d.
Proof.
  intros H Hl. rewrite (holds_len d qs H), Hl. apply counts_length.
Qed.

Section ServiceFacts.

Variable Model : Type.
Variable prophet_fit : DataFrame -> fl -> outcome Model.
Variable prophet_predict : Model -> Z -> outcome DataFrame.
Variable save_data :
  DataFrame -> DataFrame -> DataFrame -> DataFrame -> outcome unit.
Variable create_dashboard :
  DataFrame -> DataFrame -> DataFrame -> DataFrame -> dict -> outcome unit.

(** X8: a run of the monitoring pipeline updates the cache all at once or
    not at all.  Whatever the collected data and whatever the library and
    the writers do, the cache after the run is either exactly the cache
    before it, or the run returned normally and all three entries are set,
    [last_update] to the time of this run.  A run that raises, and a run
    on an empty adverse-event frame, leave the cache as it was, so
    [GET /summary] keeps giving the answer it gave before. *)
Theorem cache_update_is_atomic (cfg : config) (data : collected)
        (now : string) (c c' : cache) (h h' : heap) (o : outcome unit) :
  run_monitoring_pipeline Model prophet_fit prophet_predict save_data
    create_dashboard cfg data now c h = (o, c', h') ->
  (c' = c
   \/ (o = Returned tt
       /\ cache_last_update c' = Some now
       /\ cache_data c' <> None
       /\ cache_summary c' <> None))
  /\ ((exists e, o = Raised e) -> c' = c /\ get_summary c' = get_summary c)
  /\ (forall d, nth_error h (adverse_events data) = Some d ->
        df_empty d = true -> c' = c).
Proof.
  unfold run_monitoring_pipeline. intros Hrun.
  assert (Hmain :
    (c' = c /\ ((exists e, o = Raised e)
                \/ exists d, nth_error h' (adverse_events data) = Some d
                             /\ nth_error h (adverse_events data) = Some d
                             /\ df_empty d = true))
    \/ (o = Returned tt
        /\ cache_last_update c' = Some now
        /\ cache_data c' <> None
        /\ cache_summary c' <> None
        /\ exists d, nth_error h (adverse_events data) = Some d
                     /\ df_empty d = false)).
  { rewrite sbind_lift in Hrun. unfold deref at 1 in Hrun.
    destruct (nth_error h (adverse_events data)) as [d|] eqn:Hd;
      [|inversion Hrun; subst; left; split; eauto].
    rewrite sbind_lift in Hrun. unfold call at 1 in Hrun.
    destruct (save_data d (reactions data) (clinical_trials data)
                (pubmed_articles data)) as [[]|e];
      [|inversion Hrun; subst; left; split; eauto].
    rewrite sbind_lift in Hrun. unfold deref at 1 in Hrun.
    rewrite Hd in Hrun.
    destruct (df_empty d) eqn:He; cbn [negb] in Hrun.
    { inversion Hrun; subst. left. split; [reflexivity|].
      right. exists d. auto. }
    rewrite sbind_lift in Hrun.
    destruct (train_prophet_model Model prophet_fit (adverse_events data) cfg h)
      as [[model|e] h1];
      [|inversion Hrun; subst; left; split; eauto].
    rewrite sbind_lift in Hrun.
    destruct (generate_forecast Model prophet_predict model
                (forecast_horizon_quarters cfg) h1) as [[forecast|e] h2];
      [|inversion Hrun; subst; left; split; eauto].
    rewrite sbind_lift in Hrun.
    destruct (detect_anomalies (adverse_events data) (anomaly_threshold cfg) h2)
      as [[anomalies|e] h3];
      [|inversion Hrun; subst; left; split; eauto].
    rewrite sbind_lift in Hrun.
    destruct (detect_safety_signals (adverse_events data)
                (min_reports_for_signal cfg) h3) as [[signals|e] h4];
      [|inversion Hrun; subst; left; split; eauto].
    rewrite sbind_lift in Hrun.
    destruct (generate_summary_stats (adverse_events data) forecast h4)
      as [[summary|e] h5];
      [|inversion Hrun; subst; left; split; eauto].
    rewrite sbind_lift in Hrun. unfold deref at 1 in Hrun.
    destruct (nth_error h5 (adverse_events data)) as [d5|] eqn:Hd5;
      [|inversion Hrun; subst; left; split; eauto].
    rewrite sbind_lift in Hrun. unfold call at 1 in Hrun.
    destruct (create_dashboard d5 forecast (reactions data)
                (clinical_trials data) summary) as [[]|e];
      [|inversion Hrun; subst; left; split; eauto].
    unfold sbind at 1, set_last_update at 1 in Hrun.
    rewrite sbind_lift in Hrun. unfold deref at 1 in Hrun.
    rewrite Hd5 in Hrun.
    unfold sbind, set_data, set_summary in Hrun.
    cbn [cache_last_update cache_data cache_summary] in Hrun.
    inversion Hrun; subst. right.
    cbn [cache_last_update cache_data cache_summary].
    repeat split; try discriminate. exists d. auto. }
  destruct Hmain as [[-> Hwhy]|(-> & Hl & Hd & Hs & d & Hd0 & He)].
  - split; [left; reflexivity|]. split; [auto|]. intros; reflexivity.
  - split; [right; auto|]. split.
    + intros (e & He'). discriminate.
    + intros d' Hd' He'. congruence.
Qed.

(** X9: a run on a series of three periods or more in which the library
    and the writers succeed leaves a cache from which [GET /summary]
    answers with the digest of the series and [GET /status] with the time
    of the run and the six counts: the number of periods, the sizes of
    the three other collected frames, and the numbers of periods the two
    detectors flagged.  Whatever the cache held before is replaced. *)
Theorem successful_run_fills_cache (qs : series) (cfg : config)
        (r t a : DataFrame) (now : string) (c : cache) (d : DataFrame)
        (h : heap) (m : Model) (fc : list ForecastPoint) :
  holds_series d qs -> (3 <= List.length qs)%nat ->
  save_data d r t a = Returned tt ->
  prophet_fit d (prophet_changepoint_prior cfg) = Returned m ->
  prophet_predict m (forecast_horizon_quarters cfg)
    = Returned (forecast_frame fc) ->
  (forall d', holds_series d' qs ->
     create_dashboard d' (forecast_frame fc) r t (summary_of qs fc)
     = Returned tt) ->
  exists c' d',
    run_monitoring_pipeline Model prophet_fit prophet_predict save_data
      create_dashboard cfg (mkcollected 0 r t a) now c (d :: h)
    = (Returned tt, c', d' :: h)
    /\ get_summary c' = summary_of qs fc
    /\ get_status c'
       = mkstatus (Some now)
           (Some [("adverse_events_count", VInt (Z.of_nat (List.length qs)));
                  ("reactions_count", len r);
                  ("trials_count", len t);
                  ("articles_count", len a);
                  ("anomalies_detected",
                   VInt (flagged (anomaly_mask (counts qs)
                                    (anomaly_threshold cfg))));
                  ("signals_detected",
                   VInt (flagged (signal_mask (counts qs)
                                    (min_reports_for_signal cfg))))]).
Proof.
  intros H Hlen Hsave Hfit Hpredict Hdash.
  assert (Hne : qs <> []) by (destruct qs; [simpl in Hlen; lia | discriminate]).
  pose proof (with_anomaly_columns_holds d qs (anomaly_threshold cfg) H) as H1.
  pose proof (with_signal_columns_holds _ qs H1) as H2.
  unfold run_monitoring_pipeline.
  cbn [adverse_events reactions clinical_trials pubmed_articles].
  erewrite sbind_lift_run by apply deref_run. cbv beta.
  erewrite sbind_lift_run by (unfold call; rewrite Hsave; reflexivity).
  cbv beta.
  erewrite sbind_lift_run by apply deref_run. cbv beta.
  rewrite (holds_empty d qs H).
  destruct qs as [|q qs]; [congruence|]. cbn [negb]. cbv iota.
  erewrite sbind_lift_run
    by (apply (train_prophet_model_fits Model prophet_fit (q :: qs));
        [exact H | lia | exact Hfit]).
  cbv beta.
  erewrite sbind_lift_run
    by (unfold generate_forecast, call; rewrite Hpredict; reflexivity).
  cbv beta.
  erewrite sbind_lift_run
    by (apply (detect_anomalies_run (q :: qs)); [exact H | lia]).
  cbv beta.
  erewrite sbind_lift_run
    by (apply (detect_safety_signals_run (q :: qs)); [exact H1 | lia]).
  cbv beta.
  erewrite sbind_lift_run
    by (apply (generate_summary_stats_run (q :: qs) fc); [exact H2 | discriminate]).
  cbv beta.
  erewrite sbind_lift_run by apply deref_run. cbv beta.
  erewrite sbind_lift_run
    by (unfold call; rewrite (Hdash _ H2); reflexivity).
  cbv beta.
  unfold sbind at 1, set_last_update at 1.
  erewrite sbind_lift_run by apply deref_run. cbv beta.
  unfold sbind, set_data, set_summary.
  cbn [cache_last_update cache_data cache_summary].
  eexists. eexists. split; [reflexivity|].
  split; [reflexivity|].
  unfold get_status. cbn [cache_last_update cache_data]. f_equal. f_equal.
  unfold len.
  rewrite (holds_len _ _ H2).
  rewrite (df_len_select _ _ (holds_series_mask_len _ _ _ H1 (length_anomaly_mask _ _))).
  rewrite (df_len_select _ _ (holds_series_mask_len _ _ _ H2 (length_signal_mask _ _))).
  reflexivity.
Qed.

End ServiceFacts.

Lemma cache_update_is_atomic_witness :
  (initial_cache = initial_cache
   \/ (Raised "OSError" = Returned tt
       /\ cache_last_update initial_cache = Some "2024-01-01T00:00:00"
       /\ cache_data initial_cache <> None
       /\ cache_summary initial_cache <> None))
  /\ ((exists e, @Raised unit "OSError" = Raised e) ->
      initial_cache = initial_cache
      /\ get_summary initial_cache = get_summary initial_cache)
  /\ (forall d,
        nth_error [frame_of scenario_series] (adverse_events example_collected)
        = Some d ->
        df_empty d = true -> initial_cache = initial_cache).
Proof.
  apply (cache_update_is_atomic unit stub_fit stub_predict stub_save
           failing_dashboard default_config example_collected
           "2024-01-01T00:00:00" initial_cache initial_cache
           [frame_of scenario_series]
           (snd (run_monitoring_pipeline unit stub_fit stub_predict stub_save
                   failing_dashboard default_config example_collected
                   "2024-01-01T00:00:00" initial_cache
                   [frame_of scenario_series]))
           (Raised "OSError")).
  vm_compute. reflexivity.
Defined.

Lemma successful_run_fills_cache_witness :
  exists c' d',
    run_monitoring_pipeline unit stub_fit stub_predict stub_save
      stub_dashboard default_config
      (mkcollected 0 empty_frame empty_frame empty_frame)
      "2024-01-01T00:00:00" initial_cache [frame_of scenario_series]
    = (Returned tt, c', [d'])
    /\ get_summary c' = summary_of scenario_series example_forecast
    /\ get_status c'
       = mkstatus (Some "2024-01-01T00:00:00")
           (Some [("adverse_events_count",
                   VInt (Z.of_nat (List.length scenario_series)));
                  ("reactions_count", len empty_frame);
                  ("trials_count", len empty_frame);
                  ("articles_count", len empty_frame);
                  ("anomalies_detected",
                   VInt (flagged (anomaly_mask (counts scenario_series)
                                    (anomaly_threshold default_config))));
                  ("signals_detected",
                   VInt (flagged (signal_mask (counts scenario_series)
                                    (min_reports_for_signal default_config))))]).
Proof.
  apply (successful_run_fills_cache unit stub_fit stub_predict stub_save
           stub_dashboard scenario_series default_config
           empty_frame empty_frame empty_frame "2024-01-01T00:00:00"
           initial_cache (frame_of scenario_series) [] tt example_forecast).
  - apply frame_of_holds.
  - simpl. lia.
  - reflexivity.
  - reflexivity.
  - reflexivity.
  - intros d' Hd'. reflexivity.
Defined.

(** ** The quarterly series *)

Lemma quarter_of_end (q : Z) : quarter_of (quarter_end q) = q.
Proof.
  unfold quarter_of, quarter_end. cbn [year month].
  Z.to_euclidean_division_equations. lia.
Qed.

Lemma quarter_end_lt (p q : Z) :
  (p < q)%Z -> date_ltb (quarter_end p) (quarter_end q) = true.
Proof.
  intros Hlt. unfold date_ltb, quarter_end. cbn [year month day].
  destruct (Z.ltb_spec (p / 4) (q / 4)) as [H|H]; [reflexivity|].
  cbn [orb].
  assert (H4 : (p / 4 = q / 4)%Z) by (Z.to_euclidean_division_equations; lia).
  rewrite (proj2 (Z.eqb_eq _ _) H4). cbn [andb].
  assert (Hm : (3 * (p mod 4) + 3 < 3 * (q mod 4) + 3)%Z)
    by (Z.to_euclidean_division_equations; lia).
  rewrite (proj2 (Z.ltb_lt _ _) Hm). reflexivity.
Qed.

Lemma nth_map_lt {A B : Type} (g : A -> B) (l : list A) (i : nat) (d : A)
      (d' : B) :
  (i < List.length l)%nat -> nth i (map g l) d' = g (nth i l d).
Proof.
  intros Hi. rewrite (nth_indep _ d' (g d)) by (rewrite length_map; exact Hi).
  apply map_nth.
Qed.

Lemma hd_as_nth {A : Type} (l : list A) (d : A) : hd d l = nth 0 l d.
Proof. destruct l; reflexivity. Qed.

Lemma last_as_nth {A : Type} (l : list A) (d : A) :
  last l d = nth (List.length l - 1) l d.
Proof.
  induction l as [|a l IH]; [reflexivity|].
  destruct l as [|b l]; [reflexivity|].
  change (last (a :: b :: l) d) with (last (b :: l) d). rewrite IH.
  cbn [List.length]. rewrite !Nat.sub_succ, !Nat.sub_0_r. reflexivity.
Qed.

Lemma quarter_range_length (lo hi : Z) :
  List.length (quarter_range lo hi) = Z.to_nat (hi - lo + 1).
Proof. unfold quarter_range. rewrite length_map, length_seq. reflexivity. Qed.

Lemma quarter_range_nth (lo hi : Z) (i : nat) (d : Z) :
  (i < Z.to_nat (hi - lo + 1))%nat ->
  nth i (quarter_range lo hi) d = (lo + Z.of_nat i)%Z.
Proof.
  intros Hi. unfold quarter_range.
  rewrite (nth_map_lt (fun i => (lo + Z.of_nat i)%Z) _ i 0%nat d)
    by (rewrite length_seq; exact Hi).
  rewrite seq_nth by exact Hi. reflexivity.
Qed.

Lemma quarter_range_In (lo hi q : Z) :
  In q (quarter_range lo hi) <-> (lo <= q <= hi)%Z.
Proof.
  unfold quarter_range. rewrite in_map_iff. split.
  - intros (i & <- & Hi). apply in_seq in Hi. lia.
  - intros Hq. exists (Z.to_nat (q - lo)). split; [lia|].
    apply in_seq. lia.
Qed.

Lemma fold_left_min_spec (l : list Z) (a : Z) :
  let m := fold_left Z.min l a in
  (m <= a)%Z /\ (forall x, In x l -> (m <= x)%Z) /\ (m = a \/ In m l).
Proof.
  revert a. induction l as [|y l IH]; intros a; simpl.
  - repeat split; [lia | tauto | left; reflexivity].
  - destruct (IH (Z.min a y)) as (H1 & H2 & H3).
    repeat split.
    + lia.
    + intros x [<-|Hx]; [lia | apply H2; exact Hx].
    + destruct H3 as [H3|H3]; [|right; right; exact H3].
      destruct (Z.min_spec a y) as [[_ E]|[_ E]]; rewrite E in H3 at 2;
        [left; exact H3 | right; left; symmetry; exact H3].
Qed.

(** The bins of a resampling: from the least to the greatest quarter of
    the rows. *)
Lemma resample_Q_bins (rows : list (date * Z)) :
  rows <> [] ->
  exists lo hi,
    resample_Q rows
    = map (fun q => (quarter_end q, bin_sum rows q)) (quarter_range lo hi)
    /\ (forall r, In r rows -> (lo <= quarter_of (fst r) <= hi)%Z)
    /\ (exists r, In r rows /\ quarter_of (fst r) = lo)
    /\ (exists r, In r rows /\ quarter_of (fst r) = hi).
Proof.
  intros Hne. destruct rows as [|r0 rows]; [congruence|].
  unfold resample_Q. cbn [map].
  set (q0 := quarter_of (fst r0)).
  set (qs := map (fun r => quarter_of (fst r)) rows).
  destruct (fold_left_min_spec qs q0) as (L1 & L2 & L3).
  destruct (fold_left_max_spec qs q0) as (M1 & M2 & M3).
  exists (fold_left Z.min qs q0), (fold_left Z.max qs q0).
  split; [reflexivity|].
  assert (Hin : forall r, In r rows -> In (quarter_of (fst r)) qs).
  { intros r Hr. unfold qs. apply in_map_iff. exists r. tauto. }
  assert (Hex : forall q, q = q0 \/ In q qs ->
                  exists r, In r (r0 :: rows) /\ quarter_of (fst r) = q).
  { intros q [->|Hq].
    - exists r0. split; [left; reflexivity|reflexivity].
    - unfold qs in Hq. apply in_map_iff in Hq. destruct Hq as (r & <- & Hr).
      exists r. split; [right; exact Hr|reflexivity]. }
  split; [|split; apply Hex; assumption].
  intros r [<-|Hr].
  - fold q0. lia.
  - pose proof (L2 _ (Hin r Hr)). pose proof (M2 _ (Hin r Hr)). lia.
Qed.

Lemma periods_resample (rows : list (date * Z)) (lo hi : Z) :
  periods (map (fun q => (quarter_end q, bin_sum rows q)) (quarter_range lo hi))
  = map quarter_end (quarter_range lo hi).
Proof. unfold periods. rewrite map_map. reflexivity. Qed.

Lemma quarter_ends_sorted (lo : Z) (n : nat) :
  StronglySorted date_lt
    (map quarter_end (map (fun i => (lo + Z.of_nat i)%Z) (seq 0 n))).
Proof.
  assert (G : forall s, StronglySorted date_lt
            (map quarter_end (map (fun i => (lo + Z.of_nat i)%Z) (seq s n)))).
  { induction n as [|n IH]; intros s; simpl; constructor.
    - apply IH.
    - apply Forall_forall. intros p Hp.
      apply in_map_iff in Hp. destruct Hp as (q & <- & Hq).
      apply in_map_iff in Hq. destruct Hq as (i & <- & Hi).
      apply in_seq in Hi. apply quarter_end_lt. lia. }
  apply G.
Qed.

(** X10: the series [resample('Q')] builds from dated rows is a regular
    quarterly series: its periods are quarter ends in strictly increasing
    order, each the quarter right after the one before (no gap, no
    quarter twice), every row's quarter is among them, and it starts and
    ends at a quarter in which a row falls; it is empty only on no row. *)
Theorem resample_Q_regular (rows : list (date * Z)) :
  let qs := resample_Q rows in
  let d0 := mkdate 0 0 0 in
  StronglySorted date_lt (periods qs)
  /\ (forall p, In p (periods qs) -> p = quarter_end (quarter_of p))
  /\ (forall i, (S i < List.length qs)%nat ->
        quarter_of (nth (S i) (periods qs) d0)
        = (quarter_of (nth i (periods qs) d0) + 1)%Z)
  /\ (forall r, In r rows ->
        In (quarter_end (quarter_of (fst r))) (periods qs))
  /\ (qs = [] <-> rows = [])
  /\ (rows <> [] ->
      exists first latest,
        In first rows /\ In latest rows
        /\ hd d0 (periods qs) = quarter_end (quarter_of (fst first))
        /\ last (periods qs) d0 = quarter_end (quarter_of (fst latest))).
Proof.
  intros qs d0. subst qs.
  destruct rows as [|r0 rows'] eqn:Hrows.
  { cbn. repeat split; try constructor; try tauto; try lia; try congruence.
    }
  rewrite <- Hrows.
  assert (Hne : rows <> []) by (rewrite Hrows; discriminate).
  clear Hrows r0 rows'.
  destruct (resample_Q_bins rows Hne)
    as (lo & hi & -> & Hb & (rl & Hrl & Hlo) & (rh & Hrh & Hhi)).
  assert (Hle : (lo <= hi)%Z) by (pose proof (Hb rl Hrl); lia).
  rewrite periods_resample, length_map, quarter_range_length.
  split; [apply quarter_ends_sorted|].
  split.
  { intros p Hp. apply in_map_iff in Hp. destruct Hp as (q & <- & _).
    rewrite quarter_of_end. reflexivity. }
  split.
  { intros i Hi.
    rewrite !(nth_map_lt quarter_end _ _ 0%Z d0)
      by (rewrite quarter_range_length; lia).
    rewrite !quarter_of_end, !quarter_range_nth by lia. lia. }
  split.
  { intros r Hr. apply in_map, quarter_range_In, Hb, Hr. }
  split.
  { split; [|congruence]. intros He. apply (f_equal (@List.length _)) in He.
    rewrite length_map, quarter_range_length in He. simpl in He. lia. }
  intros _. exists rl, rh. split; [exact Hrl|]. split; [exact Hrh|].
  rewrite Hlo, Hhi. split.
  - rewrite hd_as_nth.
    rewrite (nth_map_lt quarter_end _ _ 0%Z d0)
      by (rewrite quarter_range_length; lia).
    rewrite quarter_range_nth by lia. f_equal. lia.
  - rewrite last_as_nth, length_map, quarter_range_length.
    rewrite (nth_map_lt quarter_end _ _ 0%Z d0)
      by (rewrite quarter_range_length; lia).
    rewrite quarter_range_nth by lia. f_equal. lia.
Qed.

Lemma bin_sum_cons (r : date * Z) (rows : list (date * Z)) (q : Z) :
  bin_sum (r :: rows) q
  = ((if (quarter_of (fst r) =? q)%Z then snd r else 0) + bin_sum rows q)%Z.
Proof.
  unfold bin_sum. cbn [filter].
  destruct (quarter_of (fst r) =? q)%Z; reflexivity.
Qed.

Lemma sum_map_add {A : Type} (f g : A -> Z) (l : list A) :
  Series.sum (map (fun x => (f x + g x)%Z) l)
  = (Series.sum (map f l) + Series.sum (map g l))%Z.
Proof.
  unfold Series.sum. induction l as [|x l IH]; simpl; [reflexivity|lia].
Qed.

Lemma sum_one_bin (k c lo : Z) (n s : nat) :
  Series.sum (map (fun q => if (k =? q)%Z then c else 0%Z)
                (map (fun i => (lo + Z.of_nat i)%Z) (seq s n)))
  = if ((lo + Z.of_nat s <=? k)%Z && (k <? lo + Z.of_nat s + Z.of_nat n)%Z)%bool
    then c else 0%Z.
Proof.
  revert s. induction n as [|n IH]; intros s.
  - simpl.
    destruct (Z.leb_spec (lo + Z.of_nat s) k), (Z.ltb_spec k (lo + Z.of_nat s + 0));
      simpl; try reflexivity; lia.
  - cbn [seq map]. unfold Series.sum in *. cbn [fold_right]. rewrite IH.
    destruct (Z.eqb_spec k (lo + Z.of_nat s));
      destruct (Z.leb_spec (lo + Z.of_nat (S s)) k);
      destruct (Z.ltb_spec k (lo + Z.of_nat (S s) + Z.of_nat n));
      destruct (Z.leb_spec (lo + Z.of_nat s) k);
      destruct (Z.ltb_spec k (lo + Z.of_nat s + Z.of_nat (S n)));
      cbn [andb]; lia.
Qed.

Lemma sum_bins (rows : list (date * Z)) (lo hi : Z) :
  (forall r, In r rows -> (lo <= quarter_of (fst r) <= hi)%Z) ->
  Series.sum (map (bin_sum rows) (quarter_range lo hi))
  = Series.sum (map snd rows).
Proof.
  induction rows as [|r rows IH]; intros Hb.
  - unfold bin_sum. simpl. unfold Series.sum.
    induction (quarter_range lo hi) as [|q l IHl]; simpl; [reflexivity|lia].
  - rewrite (map_ext _ _ (bin_sum_cons r rows)).
    rewrite (sum_map_add
               (fun q => if (quarter_of (fst r) =? q)%Z then snd r else 0%Z)
               (bin_sum rows)).
    rewrite IH by (intros r' Hr'; apply Hb; right; exact Hr').
    unfold quarter_range at 1. rewrite sum_one_bin.
    pose proof (Hb r (or_introl eq_refl)) as Hr.
    replace ((lo + Z.of_nat 0 <=? quarter_of (fst r))%Z
             && (quarter_of (fst r)
                 <? lo + Z.of_nat 0 + Z.of_nat (Z.to_nat (hi - lo + 1)))%Z)%bool
      with true.
    + reflexivity.
    + symmetry. apply andb_true_iff. split; [apply Z.leb_le|apply Z.ltb_lt]; lia.
Qed.

(** X11: resampling keeps every report: the counts of the series add up
    to the counts of the rows, the count of a period is the sum over the
    rows of that quarter (0 for a quarter without rows), and rows with
    non-negative counts give a series with non-negative counts. *)
Theorem resample_Q_conserves (rows : list (date * Z)) :
  let qs := resample_Q rows in
  Series.sum (counts qs) = Series.sum (map snd rows)
  /\ (forall p y, In (p, y) qs -> y = bin_sum rows (quarter_of p))
  /\ (forall p y, In (p, y) qs ->
        (forall r, In r rows -> quarter_of (fst r) <> quarter_of p) -> y = 0%Z)
  /\ (Forall (fun r => 0 <= snd r)%Z rows ->
      Forall (fun q => 0 <= snd q)%Z qs).
Proof.
  intros qs. subst qs.
  assert (Hnn : forall rs : list (date * Z),
            Forall (fun r => 0 <= snd r)%Z rs ->
            forall q, (0 <= bin_sum rs q)%Z).
  { intros rs HF q. induction HF as [|r rs Hr _ IH].
    - unfold bin_sum. simpl. lia.
    - rewrite bin_sum_cons. destruct (quarter_of (fst r) =? q)%Z; lia. }
  assert (Hzero : forall (rs : list (date * Z)) q,
            (forall r, In r rs -> quarter_of (fst r) <> q) -> bin_sum rs q = 0%Z).
  { intros rs q. induction rs as [|r rs IH]; intros Hq.
    - reflexivity.
    - rewrite bin_sum_cons, IH by (intros r' Hr'; apply Hq; right; exact Hr').
      destruct (Z.eqb_spec (quarter_of (fst r)) q) as [E|_]; [|reflexivity].
      exfalso. apply (Hq r); [left; reflexivity|exact E]. }
  destruct rows as [|r0 rows'] eqn:Hrows.
  { cbn. repeat split; try tauto; intros; try contradiction; constructor. }
  rewrite <- Hrows.
  assert (Hne : rows <> []) by (rewrite Hrows; discriminate).
  clear Hrows r0 rows'.
  destruct (resample_Q_bins rows Hne) as (lo & hi & -> & Hb & _ & _).
  assert (Hy : forall p y,
            In (p, y) (map (fun q => (quarter_end q, bin_sum rows q))
                         (quarter_range lo hi)) ->
            y = bin_sum rows (quarter_of p)).
  { intros p y Hin. apply in_map_iff in Hin. destruct Hin as (q & Heq & _).
    inversion Heq; subst. rewrite quarter_of_end. reflexivity. }
  split.
  { unfold counts. rewrite map_map. cbn [snd]. apply sum_bins, Hb. }
  split; [exact Hy|].
  split.
  { intros p y Hin Hq. rewrite (Hy p y Hin). apply Hzero, Hq. }
  intros HF. apply Forall_forall. intros [p y] Hin.
  rewrite (Hy p y Hin). cbn [snd]. apply Hnn, HF.
Qed.

Lemma bin_sum_Permutation (rows rows' : list (date * Z)) (q : Z) :
  Permutation rows rows' -> bin_sum rows q = bin_sum rows' q.
Proof.
  induction 1 as [|r l l' _ IH|r r' l|l l' l'' _ IH1 _ IH2].
  - reflexivity.
  - rewrite !bin_sum_cons, IH. reflexivity.
  - rewrite !bin_sum_cons. lia.
  - congruence.
Qed.

(** X12: the series does not depend on the order in which the rows
    arrive: any rearrangement of the same rows resamples to the same
    series. *)
Theorem resample_Q_order_independent (rows rows' : list (date * Z)) :
  Permutation rows rows' -> resample_Q rows = resample_Q rows'.
Proof.
  intros HP.
  destruct rows as [|r0 rows0] eqn:Hrows.
  { apply Permutation_nil in HP. subst rows'. reflexivity. }
  rewrite <- Hrows in *.
  assert (Hne : rows <> []) by (rewrite Hrows; discriminate).
  assert (Hne' : rows' <> []).
  { intros ->. apply Permutation_sym, Permutation_nil in HP. contradiction. }
  clear Hrows r0 rows0.
  destruct (resample_Q_bins rows Hne)
    as (lo & hi & -> & Hb & (rl & Hrl & Hlo) & (rh & Hrh & Hhi)).
  destruct (resample_Q_bins rows' Hne')
    as (lo' & hi' & -> & Hb' & (rl' & Hrl' & Hlo') & (rh' & Hrh' & Hhi')).
  rewrite <- Hlo, <- Hhi in *.
  pose proof (Hb' rl (Permutation_in _ HP Hrl)).
  pose proof (Hb' rh (Permutation_in _ HP Hrh)).
  pose proof (Hb rl' (Permutation_in _ (Permutation_sym HP) Hrl')).
  pose proof (Hb rh' (Permutation_in _ (Permutation_sym HP) Hrh')).
  assert (El : lo' = quarter_of (fst rl)) by lia.
  assert (Eh : hi' = quarter_of (fst rh)) by lia.
  rewrite El, Eh.
  apply map_ext. intros q. f_equal. apply bin_sum_Permutation, HP.
Qed.

Lemma resample_Q_order_independent_witness :
  resample_Q [(mkdate 2023 7 1, 30); (mkdate 2023 1 15, 3);
              (mkdate 2023 2 20, 2)]
  = resample_Q [(mkdate 2023 1 15, 3); (mkdate 2023 2 20, 2);
                (mkdate 2023 7 1, 30)].
Proof.
  apply (resample_Q_order_independent
           [(mkdate 2023 7 1, 30); (mkdate 2023 1 15, 3); (mkdate 2023 2 20, 2)]
           [(mkdate 2023 1 15, 3); (mkdate 2023 2 20, 2); (mkdate 2023 7 1, 30)]).
  apply (Permutation_cons_app
           [(mkdate 2023 1 15, 3); (mkdate 2023 2 20, 2)] []
           (mkdate 2023 7 1, 30)).
  rewrite app_nil_r. apply Permutation_refl.
Defined.

Lemma resample_Q_sorted (rows : list (date * Z)) :
  StronglySorted date_lt (periods (resample_Q rows)).
Proof.
  destruct rows as [|r0 rows'] eqn:Hrows; [constructor|].
  rewrite <- Hrows.
  assert (Hne : rows <> []) by (rewrite Hrows; discriminate).
  destruct (resample_Q_bins rows Hne) as (lo & hi & -> & _).
  rewrite periods_resample. apply quarter_ends_sorted.
Qed.

Lemma resample_Q_nil (rows : list (date * Z)) :
  resample_Q rows = [] <-> rows = [].
Proof.
  split; [|intros ->; reflexivity].
  intros He. destruct rows as [|r0 rows'] eqn:Hrows; [reflexivity|].
  exfalso. rewrite <- Hrows in He.
  assert (Hne : rows <> []) by (rewrite Hrows; discriminate).
  destruct (resample_Q_bins rows Hne) as (lo & hi & E & Hb & (rl & Hrl & _) & _).
  rewrite E in He. apply (f_equal (@List.length _)) in He.
  rewrite length_map, quarter_range_length in He. simpl in He.
  pose proof (Hb rl Hrl). lia.
Qed.

Lemma df_empty_frame_of (qs : series) :
  df_empty (frame_of qs) = true <-> qs = [].
Proof.
  destruct qs as [|q qs]; [split; reflexivity|].
  split; discriminate.
Qed.

Section CollectionFacts.

Variable to_datetime : string -> option date.

(** X13: whatever the request came back with -- an exception, an answer
    without results, rows with unreadable dates -- 
    [fetch_fda_adverse_events] hands over a frame the analysis accepts:
    the empty frame, or a frame holding a series in strictly increasing
    period order whose counts add up to the counts of the rows with a
    readable date.  The frame is empty exactly when no row has a readable
    date. *)
Theorem fetched_frame_is_series (response : outcome (option (list raw_row))) :
  let d := fetch_fda_adverse_events to_datetime response in
  let rows :=
    match response with
    | Returned (Some results) => dated_rows to_datetime results
    | _ => []
    end in
  exists qs,
    (d = empty_frame /\ qs = [] \/ d = frame_of qs)
    /\ collected_as [d] 0 qs
    /\ qs = resample_Q rows
    /\ StronglySorted date_lt (periods qs)
    /\ Series.sum (counts qs) = Series.sum (map snd rows)
    /\ (df_empty d = true <-> rows = []).
Proof.
  intros d rows. exists (resample_Q rows).
  assert (Hsum : Series.sum (counts (resample_Q rows))
                 = Series.sum (map snd rows)).
  { destruct rows as [|r0 rows'] eqn:Hrows; [reflexivity|].
    rewrite <- Hrows.
    assert (Hne : rows <> []) by (rewrite Hrows; discriminate).
    destruct (resample_Q_bins rows Hne) as (lo & hi & -> & Hb & _).
    unfold counts. rewrite map_map. cbn [snd]. apply sum_bins, Hb. }
  assert (Hcase : (d = empty_frame /\ rows = [])
                  \/ d = frame_of (resample_Q rows)).
  { subst d rows. destruct response as [[[|r results]|]|e]; cbn; auto. }
  split.
  { destruct Hcase as [[Hd Hr]|Hd]; [left|right; exact Hd].
    split; [exact Hd|]. rewrite Hr. reflexivity. }
  split.
  { exists d. split; [reflexivity|].
    destruct Hcase as [[Hd Hr]|Hd].
    - right. rewrite Hd, Hr. split; reflexivity.
    - left. rewrite Hd. apply frame_of_holds. }
  split; [reflexivity|].
  split; [apply resample_Q_sorted|].
  split; [exact Hsum|].
  destruct Hcase as [[Hd Hr]|Hd].
  - rewrite Hd, Hr. split; reflexivity.
  - rewrite Hd, df_empty_frame_of. apply resample_Q_nil.
Qed.

End CollectionFacts.

(** The design's end-to-end scenario, from the rows of the response on:
    the unreadable row is dropped and three quarters come out. *)
Example fetch_scenario :
  fetch_fda_adverse_events example_to_datetime (Returned (Some example_results))
  = frame_of scenario_series.
Proof. reflexivity. Qed.

(** ** Values of floating-point computations *)

Section FloatValues.

Local Open Scope Q_scope.

Lemma fval_of_Z (z : Z) : fval (of_Z z) (inject_Z z).
Proof. exists (inject_Z z). split; reflexivity. Qed.

Lemma fval_of_Q (p : Q) : fval (of_Q p) p.
Proof. exists (Qred p). split; [reflexivity|apply Qred_correct]. Qed.

Lemma fval_fadd (x y : fl) (p q : Q) :
  fval x p -> fval y q -> fval (fadd x y) (p + q).
Proof.
  intros (p' & -> & Hp) (q' & -> & Hq). exists (Qred (p' + q')).
  split; [reflexivity|]. rewrite Qred_correct, Hp, Hq. reflexivity.
Qed.

Lemma fval_fsub (x y : fl) (p q : Q) :
  fval x p -> fval y q -> fval (fsub x y) (p - q).
Proof.
  intros (p' & -> & Hp) (q' & -> & Hq). exists (Qred (p' + Qred (- q'))).
  split; [reflexivity|]. rewrite !Qred_correct, Hp, Hq. reflexivity.
Qed.

Lemma fval_fmul (x y : fl) (p q : Q) :
  fval x p -> fval y q -> fval (fmul x y) (p * q).
Proof.
  intros (p' & -> & Hp) (q' & -> & Hq). exists (Qred (p' * q')).
  split; [reflexivity|]. rewrite Qred_correct, Hp, Hq. reflexivity.
Qed.

Lemma Qis_zero_false (q : Q) : ~ q == 0 -> Qis_zero q = false.
Proof.
  intros Hq. unfold Qis_zero. apply Z.eqb_neq. intros E. apply Hq.
  unfold Qeq. simpl. lia.
Qed.

Lemma fval_fdiv (x y : fl) (p q : Q) :
  fval x p -> fval y q -> ~ q == 0 -> fval (fdiv x y) (p / q).
Proof.
  intros (p' & -> & Hp) (q' & -> & Hq) Hnz. cbn [fdiv].
  rewrite Qis_zero_false by (rewrite Hq; exact Hnz).
  exists (Qred (p' / q')).
  split; [reflexivity|]. rewrite Qred_correct, Hp, Hq. reflexivity.
Qed.

(** The truncated square root from below and from above. *)
Lemma Qsqrt_bounds (q : Q) :
  0 <= q ->
  0 <= Qsqrt q
  /\ Qsqrt q * Qsqrt q <= q
  /\ q < (Qsqrt q + sqrt_ulp) * (Qsqrt q + sqrt_ulp).
Proof.
  intros Hq. unfold Qsqrt, sqrt_ulp.
  set (B := (2 ^ sqrt_bits)%Z).
  assert (HB : (0 < B)%Z) by reflexivity.
  assert (H4 : (4 ^ sqrt_bits = B * B)%Z) by reflexivity.
  set (N := (Qnum q * 4 ^ sqrt_bits / QDen q)%Z).
  assert (Hnum : (0 <= Qnum q)%Z).
  { unfold Qle in Hq. simpl in Hq. lia. }
  assert (HN : (0 <= N)%Z).
  { unfold N. apply Z.div_pos; [|reflexivity]. rewrite H4. nia. }
  pose proof (Z.sqrt_spec N HN) as [Hs1 Hs2].
  pose proof (Z.sqrt_nonneg N) as Hs0.
  set (S := Z.sqrt N) in *.
  assert (HD : (0 < QDen q)%Z) by reflexivity.
  assert (HNd : (Qnum q * (B * B) < (N + 1) * QDen q)%Z).
  { rewrite <- H4. unfold N.
    pose proof (Z.mul_succ_div_gt (Qnum q * 4 ^ sqrt_bits) (QDen q) eq_refl).
    lia. }
  assert (HNl : (N * QDen q <= Qnum q * (B * B))%Z).
  { rewrite <- H4. unfold N.
    pose proof (Z.mul_div_le (Qnum q * 4 ^ sqrt_bits) (QDen q) eq_refl).
    lia. }
  assert (Hpos : Z.pos (Z.to_pos B) = B) by (apply Z2Pos.id; exact HB).
  rewrite !Qred_correct. split; [|split].
  - unfold Qle. simpl. lia.
  - unfold Qle, Qmult. cbn [Qnum Qden].
    rewrite !Pos2Z.inj_mul, !Hpos.
    assert (S * S * QDen q <= Qnum q * (B * B))%Z by nia.
    lia.
  - unfold Qlt, Qplus, Qmult. cbn [Qnum Qden].
    rewrite !Pos2Z.inj_mul, !Hpos.
    assert (Hsq : (N + 1 <= (S + 1) * (S + 1))%Z) by (unfold Z.succ in Hs2; lia).
    assert (HB4 : (0 < B * B * (B * B))%Z) by nia.
    replace ((S * B + 1 * B) * (S * B + 1 * B))%Z
      with ((S + 1) * (S + 1) * (B * B))%Z by ring.
    assert (Qnum q * (B * B) < (S + 1) * (S + 1) * QDen q)%Z by nia.
    nia.
Qed.

Lemma fval_fsqrt (x : fl) (p : Q) :
  fval x p -> 0 <= p ->
  exists s, fval (fsqrt x) s /\ is_sqrt_of p s.
Proof.
  intros (q & -> & Hq) Hp. cbn [fsqrt].
  assert (H0 : 0 <= q) by (rewrite Hq; exact Hp).
  replace (Qsign_neg q) with false.
  - destruct (Qsqrt_bounds q H0) as (Hs & Hl & Hu).
    exists (Qsqrt q). split; [exists (Qsqrt q); split; reflexivity|].
    unfold is_sqrt_of. rewrite <- Hq. repeat split; assumption.
  - symmetry. unfold Qsign_neg. apply Z.ltb_ge.
    unfold Qle in H0. simpl in H0. lia.
Qed.

End FloatValues.

Section WindowValues.

Local Open Scope Q_scope.

Lemma fval_mean (w : list Z) :
  w <> [] ->
  fval (Series.mean w)
       (inject_Z (Series.sum w) / inject_Z (Z.of_nat (List.length w))).
Proof.
  intros Hw. unfold Series.mean, Series.count.
  apply fval_fdiv; [apply fval_of_Z | apply fval_of_Z |].
  intros E. unfold Qeq in E. simpl in E.
  destruct w; [congruence|simpl in E; lia].
Qed.

Lemma fval_fsum (xs : list fl) (ps : list Q) (x0 : fl) (p0 : Q) :
  fval x0 p0 -> Forall2 fval xs ps ->
  fval (fold_left fadd xs x0) (fold_left Qplus ps p0).
Proof.
  intros H0 HF. revert x0 p0 H0.
  induction HF as [|x p xs ps Hx _ IH]; intros x0 p0 H0; [exact H0|].
  simpl. apply IH, fval_fadd; assumption.
Qed.

Lemma fval_var (w : list Z) (M : Q) :
  (2 <= List.length w)%nat -> fval (Series.mean w) M ->
  fval (Series.var w)
       (fold_left Qplus
          (map (fun y => (inject_Z y - M) * (inject_Z y - M)) w) (inject_Z 0)
        / (inject_Z (Z.of_nat (List.length w)) - inject_Z 1)).
Proof.
  intros Hlen HM. unfold Series.var.
  replace (List.length w <=? 1)%nat with false
    by (symmetry; apply Nat.leb_gt; lia).
  apply fval_fdiv.
  - apply fval_fsum; [apply fval_of_Z|].
    clear Hlen. revert HM. generalize (Series.mean w). intros m HM.
    induction w as [|y w IH]; cbn [map]; constructor; [|exact IH].
    apply fval_fmul; apply fval_fsub; try apply fval_of_Z; exact HM.
  - unfold Series.count. apply fval_fsub; apply fval_of_Z.
  - intros E. unfold Qeq, Qminus, Qplus, Qopp, inject_Z in E.
    cbn [Qnum Qden] in E. lia.
Qed.

End WindowValues.

(** ** Rounding keeps order *)

Section Rounding.

Local Open Scope Q_scope.

Lemma Qlt_bool_false (x y : Q) : Qlt_bool x y = false -> y <= x.
Proof.
  intros E. apply Qnot_lt_le. intros H. apply Qlt_bool_iff in H. congruence.
Qed.

Lemma Qround_half_even_monotone (p q : Q) :
  p <= q -> (Qround_half_even p <= Qround_half_even q)%Z.
Proof.
  intros Hpq. unfold Qround_half_even.
  pose proof (Qfloor_resp_le p q Hpq) as Hf.
  destruct (Z.eq_dec (Qfloor p) (Qfloor q)) as [E|NE].
  - rewrite <- E. set (f := Qfloor p) in *.
    destruct (Qlt_bool (1 # 2) (p - inject_Z f)) eqn:E1;
      destruct (Qlt_bool (p - inject_Z f) (1 # 2)) eqn:E2;
      destruct (Qlt_bool (1 # 2) (q - inject_Z f)) eqn:E3;
      destruct (Qlt_bool (q - inject_Z f) (1 # 2)) eqn:E4;
      destruct (Z.even f); try lia; exfalso;
      repeat match goal with
             | H : Qlt_bool _ _ = true |- _ => apply Qlt_bool_iff in H
             | H : Qlt_bool _ _ = false |- _ => apply Qlt_bool_false in H
             end; lra.
  - assert (Hlt : (Qfloor p < Qfloor q)%Z) by lia.
    destruct (Qlt_bool (1 # 2) (p - inject_Z (Qfloor p)));
      destruct (Qlt_bool (p - inject_Z (Qfloor p)) (1 # 2));
      destruct (Qlt_bool (1 # 2) (q - inject_Z (Qfloor q)));
      destruct (Qlt_bool (q - inject_Z (Qfloor q)) (1 # 2));
      destruct (Z.even (Qfloor p)); destruct (Z.even (Qfloor q)); lia.
Qed.

(** Python's [round] to a fixed number of decimals never swaps two
    floats. *)
Lemma round_monotone (x y : fl) (ndigits : Z) :
  (0 <= ndigits)%Z -> fle x y = true ->
  fle (round x ndigits) (round y ndigits) = true.
Proof.
  intros Hn Hle.
  destruct x as [|sx|p], y as [|sy|q]; try exact Hle.
  cbn [round fle of_Q]. cbn [fle] in Hle.
  apply Qle_bool_iff in Hle. apply Qle_bool_iff.
  rewrite !Qred_correct.
  assert (Hs : (0 < 10 ^ ndigits)%Z) by (apply Z.pow_pos_nonneg; lia).
  assert (HS : 0 < inject_Z (10 ^ ndigits)).
  { unfold Qlt. simpl. lia. }
  set (s := inject_Z (10 ^ ndigits)) in *.
  apply Qmult_le_compat_r; [|apply Qlt_le_weak, Qinv_lt_0_compat, HS].
  rewrite <- Zle_Qle. apply Qround_half_even_monotone.
  apply Qmult_le_compat_r; [exact Hle|apply Qlt_le_weak, HS].
Qed.

End Rounding.

(** X15: the digest keeps the forecast's bounds in order.  When every
    forecast point has its lower bound below its estimate and its estimate
    below its upper bound, the three forecast entries of the digest,
    rounded to one decimal each, still satisfy
    [forecast_lower_bound <= forecast_next_quarter <= forecast_upper_bound]. *)
Theorem digest_keeps_forecast_order (qs : series) (fc : list ForecastPoint)
        (d : DataFrame) (h : heap) :
  holds_series d qs -> qs <> [] ->
  Forall (fun p => fle (fp_yhat_lower p) (fp_yhat p) = true
                   /\ fle (fp_yhat p) (fp_yhat_upper p) = true) fc ->
  exists stats,
    generate_summary_stats 0 (forecast_frame fc) (d :: h)
      = (Returned stats, d :: h)
    /\ forall lower next upper,
         lookup "forecast_lower_bound" stats = Some (VFloat lower) ->
         lookup "forecast_next_quarter" stats = Some (VFloat next) ->
         lookup "forecast_upper_bound" stats = Some (VFloat upper) ->
         fle lower next = true /\ fle next upper = true.
Proof.
  intros H Hne Hfc. exists (summary_of qs fc).
  split; [apply generate_summary_stats_run; assumption|].
  unfold summary_of.
  destruct (future_points fc (end_date qs)) as [|p ps] eqn:Hfut.
  - intros lower next upper Hl. exfalso. revert Hl.
    unfold summary_base. cbn. discriminate.
  - assert (Hin : In p fc).
    { assert (Hp : In p (future_points fc (end_date qs)))
        by (rewrite Hfut; left; reflexivity).
      unfold future_points in Hp. apply filter_In in Hp. tauto. }
    rewrite Forall_forall in Hfc. destruct (Hfc p Hin) as [Hlo Hup].
    intros lower next upper Hl Hn Hu.
    rewrite lookup_assign_same in Hl.
    rewrite lookup_assign_other, lookup_assign_other, lookup_assign_same in Hn
      by reflexivity.
    rewrite lookup_assign_other, lookup_assign_same in Hu by reflexivity.
    inversion Hl; inversion Hn; inversion Hu; subst.
    split; apply round_monotone; try lia; assumption.
Qed.

Lemma digest_keeps_forecast_order_witness :
  exists stats,
    generate_summary_stats 0 (forecast_frame example_forecast)
      [frame_of scenario_series]
    = (Returned stats, [frame_of scenario_series])
    /\ forall lower next upper,
         lookup "forecast_lower_bound" stats = Some (VFloat lower) ->
         lookup "forecast_next_quarter" stats = Some (VFloat next) ->
         lookup "forecast_upper_bound" stats = Some (VFloat upper) ->
         fle lower next = true /\ fle next upper = true.
Proof.
  apply (digest_keeps_forecast_order scenario_series example_forecast
           (frame_of scenario_series) []).
  - apply frame_of_holds.
  - discriminate.
  - repeat constructor.
Defined.

(** ** A series of one period *)

Section IntegerRounding.

Local Open Scope Q_scope.

Lemma Qround_half_even_integer (q : Q) (k : Z) :
  q == inject_Z k -> Qround_half_even q = k.
Proof.
  intros Hq. unfold Qround_half_even.
  assert (Hf : Qfloor q = k) by (rewrite Hq; apply Qfloor_Z).
  rewrite Hf.
  destruct (Qlt_bool (1 # 2) (q - inject_Z k)) eqn:E1.
  { apply Qlt_bool_iff in E1. rewrite Hq in E1. exfalso. lra. }
  destruct (Qlt_bool (q - inject_Z k) (1 # 2)) eqn:E2; [reflexivity|].
  apply Qlt_bool_false in E2. rewrite Hq in E2. exfalso. lra.
Qed.

(** Rounding an integer-valued float to decimals changes nothing. *)
Lemma round_of_Z (z ndigits : Z) :
  (0 <= ndigits)%Z -> round (of_Z z) ndigits = of_Z z.
Proof.
  intros Hn. unfold of_Z at 1. cbn [round].
  assert (Hs : (0 < 10 ^ ndigits)%Z) by (apply Z.pow_pos_nonneg; lia).
  rewrite (Qround_half_even_integer _ (z * 10 ^ ndigits))
    by (rewrite inject_Z_mult; reflexivity).
  apply of_Q_inject_Z. rewrite inject_Z_mult. field.
  apply inject_Z_pos_nonzero, Hs.
Qed.

End IntegerRounding.

Lemma mean_of_one (y : Z) : Series.mean [y] = of_Z y.
Proof.
  unfold Series.mean, Series.count. cbn [Series.sum fold_right List.length].
  rewrite fdiv_of_Z. cbn [Z.of_nat Pos.of_succ_nat Z.eqb].
  apply of_Q_inject_Z. rewrite Z.add_0_r. unfold Qdiv.
  change (/ inject_Z 1)%Q with 1%Q. apply Qmult_1_r.
Qed.

Lemma lookup_app_found {V : Type} (k : string) (m m' : list (string * V))
      (v : V) :
  lookup k m = Some v -> lookup k (m ++ m')%list = Some v.
Proof.
  induction m as [|[k0 v0] m IH]; simpl; [discriminate|].
  destruct (String.eqb k0 k); [intros E; exact E|exact IH].
Qed.

(** X16: the digest of a series of a single period [(p, y)], whatever the
    forecast: the total, the average and the latest count are all [y],
    the deviation is NaN (the sample deviation of one observation, which
    rounding leaves as it is) and not 0, the trend reads [decreasing]
    although nothing decreased, and [data_start] and [data_end] are the
    same day. *)
Theorem summary_of_one_period (p : date) (y : Z) (fc : list ForecastPoint)
        (d : DataFrame) (h : heap) :
  holds_series d [(p, y)] ->
  exists stats,
    generate_summary_stats 0 (forecast_frame fc) (d :: h)
      = (Returned stats, d :: h)
    /\ lookup "total_reports" stats = Some (VInt y)
    /\ lookup "avg_quarterly_reports" stats = Some (VFloat (of_Z y))
    /\ lookup "std_quarterly_reports" stats = Some (VFloat FNaN)
    /\ lookup "trend" stats = Some (VStr "decreasing")
    /\ lookup "recent_quarter_reports" stats = Some (VInt y)
    /\ lookup "data_start" stats = Some (VStr (strftime_Ymd p))
    /\ lookup "data_end" stats = Some (VStr (strftime_Ymd p)).
Proof.
  intros H. exists (summary_of [(p, y)] fc).
  split; [apply generate_summary_stats_run; [exact H|discriminate]|].
  assert (Hbase : summary_base [(p, y)]
                  = [("total_reports", VInt y);
                     ("avg_quarterly_reports", VFloat (of_Z y));
                     ("std_quarterly_reports", VFloat FNaN);
                     ("trend", VStr "decreasing");
                     ("recent_quarter_reports", VInt y);
                     ("data_start", VStr (strftime_Ymd p));
                     ("data_end", VStr (strftime_Ymd p))]).
  { unfold summary_base, first_count, last_count, start_date, end_date.
    cbn [counts periods map fst snd hd last Series.dmin Series.dmax fold_left
         Series.sum fold_right].
    rewrite mean_of_one, round_of_Z by lia. rewrite Z.add_0_r, Z.ltb_irrefl.
    reflexivity. }
  rewrite summary_of_entries.
  destruct (future_points fc (end_date [(p, y)])) as [|p' ps];
    rewrite Hbase; repeat split; try apply lookup_app_found; reflexivity.
Qed.

Lemma summary_of_one_period_witness :
  exists stats,
    generate_summary_stats 0 (forecast_frame example_forecast)
      [frame_of [(Q1_2023, 3)]]
    = (Returned stats, [frame_of [(Q1_2023, 3)]])
    /\ lookup "total_reports" stats = Some (VInt 3)
    /\ lookup "avg_quarterly_reports" stats = Some (VFloat (of_Z 3))
    /\ lookup "std_quarterly_reports" stats = Some (VFloat FNaN)
    /\ lookup "trend" stats = Some (VStr "decreasing")
    /\ lookup "recent_quarter_reports" stats = Some (VInt 3)
    /\ lookup "data_start" stats = Some (VStr (strftime_Ymd Q1_2023))
    /\ lookup "data_end" stats = Some (VStr (strftime_Ymd Q1_2023)).
Proof.
  apply (summary_of_one_period Q1_2023 3 example_forecast
           (frame_of [(Q1_2023, 3)]) []).
  apply (frame_of_holds [(Q1_2023, 3)]).
Defined.

(** ** The comparison row is consistent *)

Lemma In_tail {A : Type} (n : nat) (l : list A) (x : A) :
  In x (Series.tail n l) -> In x l.
Proof.
  unfold Series.tail. intros H.
  rewrite <- (firstn_skipn (List.length l - n) l). apply in_or_app.
  right. exact H.
Qed.

Lemma sum_bounded_above (l : list Z) (M : Z) :
  (forall x, In x l -> (x <= M)%Z) ->
  (Series.sum l <= Z.of_nat (List.length l) * M)%Z.
Proof.
  unfold Series.sum. induction l as [|x l IH]; intros Hb; [simpl; lia|].
  cbn [fold_right List.length]. 
  pose proof (Hb x (or_introl eq_refl)).
  pose proof (IH (fun x' Hx' => Hb x' (or_intror Hx'))). lia.
Qed.

Lemma sum_covers_member (l : list Z) (x : Z) :
  Forall (fun y => 0 <= y)%Z l -> In x l -> (x <= Series.sum l)%Z.
Proof.
  unfold Series.sum. induction 1 as [|y l Hy HF IH]; intros Hin; [destruct Hin|].
  cbn [fold_right].
  assert (0 <= fold_right Z.add 0 l)%Z.
  { clear IH Hin. induction HF; simpl; lia. }
  destruct Hin as [->|Hin]; [lia|]. pose proof (IH Hin). lia.
Qed.

Lemma mean_below_bound (l : list Z) (M : Z) :
  l <> [] -> (forall x, In x l -> (x <= M)%Z) ->
  fle (Series.mean l) (of_Z M) = true.
Proof.
  intros Hne Hb. destruct (fval_mean l Hne) as (q & Hq & Hv).
  rewrite Hq. cbn [fle of_Z]. apply Qle_bool_iff. rewrite Hv.
  assert (Hn : (0 < Z.of_nat (List.length l))%Z)
    by (destruct l; [congruence|simpl; lia]).
  apply Qle_shift_div_r.
  - unfold Qlt. simpl. lia.
  - rewrite <- inject_Z_mult, <- Zle_Qle.
    pose proof (sum_bounded_above l M Hb). lia.
Qed.

(** X17: the three numbers of a comparison row are consistent with each
    other: the recent average, rounded to one decimal, never exceeds the
    peak count, and on non-negative counts the peak count never exceeds
    the total. *)
Theorem comparison_row_is_consistent (drug : string) (qs : series)
        (d : DataFrame) (h : heap) :
  holds_series d qs -> qs <> [] ->
  exists row total average peak,
    compare_drug_trends [(drug, 0%nat)] (d :: h) = (Returned [row], d :: h)
    /\ lookup "total_reports" row = Some (VInt total)
    /\ lookup "recent_avg_quarterly" row = Some (VFloat average)
    /\ lookup "peak_reports" row = Some (VInt peak)
    /\ fle average (of_Z peak) = true
    /\ (Forall (fun q => 0 <= snd q)%Z qs -> (peak <= total)%Z).
Proof.
  intros H Hne.
  exists (comparison_row drug qs (peak_index qs)),
         (Series.sum (counts qs)),
         (round (Series.mean (recent_counts qs)) 1),
         (count_at qs (peak_index qs)).
  split; [apply compare_drug_trends_run; assumption|].
  do 3 (split; [reflexivity|]).
  destruct (peak_index_spec qs Hne) as (Hp & Hmax & _).
  assert (Hall : forall x, In x (counts qs) ->
                   (x <= count_at qs (peak_index qs))%Z).
  { intros x Hx. apply (In_nth _ _ 0%Z) in Hx. destruct Hx as (j & Hj & <-).
    rewrite counts_length in Hj. apply Hmax, Hj. }
  split.
  - rewrite <- (round_of_Z (count_at qs (peak_index qs)) 1) by lia.
    apply round_monotone; [lia|].
    apply mean_below_bound.
    + unfold recent_counts, Series.tail.
      destruct (4 <=? List.length qs)%nat eqn:E.
      * apply Nat.leb_le in E. intros Hnil.
        apply (f_equal (@List.length _)) in Hnil.
        rewrite length_skipn, counts_length in Hnil. simpl in Hnil. lia.
      * destruct qs; [congruence|discriminate].
    + intros x Hx. apply Hall. unfold recent_counts in Hx.
      destruct (4 <=? List.length qs)%nat; [apply (In_tail 4), Hx|exact Hx].
  - intros Hpos. apply sum_covers_member.
    + apply counts_nonneg, Hpos.
    + unfold count_at. apply nth_In. rewrite counts_length. exact Hp.
Qed.

Lemma comparison_row_is_consistent_witness :
  exists row total average peak,
    compare_drug_trends [("A", 0%nat)] [frame_of comparator_series]
    = (Returned [row], [frame_of comparator_series])
    /\ lookup "total_reports" row = Some (VInt total)
    /\ lookup "recent_avg_quarterly" row = Some (VFloat average)
    /\ lookup "peak_reports" row = Some (VInt peak)
    /\ fle average (of_Z peak) = true
    /\ (Forall (fun q => 0 <= snd q)%Z comparator_series -> (peak <= total)%Z).
Proof.
  apply (comparison_row_is_consistent "A" comparator_series
           (frame_of comparator_series) []).
  - apply frame_of_holds.
  - discriminate.
Defined.

(** ** Running a detector again *)

Lemma assign_present {V : Type} (k : string) (v : V) (m : list (string * V)) :
  lookup k m = Some v -> assign k v m = m.
Proof.
  induction m as [|[k0 v0] m IH]; simpl; [discriminate|].
  destruct (String.eqb k0 k).
  - intros E. injection E as ->. reflexivity.
  - intros E. rewrite (IH E). reflexivity.
Qed.

Lemma set_column_present (name : string) (c : column) (d : DataFrame) :
  lookup name (df_columns d) = Some c -> set_column name c d = d.
Proof.
  intros H. unfold set_column. rewrite (assign_present _ _ _ H).
  destruct d; reflexivity.
Qed.

Lemma with_anomaly_columns_again (d : DataFrame) (ys : list Z) (t : fl) :
  with_anomaly_columns (with_anomaly_columns d ys t) ys t
  = with_anomaly_columns d ys t.
Proof.
  unfold with_anomaly_columns at 1.
  rewrite (set_column_present "mean")
    by (unfold with_anomaly_columns; find_column; reflexivity).
  rewrite (set_column_present "std")
    by (unfold with_anomaly_columns; find_column; reflexivity).
  rewrite (set_column_present "z_score")
    by (unfold with_anomaly_columns; find_column; reflexivity).
  apply set_column_present. unfold with_anomaly_columns. find_column.
  reflexivity.
Qed.

Lemma with_signal_columns_again (d : DataFrame) (ys : list Z) :
  with_signal_columns (with_signal_columns d ys) ys = with_signal_columns d ys.
Proof.
  unfold with_signal_columns at 1.
  rewrite (set_column_present "pct_change")
    by (unfold with_signal_columns; find_column; reflexivity).
  apply set_column_present. unfold with_signal_columns. find_column.
  reflexivity.
Qed.

(** X18: the detectors are idempotent.  Run a second time on the frame
    the first run left behind, with the same threshold, each returns the
    same rows and leaves the frame as the first run left it. *)
Theorem detectors_are_idempotent (qs : series) (threshold : fl)
        (min_reports : Z) (d : DataFrame) (h : heap) :
  holds_series d qs ->
  (forall r h1,
     detect_anomalies 0 threshold (d :: h) = (Returned r, h1) ->
     detect_anomalies 0 threshold h1 = (Returned r, h1))
  /\ (forall r h1,
        detect_safety_signals 0 min_reports (d :: h) = (Returned r, h1) ->
        detect_safety_signals 0 min_reports h1 = (Returned r, h1)).
Proof.
  intros H. split; intros r h1 Hrun.
  - destruct (Nat.lt_ge_cases (List.length qs) 3) as [Hs|Hl].
    + rewrite (detect_anomalies_short qs threshold d h H Hs) in Hrun.
      injection Hrun as <- <-.
      apply (detect_anomalies_short qs); assumption.
    + rewrite (detect_anomalies_run qs threshold d h H Hl) in Hrun.
      injection Hrun as <- <-.
      rewrite (detect_anomalies_run qs threshold _ h
                 (with_anomaly_columns_holds d qs threshold H) Hl).
      rewrite with_anomaly_columns_again. reflexivity.
  - destruct (Nat.lt_ge_cases (List.length qs) 2) as [Hs|Hl].
    + rewrite (detect_safety_signals_short qs min_reports d h H Hs) in Hrun.
      injection Hrun as <- <-.
      apply (detect_safety_signals_short qs); assumption.
    + rewrite (detect_safety_signals_run qs min_reports d h H Hl) in Hrun.
      injection Hrun as <- <-.
      rewrite (detect_safety_signals_run qs min_reports _ h
                 (with_signal_columns_holds d qs H) Hl).
      rewrite with_signal_columns_again. reflexivity.
Qed.

Lemma detectors_are_idempotent_witness :
  (forall r h1,
     detect_anomalies 0 (of_Q (1 # 2)) [frame_of scenario_series]
       = (Returned r, h1) ->
     detect_anomalies 0 (of_Q (1 # 2)) h1 = (Returned r, h1))
  /\ (forall r h1,
        detect_safety_signals 0 10 [frame_of scenario_series]
          = (Returned r, h1) ->
        detect_safety_signals 0 10 h1 = (Returned r, h1)).
Proof.
  apply (detectors_are_idempotent scenario_series (of_Q (1 # 2)) 10
           (frame_of scenario_series) []).
  apply frame_of_holds.
Defined.

(** ** Trials and articles *)

Ltac outcome_cases H :=
  repeat match type of H with
         | obind ?o _ = Returned _ =>
             let E := fresh "E" in
             destruct o eqn:E; cbn [obind] in H; [|discriminate H]
         end.

Lemma trial_record_keys (study : json) (record : list (string * json)) :
  trial_record study = Returned record -> map fst record = trial_keys.
Proof.
  unfold trial_record. intros H. outcome_cases H.
  injection H as <-. reflexivity.
Qed.

Lemma trial_record_needs_object (study : json) :
  (forall members, study <> JObj members) ->
  trial_record study = Raised "AttributeError".
Proof.
  intros Hno. destruct study; try reflexivity.
  exfalso. apply (Hno members). reflexivity.
Qed.

Lemma trial_record_blank (members : list (string * json)) :
  lookup "protocolSection" members = None ->
  trial_record (JObj members) = Returned blank_trial.
Proof.
  intros H. unfold trial_record. cbn [get]. rewrite H. reflexivity.
Qed.

Lemma collect_trials_spec (studies : list json)
      (trials out : list (list (string * json))) :
  collect_trials studies trials = Returned out ->
  exists records,
    out = (trials ++ records)%list
    /\ Forall2 (fun s r => trial_record s = Returned r) studies records.
Proof.
  revert trials. induction studies as [|study studies IH]; intros trials H.
  - injection H as <-. exists []. rewrite app_nil_r. split; constructor.
  - cbn [collect_trials] in H.
    destruct (trial_record study) as [record|e] eqn:E; [|discriminate H].
    cbn [obind] in H. destruct (IH _ H) as (records & -> & HF).
    exists (record :: records). rewrite <- app_assoc. split; [reflexivity|].
    constructor; assumption.
Qed.

Lemma collect_trials_all (studies : list json)
      (trials records : list (list (string * json))) :
  Forall2 (fun s r => trial_record s = Returned r) studies records ->
  collect_trials studies trials = Returned (trials ++ records)%list.
Proof.
  intros HF. revert trials.
  induction HF as [|s r studies records Hs _ IH]; intros trials.
  - rewrite app_nil_r. reflexivity.
  - cbn [collect_trials]. rewrite Hs. cbn [obind]. rewrite IH, <- app_assoc.
    reflexivity.
Qed.

Lemma collect_trials_fails (studies : list json)
      (trials : list (list (string * json))) (study : json) (e : string) :
  In study studies -> trial_record study = Raised e ->
  exists e', collect_trials studies trials = Raised e'.
Proof.
  revert trials. induction studies as [|s studies IH]; intros trials Hin He;
    [destruct Hin|].
  cbn [collect_trials].
  destruct (trial_record s) as [record|e0] eqn:E; cbn [obind].
  - destruct Hin as [->|Hin]; [congruence|]. apply IH; assumption.
  - exists e0. reflexivity.
Qed.

(** X19: [fetch_clinical_trials] returns all the studies or none.  Every
    row it returns has the seven fields, in order; the rows are the
    records of the studies, one for one, or there is no row at all; one
    study that is not a dictionary leaves the result empty, whatever the
    other studies are; and a study without a [protocolSection] comes out
    as the blank record (empty strings, enrollment 0). *)
Theorem fetch_clinical_trials_all_or_nothing (response : outcome json) :
  let trials := fetch_clinical_trials response in
  Forall (fun record => map fst record = trial_keys) trials
  /\ forall members studies,
       response = Returned (JObj members) ->
       lookup "studies" members = Some (JList studies) ->
       (trials = []
        \/ Forall2 (fun s r => trial_record s = Returned r) studies trials)
       /\ ((exists study, In study studies
                          /\ forall m, study <> JObj m) -> trials = [])
       /\ (Forall (fun s => exists m, s = JObj m
                                      /\ lookup "protocolSection" m = None)
                  studies ->
           trials = map (fun _ => blank_trial) studies).
Proof.
  intros trials. split.
  - subst trials. unfold fetch_clinical_trials.
    destruct response as [[| | | | | |members]|e]; try constructor.
    destruct (lookup "studies" members) as [studies|]; [|constructor].
    destruct (iterate studies) as [items|e]; cbn [obind]; [|constructor].
    destruct (collect_trials items []) as [out|e] eqn:E; [|constructor].
    destruct (collect_trials_spec _ _ _ E) as (records & -> & HF).
    cbn [app]. clear E. induction HF as [|s r ss rs Hs _ IH]; constructor.
    + apply (trial_record_keys s), Hs.
    + exact IH.
  - intros members studies -> Hst. subst trials.
    unfold fetch_clinical_trials. rewrite Hst. cbn [iterate obind].
    split; [|split].
    + destruct (collect_trials studies []) as [out|e] eqn:E; [|left; reflexivity].
      destruct (collect_trials_spec _ _ _ E) as (records & -> & HF).
      right. exact HF.
    + intros (study & Hin & Hno).
      destruct (collect_trials_fails studies [] study _ Hin
                  (trial_record_needs_object study Hno)) as (e & ->).
      reflexivity.
    + intros Hall.
      rewrite (collect_trials_all studies [] (map (fun _ => blank_trial) studies));
        [reflexivity|].
      clear Hst. induction Hall as [|s ss (m & -> & Hm) _ IH]; cbn [map]; constructor.
      * apply trial_record_blank, Hm.
      * exact IH.
Qed.

Lemma as_strings_of_strings (ids : list string) :
  as_strings (map JStr ids) = Returned ids.
Proof.
  induction ids as [|s ids IH]; [reflexivity|].
  cbn [map as_strings]. rewrite IH. reflexivity.
Qed.

Lemma articles_from_ids (clock : nat -> string) (i : nat) (ids : list string) :
  List.length (articles_from clock i ids) = List.length ids
  /\ map (lookup "pmid") (articles_from clock i ids) = map Some ids
  /\ map (lookup "url") (articles_from clock i ids)
     = map (fun id => Some ("https://pubmed.ncbi.nlm.nih.gov/" ++ id ++ "/")%string)
           ids.
Proof.
  revert i. induction ids as [|s ids IH]; intros i; [repeat split|].
  destruct (IH (S i)) as (H1 & H2 & H3).
  cbn [articles_from List.length map]. rewrite H1, H2, H3.
  repeat split.
Qed.

Section PubMedFacts.

Variable efetch : string -> outcome unit.

(** X20: [fetch_pubmed_articles] returns no row, or one row per id of the
    search in the order of the search, carrying the id and the address
    built from it -- and then the second request went through.  When the
    second request fails there is no row, although the rows use nothing
    of its answer.  A search whose [idlist] is a list of strings, followed
    by a second request that succeeds, gives a row for every id. *)
Theorem fetch_pubmed_articles_rows (search : outcome json)
        (clock : nat -> string) :
  let rows := fetch_pubmed_articles efetch search clock in
  (rows = []
   \/ exists ids,
        efetch (join "," ids) = Returned tt
        /\ rows = articles_from clock 0 ids
        /\ List.length rows = List.length ids
        /\ map (lookup "pmid") rows = map Some ids
        /\ map (lookup "url") rows
           = map (fun id =>
                    Some ("https://pubmed.ncbi.nlm.nih.gov/" ++ id ++ "/")%string)
                 ids)
  /\ ((forall ids, exists e, efetch ids = Raised e) -> rows = [])
  /\ (forall members result id ids,
        search = Returned (JObj members) ->
        lookup "esearchresult" members = Some (JObj result) ->
        lookup "idlist" result = Some (JList (map JStr (id :: ids))) ->
        efetch (join "," (id :: ids)) = Returned tt ->
        rows = articles_from clock 0 (id :: ids)).
Proof.
  intros rows.
  assert (Hshape :
    rows = []
    \/ exists ids, efetch (join "," ids) = Returned tt
                   /\ rows = articles_from clock 0 ids).
  { subst rows. unfold fetch_pubmed_articles.
    destruct search as [search_data|e]; [|left; reflexivity].
    destruct (obind (get search_data "esearchresult" (JObj []))
                (fun result => get result "idlist" (JList [])))
      as [pmids|e]; [|left; reflexivity].
    destruct (truthy pmids); cbn [negb]; [|left; reflexivity].
    destruct (iterate pmids) as [items|e]; cbn [obind]; [|left; reflexivity].
    destruct (as_strings items) as [ids|e]; cbn [obind]; [|left; reflexivity].
    destruct (efetch (join "," ids)) as [[]|e] eqn:E; cbn [obind];
      [|left; reflexivity].
    right. exists ids. split; [exact E|reflexivity]. }
  split; [|split].
  - destruct Hshape as [H|(ids & He & Hr)]; [left; exact H|].
    right. exists ids. rewrite Hr.
    destruct (articles_from_ids clock 0 ids) as (H1 & H2 & H3).
    repeat split; assumption.
  - intros Hdown. destruct Hshape as [H|(ids & He & _)]; [exact H|].
    destruct (Hdown (join "," ids)) as (e & He'). congruence.
  - intros members result id ids -> Hres Hids Hok. subst rows.
    unfold fetch_pubmed_articles. cbn [get obind]. rewrite Hres.
    cbn [get]. rewrite Hids. cbn [truthy map negb iterate obind].
    change (JStr id :: map JStr ids) with (map JStr (id :: ids)).
    rewrite as_strings_of_strings. cbn [obind]. rewrite Hok. reflexivity.
Qed.

End PubMedFacts.

(** Two studies, the second one saying nothing: two rows. *)
Example fetch_clinical_trials_example :
  map (lookup "nct_id") (fetch_clinical_trials (Returned example_studies))
  = [Some (JStr "NCT01"); Some (JStr "")].
Proof. reflexivity. Qed.

(** The ids are found, the details cannot be fetched: no article. *)
Example fetch_pubmed_articles_example :
  List.length (fetch_pubmed_articles efetch_ok (Returned example_search)
                 (fun _ => "2024-01-01")) = 2%nat
  /\ fetch_pubmed_articles efetch_down (Returned example_search)
       (fun _ => "2024-01-01") = [].
Proof. split; reflexivity. Qed.

(** ** From the collected rows to the analysis *)

Lemma detect_anomalies_returns (qs : series) (t : fl) (d : DataFrame)
      (h : heap) :
  holds_series d qs ->
  exists r d', detect_anomalies 0 t (d :: h) = (Returned r, d' :: h)
               /\ holds_series d' qs.
Proof.
  intros H. destruct (Nat.lt_ge_cases (List.length qs) 3) as [Hs|Hl].
  - exists empty_frame, d. split; [|exact H].
    apply (detect_anomalies_short qs); assumption.
  - eexists. eexists. split; [apply (detect_anomalies_run qs); assumption|].
    apply with_anomaly_columns_holds, H.
Qed.

Lemma detect_safety_signals_returns (qs : series) (m : Z) (d : DataFrame)
      (h : heap) :
  holds_series d qs ->
  exists r d', detect_safety_signals 0 m (d :: h) = (Returned r, d' :: h)
               /\ holds_series d' qs.
Proof.
  intros H. destruct (Nat.lt_ge_cases (List.length qs) 2) as [Hs|Hl].
  - exists empty_frame, d. split; [|exact H].
    apply (detect_safety_signals_short qs); assumption.
  - eexists. eexists. split; [apply (detect_safety_signals_run qs); assumption|].
    apply with_signal_columns_holds, H.
Qed.

Section FetchedAnalysis.

Variable Model : Type.
Variable prophet_fit : DataFrame -> fl -> outcome Model.
Variable prophet_predict : Model -> Z -> outcome DataFrame.
Variable to_datetime : string -> option date.

Hypothesis fit_answers :
  forall d prior, exists m, prophet_fit d prior = Returned m.
Hypothesis predict_answers :
  forall m n, exists fc, prophet_predict m n = Returned (forecast_frame fc).

Lemma run_analysis_returns (qs : series) (cfg : config) (d : DataFrame)
      (h : heap) :
  holds_series d qs -> qs <> [] ->
  exists b d',
    run_analysis Model prophet_fit prophet_predict 0 cfg (d :: h)
    = (Returned (Some b), d' :: h).
Proof.
  intros H Hne. unfold run_analysis.
  erewrite bind_run by apply deref_run. cbv beta.
  rewrite (holds_empty d qs H).
  destruct qs as [|q qs]; [congruence|]. cbv iota.
  assert (Hforecast : exists model fr,
            train_prophet_model Model prophet_fit 0 cfg (d :: h)
            = (Returned model, d :: h)
            /\ generate_forecast Model prophet_predict model
                 (forecast_horizon_quarters cfg) (d :: h)
               = (Returned fr, d :: h)
            /\ (fr = empty_frame \/ exists fc, fr = forecast_frame fc)).
  { destruct (Nat.lt_ge_cases (List.length (q :: qs)) 2) as [Hs|Hl].
    - exists None, empty_frame.
      split; [apply (train_prophet_model_short Model prophet_fit (q :: qs));
              assumption|].
      split; [reflexivity|left; reflexivity].
    - destruct (fit_answers d (prophet_changepoint_prior cfg)) as (m & Hm).
      destruct (predict_answers m (forecast_horizon_quarters cfg)) as (fc & Hfc).
      exists (Some m), (forecast_frame fc).
      split; [apply (train_prophet_model_fits Model prophet_fit (q :: qs));
              assumption|].
      split; [unfold generate_forecast, call; rewrite Hfc; reflexivity|].
      right. exists fc. reflexivity. }
  destruct Hforecast as (model & fr & Htrain & Hgen & Hfr).
  erewrite bind_run by exact Htrain. cbv beta.
  erewrite bind_run by exact Hgen. cbv beta.
  destruct (detect_anomalies_returns (q :: qs) (anomaly_threshold cfg) d h H)
    as (anomalies & d1 & Ha & H1).
  erewrite bind_run by exact Ha. cbv beta.
  destruct (detect_safety_signals_returns (q :: qs)
              (min_reports_for_signal cfg) d1 h H1)
    as (signals & d2 & Hs & H2).
  erewrite bind_run by exact Hs. cbv beta.
  destruct Hfr as [->|(fc & ->)].
  - erewrite bind_run
      by (apply (generate_summary_stats_absent (q :: qs)); [exact H2|discriminate]).
    cbv beta. eexists. eexists. reflexivity.
  - erewrite bind_run
      by (apply (generate_summary_stats_run (q :: qs)); [exact H2|discriminate]).
    cbv beta. eexists. eexists. reflexivity.
Qed.

End FetchedAnalysis.

(** X21: the analysis accepts whatever the collection hands over.  When
    the forecasting library answers (a model for every frame, a forecast
    frame for every model), the analysis block run on the frame
    [fetch_fda_adverse_events] returned never raises, whatever the
    request came back with: it is skipped when the frame is empty, leaving
    the frame alone, and returns a full bundle otherwise -- for one
    period, for two, and for more. *)
Theorem analysis_of_fetched_data_returns (Model : Type)
        (prophet_fit : DataFrame -> fl -> outcome Model)
        (prophet_predict : Model -> Z -> outcome DataFrame)
        (to_datetime : string -> option date)
        (response : outcome (option (list raw_row))) (cfg : config)
        (h : heap) :
  (forall d prior, exists m, prophet_fit d prior = Returned m) ->
  (forall m n, exists fc, prophet_predict m n = Returned (forecast_frame fc)) ->
  let d := fetch_fda_adverse_events to_datetime response in
  exists result d',
    run_analysis Model prophet_fit prophet_predict 0 cfg (d :: h)
    = (Returned result, d' :: h)
    /\ (result = None <-> df_empty d = true)
    /\ (df_empty d = true -> d' = d).
Proof.
  intros Hfit Hpredict d.
  destruct (df_empty d) eqn:He.
  - exists None, d. split; [|split; [tauto|reflexivity]].
    unfold run_analysis. erewrite bind_run by apply deref_run. cbv beta.
    rewrite He. reflexivity.
  - assert (Hd : exists qs, d = frame_of qs /\ qs <> []).
    { subst d. unfold fetch_fda_adverse_events in *.
      destruct response as [[[|r results]|]|e]; try discriminate He.
      eexists. split; [reflexivity|]. intros Hnil. rewrite Hnil in He.
      discriminate He. }
    destruct Hd as (qs & Hd & Hne).
    destruct (run_analysis_returns Model prophet_fit prophet_predict
                Hfit Hpredict qs cfg d h) as (b & d' & Hrun).
    + rewrite Hd. apply frame_of_holds.
    + exact Hne.
    + exists (Some b), d'. split; [exact Hrun|].
      split; [split; discriminate|discriminate].
Qed.

Lemma analysis_of_fetched_data_returns_witness :
  exists result d',
    run_analysis unit stub_fit stub_predict 0 default_config
      [fetch_fda_adverse_events example_to_datetime
         (Returned (Some example_results))]
    = (Returned result, [d'])
    /\ (result = None <->
        df_empty (fetch_fda_adverse_events example_to_datetime
                    (Returned (Some example_results))) = true)
    /\ (df_empty (fetch_fda_adverse_events example_to_datetime
                    (Returned (Some example_results))) = true ->
        d' = fetch_fda_adverse_events example_to_datetime
               (Returned (Some example_results))).
Proof.
  apply (analysis_of_fetched_data_returns unit stub_fit stub_predict
           example_to_datetime (Returned (Some example_results))
           default_config []).
  - intros d prior. exists tt. reflexivity.
  - intros m n. exists example_forecast. reflexivity.
Defined.

(** ** Raising the signal threshold *)

(** X22: raising [min_reports] never adds a safety signal.  On
    non-negative counts, every period flagged under the larger value is
    flagged under the smaller one, so the number of signals can only go
    down. *)
Theorem detect_safety_signals_monotone (qs : series) (m1 m2 : Z)
        (d : DataFrame) (h : heap) :
  holds_series d qs ->
  Forall (fun q => 0 <= snd q)%Z qs ->
  (m1 <= m2)%Z ->
  exists s1 s2 h1 h2,
    detect_safety_signals 0 m1 (d :: h) = (Returned s1, h1)
    /\ detect_safety_signals 0 m2 (d :: h) = (Returned s2, h2)
    /\ (forall i, In i (df_index s2) -> In i (df_index s1))
    /\ (df_len s2 <= df_len s1)%nat.
Proof.
  intros Hd Hpos Hle. pose proof Hd as (Hi & _).
  destruct (Nat.lt_ge_cases (List.length qs) 2) as [Hshort|Hlong].
  - exists empty_frame, empty_frame. eexists. eexists.
    rewrite !(detect_safety_signals_short qs) by assumption.
    repeat split; auto.
  - eexists. eexists. eexists. eexists.
    rewrite !(detect_safety_signals_run qs) by assumption.
    split; [reflexivity|]. split; [reflexivity|].
    unfold df_len.
    cbn [df_select df_index with_signal_columns set_column]. rewrite Hi.
    split.
    + intros i. rewrite !(signal_flags qs _ i Hpos).
      intros (H1 & H2 & H3). repeat split; try assumption; lia.
    + apply select_mask_weaken; [rewrite !length_signal_mask; reflexivity|].
      intros i. rewrite !(nth_signal_mask _ _ i (counts_nonneg _ Hpos)).
      intros (H1 & H2 & H3). repeat split; try assumption; lia.
Qed.

Lemma detect_safety_signals_monotone_witness :
  exists s1 s2 h1 h2,
    detect_safety_signals 0 10 [frame_of scenario_series] = (Returned s1, h1)
    /\ detect_safety_signals 0 26 [frame_of scenario_series] = (Returned s2, h2)
    /\ (forall i, In i (df_index s2) -> In i (df_index s1))
    /\ (df_len s2 <= df_len s1)%nat.
Proof.
  apply (detect_safety_signals_monotone scenario_series 10 26
           (frame_of scenario_series) []).
  - apply frame_of_holds.
  - repeat constructor; simpl; lia.
  - lia.
Defined.

(** ** Which quarter a day falls in *)

Lemma date_ltb_iff (a b : date) :
  date_ltb a b = true <->
  (year a < year b
   \/ (year a = year b
       /\ (month a < month b \/ (month a = month b /\ day a < day b))))%Z.
Proof.
  unfold date_ltb.
  rewrite orb_true_iff, andb_true_iff, orb_true_iff, andb_true_iff.
  rewrite !Z.ltb_lt, !Z.eqb_eq. reflexivity.
Qed.

(** X23: a row is counted in the first quarter that ends on or after its
    day.  For a day of the calendar, the quarter ends on or after the day
    are exactly those of the day's own quarter and of the later ones; in
    particular the day's quarter ends on or after the day, and the
    quarter before it ends before the day. *)
Theorem day_falls_in_its_quarter (d : date) (q : Z) :
  calendar_date d ->
  (date_leb d (quarter_end q) = true <-> (quarter_of d <= q)%Z)
  /\ date_leb d (quarter_end (quarter_of d)) = true
  /\ date_ltb (quarter_end (quarter_of d - 1)) d = true.
Proof.
  intros [Hm Hd].
  assert (Hiff : forall q0, date_leb d (quarter_end q0) = true
                            <-> (quarter_of d <= q0)%Z).
  { intros q0. unfold date_leb. rewrite negb_true_iff.
    rewrite <- not_true_iff_false, date_ltb_iff.
    unfold quarter_of, quarter_end, days_in_month in *.
    destruct d as [y m dd]. cbn [year month day] in *.
    assert (Hk : (q0 mod 4 = 0 \/ q0 mod 4 = 1 \/ q0 mod 4 = 2 \/ q0 mod 4 = 3)%Z)
      by (pose proof (Z.mod_pos_bound q0 4); lia).
    assert (Hq : (q0 = 4 * (q0 / 4) + q0 mod 4)%Z) by (apply Z.div_mod; lia).
    assert (Hmm : (m = 1 \/ m = 2 \/ m = 3 \/ m = 4 \/ m = 5 \/ m = 6 \/ m = 7
                   \/ m = 8 \/ m = 9 \/ m = 10 \/ m = 11 \/ m = 12)%Z) by lia.
    set (Y := (q0 / 4)%Z) in *. set (k := (q0 mod 4)%Z) in *.
    clearbody Y k.
    destruct Hk as [-> | [-> | [-> | ->]]];
      destruct Hmm
        as [-> | [-> | [-> | [-> | [-> | [-> | [-> | [-> | [-> | [-> | [-> | ->]]]]]]]]]]];
      cbn [Z.eqb Pos.eqb orb] in Hd |- *;
      Z.to_euclidean_division_equations; lia. }
  split; [apply Hiff|]. split; [apply Hiff; lia|].
  destruct (date_ltb (quarter_end (quarter_of d - 1)) d) eqn:E; [reflexivity|].
  exfalso.
  assert (Hle : date_leb d (quarter_end (quarter_of d - 1)) = true)
    by (unfold date_leb; rewrite E; reflexivity).
  apply Hiff in Hle. lia.
Qed.

Lemma day_falls_in_its_quarter_witness :
  (date_leb (mkdate 2023 4 10) (quarter_end 8093) = true
   <-> (quarter_of (mkdate 2023 4 10) <= 8093)%Z)
  /\ date_leb (mkdate 2023 4 10)
       (quarter_end (quarter_of (mkdate 2023 4 10))) = true
  /\ date_ltb (quarter_end (quarter_of (mkdate 2023 4 10) - 1))
       (mkdate 2023 4 10) = true.
Proof.
  apply (day_falls_in_its_quarter (mkdate 2023 4 10) 8093).
  split; cbn; lia.
Defined.

(** * The digest: forecast entries, keys and rounding *)

(** ** What [round] returns *)

Section RoundedValues.

Local Open Scope Q_scope.

Lemma Qround_half_even_near (q : Q) :
  Qabs (inject_Z (Qround_half_even q) - q) <= 1 # 2.
Proof.
  unfold Qround_half_even.
  pose proof (Qfloor_le q) as Hlo. pose proof (Qlt_floor q) as Hhi.
  rewrite inject_Z_plus in Hhi. change (inject_Z 1) with 1 in Hhi.
  set (f := Qfloor q) in *.
  apply Qabs_Qle_condition.
  destruct (Qlt_bool (1 # 2) (q - inject_Z f)) eqn:E1.
  { apply Qlt_bool_iff in E1. rewrite inject_Z_plus.
    change (inject_Z 1) with 1. split; lra. }
  apply Qlt_bool_false in E1.
  destruct (Qlt_bool (q - inject_Z f) (1 # 2)) eqn:E2.
  { split; lra. }
  apply Qlt_bool_false in E2.
  destruct (Z.even f); [split; lra|].
  rewrite inject_Z_plus. change (inject_Z 1) with 1. split; lra.
Qed.

Lemma power_of_ten_positive (ndigits : Z) :
  (0 <= ndigits)%Z -> 0 < inject_Z (10 ^ ndigits).
Proof.
  intros Hn. assert (Hs : (0 < 10 ^ ndigits)%Z) by (apply Z.pow_pos_nonneg; lia).
  unfold Qlt. simpl. lia.
Qed.

(** [round] gives a decimal of [ndigits] places nearest to the value it
    is given. *)
Lemma round_rounds_to (x : fl) (q : Q) (ndigits : Z) :
  (0 <= ndigits)%Z -> fval x q -> rounds_to ndigits q (round x ndigits).
Proof.
  intros Hn (q' & -> & Hq). cbn [round].
  pose proof (power_of_ten_positive ndigits Hn) as Hs.
  set (s := inject_Z (10 ^ ndigits)) in *.
  exists (Qround_half_even (q' * s)). split; [reflexivity|].
  pose proof (Qround_half_even_near (q' * s)) as Hnear.
  fold s.
  set (k := inject_Z (Qround_half_even (q' * s))) in *.
  assert (Htol : 0 <= Qabs q * float_tolerance).
  { apply Qmult_le_0_compat; [apply Qabs_nonneg|discriminate]. }
  apply (Qle_trans _ ((1 # 2) / s + 0));
    [rewrite Qplus_0_r|apply Qplus_le_r; exact Htol].
  rewrite <- Hq.
  setoid_replace (k / s - q') with ((k - q' * s) / s) by (field; lra).
  unfold Qdiv at 1. rewrite Qabs_Qmult.
  rewrite (Qabs_pos (/ s)) by (apply Qlt_le_weak, Qinv_lt_0_compat, Hs).
  apply Qmult_le_compat_r; [exact Hnear|].
  apply Qlt_le_weak, Qinv_lt_0_compat, Hs.
Qed.

Lemma round_is_rounding (x : fl) (ndigits : Z) :
  (0 <= ndigits)%Z -> is_rounding ndigits x (round x ndigits).
Proof.
  intros Hn. destruct x as [| |q]; try reflexivity.
  apply round_rounds_to; [exact Hn|]. exists q. split; reflexivity.
Qed.

Lemma fold_left_Qplus_nonneg (l : list Q) (a : Q) :
  0 <= a -> Forall (fun x => 0 <= x) l -> 0 <= fold_left Qplus l a.
Proof.
  intros Ha HF. revert a Ha.
  induction HF as [|x l Hx _ IH]; intros a Ha; [exact Ha|].
  simpl. apply IH. lra.
Qed.

Lemma sample_variance_nonneg (ys : list Z) :
  (2 <= List.length ys)%nat -> 0 <= sample_variance ys.
Proof.
  intros Hlen. unfold sample_variance.
  apply Qle_shift_div_l.
  - unfold Qlt, Qminus, Qplus, Qopp, inject_Z. cbn [Qnum Qden]. lia.
  - rewrite Qmult_0_l. apply fold_left_Qplus_nonneg; [discriminate|].
    apply Forall_forall. intros x Hx. apply in_map_iff in Hx.
    destruct Hx as (y & <- & _).
    generalize (inject_Z y - exact_mean ys). intros u. nra.
Qed.

(** The deviation the code rounds: the square root of the sample
    variance. *)
Lemma fval_std (ys : list Z) :
  (2 <= List.length ys)%nat ->
  exists s, fval (Series.std ys) s /\ is_sqrt_of (sample_variance ys) s.
Proof.
  intros Hlen.
  assert (Hne : ys <> []) by (destruct ys; [simpl in Hlen; lia|discriminate]).
  unfold Series.std.
  apply fval_fsqrt; [|apply sample_variance_nonneg, Hlen].
  apply (fval_var ys (exact_mean ys) Hlen). apply fval_mean, Hne.
Qed.

Lemma std_of_one (y : Z) : Series.std [y] = FNaN.
Proof. reflexivity. Qed.

End RoundedValues.

(** ** The forecast entries *)

Lemma future_points_first (fc before rest : list ForecastPoint)
      (p : ForecastPoint) (after : date) :
  fc = (before ++ p :: rest)%list ->
  Forall (fun p' => date_ltb after (fp_ds p') = false) before ->
  date_ltb after (fp_ds p) = true ->
  future_points fc after = p :: future_points rest after.
Proof.
  intros -> Hbefore Hp. unfold future_points. rewrite filter_app.
  replace (filter (fun p0 => date_ltb after (fp_ds p0)) before) with
    (@nil ForecastPoint).
  - cbn [app filter]. rewrite Hp. reflexivity.
  - symmetry. induction Hbefore as [|b before Hb _ IH]; [reflexivity|].
    cbn [filter]. rewrite Hb. exact IH.
Qed.

Lemma forecast_entries_recorded (qs : series) (fc ps : list ForecastPoint)
      (p : ForecastPoint) :
  future_points fc (end_date qs) = p :: ps ->
  lookup "forecast_next_quarter" (summary_of qs fc)
  = Some (VFloat (round (fp_yhat p) 1))
  /\ lookup "forecast_upper_bound" (summary_of qs fc)
     = Some (VFloat (round (fp_yhat_upper p) 1))
  /\ lookup "forecast_lower_bound" (summary_of qs fc)
     = Some (VFloat (round (fp_yhat_lower p) 1)).
Proof.
  intros Hfut. unfold summary_of. rewrite Hfut. repeat split; reflexivity.
Qed.

Lemma forecast_entries_absent (qs : series) (fc : list ForecastPoint) :
  future_points fc (end_date qs) = [] ->
  lookup "forecast_next_quarter" (summary_of qs fc) = None
  /\ lookup "forecast_upper_bound" (summary_of qs fc) = None
  /\ lookup "forecast_lower_bound" (summary_of qs fc) = None.
Proof.
  intros Hfut. unfold summary_of. rewrite Hfut. repeat split; reflexivity.
Qed.

(** C8, as worded, fails twice.  The digest does not hold the estimate
    and the bounds of the forecast point: it holds them rounded to one
    decimal place, 25.3, 40.9 and 11.1 for 25.34, 40.87 and 11.12.  And
    the point it takes is the first row of the forecast that lies after
    the series, which is the earliest one only when the forecast is in
    period order: with the row of 2024-06-30 placed before the row of
    2023-12-31, the digest holds the estimate of the later one. *)
Lemma C8_estimate_is_not_recorded :
  (exists stats h',
     generate_summary_stats 0 (forecast_frame decimal_forecast)
       [frame_of comparator_series] = (Returned stats, h')
     /\ lookup "forecast_next_quarter" stats = Some (VFloat (of_Q (253 # 10)))
     /\ lookup "forecast_upper_bound" stats = Some (VFloat (of_Q (409 # 10)))
     /\ lookup "forecast_lower_bound" stats = Some (VFloat (of_Q (111 # 10)))
     /\ forall p, In p decimal_forecast ->
          lookup "forecast_next_quarter" stats <> Some (VFloat (fp_yhat p))
          /\ lookup "forecast_upper_bound" stats
             <> Some (VFloat (fp_yhat_upper p))
          /\ lookup "forecast_lower_bound" stats
             <> Some (VFloat (fp_yhat_lower p)))
  /\ (exists stats h' earliest,
        generate_summary_stats 0 (forecast_frame unordered_forecast)
          [frame_of comparator_series] = (Returned stats, h')
        /\ In earliest unordered_forecast
        /\ date_ltb Q3_2023 (fp_ds earliest) = true
        /\ (forall p, In p unordered_forecast ->
              date_leb (fp_ds earliest) (fp_ds p) = true)
        /\ fp_yhat earliest = of_Z 20
        /\ lookup "forecast_next_quarter" stats = Some (VFloat (of_Z 50))
        /\ lookup "forecast_next_quarter" stats
           <> Some (VFloat (fp_yhat earliest))).
Proof.
  split.
  - eexists. eexists. split; [vm_compute; reflexivity|].
    split; [reflexivity|]. split; [reflexivity|]. split; [reflexivity|].
    intros p [<-|[]]. repeat split; vm_compute; discriminate.
  - eexists. eexists.
    exists (mkpoint Q4_2023 (of_Z 20) (of_Z 10) (of_Z 30)).
    split; [vm_compute; reflexivity|].
    split; [right; left; reflexivity|].
    split; [reflexivity|].
    split; [intros p [<-|[<-|[]]]; reflexivity|].
    split; [reflexivity|]. split; [reflexivity|].
    vm_compute. discriminate.
Qed.

(** C8 (amended): the digest of a frame holding a non-empty series holds,
    each rounded to one decimal place, the estimate and the two bounds of
    the first row of the forecast, in the order of the forecast, whose
    period is strictly after the latest period of the series; when no row
    of the forecast is after it, the three forecast keys are absent.  On
    a series in period order the latest period is the last one, and on a
    forecast in period order the row taken is the earliest one after
    it. *)
Theorem summary_forecast_fields (qs : series) (fc : list ForecastPoint)
        (d : DataFrame) (h : heap) :
  holds_series d qs ->
  qs <> [] ->
  exists stats latest,
    generate_summary_stats 0 (forecast_frame fc) (d :: h)
      = (Returned stats, d :: h)
    /\ Series.dmax (periods qs) = Some latest
    /\ (forall before p rest,
          fc = (before ++ p :: rest)%list ->
          Forall (fun p' => date_ltb latest (fp_ds p') = false) before ->
          date_ltb latest (fp_ds p) = true ->
          exists next upper lower,
            lookup "forecast_next_quarter" stats = Some (VFloat next)
            /\ lookup "forecast_upper_bound" stats = Some (VFloat upper)
            /\ lookup "forecast_lower_bound" stats = Some (VFloat lower)
            /\ is_rounding 1 (fp_yhat p) next
            /\ is_rounding 1 (fp_yhat_upper p) upper
            /\ is_rounding 1 (fp_yhat_lower p) lower)
    /\ ((forall p, In p fc -> date_ltb latest (fp_ds p) = false) ->
        lookup "forecast_next_quarter" stats = None
        /\ lookup "forecast_upper_bound" stats = None
        /\ lookup "forecast_lower_bound" stats = None)
    /\ (StronglySorted (fun a b => date_ltb a b = true) (periods qs) ->
        latest = last (periods qs) (mkdate 0 0 0))
    /\ (StronglySorted (fun a b => date_leb (fp_ds a) (fp_ds b) = true) fc ->
        forall before p rest,
          fc = (before ++ p :: rest)%list ->
          Forall (fun p' => date_ltb latest (fp_ds p') = false) before ->
          date_ltb latest (fp_ds p) = true ->
          forall p', In p' fc -> date_ltb latest (fp_ds p') = true ->
                     date_leb (fp_ds p) (fp_ds p') = true).
Proof.
  intros Hd Hne. destruct qs as [|q qs]; [congruence|].
  exists (summary_of (q :: qs) fc), (end_date (q :: qs)).
  split; [apply generate_summary_stats_run; assumption|].
  split; [reflexivity|].
  split.
  { intros before p rest Hfc Hbefore Hp.
    pose proof (future_points_first fc before rest p _ Hfc Hbefore Hp) as Hfut.
    destruct (forecast_entries_recorded (q :: qs) fc _ p Hfut)
      as (Hn & Hu & Hl).
    exists (round (fp_yhat p) 1), (round (fp_yhat_upper p) 1),
           (round (fp_yhat_lower p) 1).
    repeat (split; [assumption|]).
    repeat split; apply round_is_rounding; lia. }
  split.
  { intros Hnone. apply forecast_entries_absent.
    apply no_future_points, Hnone. }
  split.
  { intros Hs. apply end_date_sorted, Hs. }
  intros Hs before p rest Hfc Hbefore Hp.
  pose proof (future_points_first fc before rest p _ Hfc Hbefore Hp) as Hfut.
  destruct (first_future_is_earliest fc _ p _ Hs Hfut) as (_ & _ & Hmin).
  exact Hmin.
Qed.

Lemma summary_forecast_fields_witness :
  exists stats latest,
    generate_summary_stats 0 (forecast_frame example_forecast)
      [frame_of comparator_series]
      = (Returned stats, [frame_of comparator_series])
    /\ Series.dmax (periods comparator_series) = Some latest
    /\ (forall before p rest,
          example_forecast = (before ++ p :: rest)%list ->
          Forall (fun p' => date_ltb latest (fp_ds p') = false) before ->
          date_ltb latest (fp_ds p) = true ->
          exists next upper lower,
            lookup "forecast_next_quarter" stats = Some (VFloat next)
            /\ lookup "forecast_upper_bound" stats = Some (VFloat upper)
            /\ lookup "forecast_lower_bound" stats = Some (VFloat lower)
            /\ is_rounding 1 (fp_yhat p) next
            /\ is_rounding 1 (fp_yhat_upper p) upper
            /\ is_rounding 1 (fp_yhat_lower p) lower)
    /\ ((forall p, In p example_forecast ->
           date_ltb latest (fp_ds p) = false) ->
        lookup "forecast_next_quarter" stats = None
        /\ lookup "forecast_upper_bound" stats = None
        /\ lookup "forecast_lower_bound" stats = None)
    /\ (StronglySorted (fun a b => date_ltb a b = true)
          (periods comparator_series) ->
        latest = last (periods comparator_series) (mkdate 0 0 0))
    /\ (StronglySorted (fun a b => date_leb (fp_ds a) (fp_ds b) = true)
          example_forecast ->
        forall before p rest,
          example_forecast = (before ++ p :: rest)%list ->
          Forall (fun p' => date_ltb latest (fp_ds p') = false) before ->
          date_ltb latest (fp_ds p) = true ->
          forall p', In p' example_forecast ->
                     date_ltb latest (fp_ds p') = true ->
                     date_leb (fp_ds p) (fp_ds p') = true).
Proof.
  apply (summary_forecast_fields comparator_series example_forecast
           (frame_of comparator_series) []).
  - apply frame_of_holds.
  - discriminate.
Defined.

(** ** The keys of the digest *)

(** C9 (amended): the digest of a frame holding a non-empty series has
    the seven keys every digest has and, exactly when a row of the
    forecast lies after the latest period, the three forecast keys after
    them; no other key.  [data_start] and [data_end] are the earliest and
    the latest period rendered as ['%Y-%m-%d'] text, [trend] is one of
    the two labels, and every other entry is a number; no entry is a date
    value. *)
Theorem summary_digest_fields (qs : series) (fc : list ForecastPoint)
        (d : DataFrame) (h : heap) :
  holds_series d qs ->
  qs <> [] ->
  exists stats first_day last_day,
    generate_summary_stats 0 (forecast_frame fc) (d :: h)
      = (Returned stats, d :: h)
    /\ Series.dmin (periods qs) = Some first_day
    /\ Series.dmax (periods qs) = Some last_day
    /\ lookup "data_start" stats = Some (VStr (strftime_Ymd first_day))
    /\ lookup "data_end" stats = Some (VStr (strftime_Ymd last_day))
    /\ (lookup "trend" stats = Some (VStr "increasing")
        \/ lookup "trend" stats = Some (VStr "decreasing"))
    /\ ((exists p, In p fc /\ date_ltb last_day (fp_ds p) = true) ->
        map fst stats = digest_keys)
    /\ ((forall p, In p fc -> date_ltb last_day (fp_ds p) = false) ->
        map fst stats = firstn 7 digest_keys)
    /\ (forall k v, lookup k stats = Some v ->
          In k digest_keys
          /\ (k <> "data_start" -> k <> "data_end" -> k <> "trend" ->
              is_number v))
    /\ (forall k v, lookup k stats = Some v -> ~ is_date_value v).
Proof.
  intros Hd Hne. destruct qs as [|q qs]; [congruence|].
  exists (summary_of (q :: qs) fc).
  exists (start_date (q :: qs)), (end_date (q :: qs)).
  split; [apply generate_summary_stats_run; assumption|].
  split; [reflexivity|]. split; [reflexivity|].
  assert (Hgen : forall k v, lookup k (summary_of (q :: qs) fc) = Some v ->
            In k digest_keys
            /\ (k <> "data_start" -> k <> "data_end" -> k <> "trend" ->
                is_number v)
            /\ ~ is_date_value v).
  { intros k v. rewrite summary_of_entries.
    destruct (future_points fc (end_date (q :: qs))) as [|p ps];
      cbn [summary_base lookup app];
      case_keys k; cbv iota; intros Hv; try discriminate;
      injection Hv as <-; simpl; intuition congruence. }
  split; [unfold summary_of; destruct (future_points _ _); reflexivity|].
  split; [unfold summary_of; destruct (future_points _ _); reflexivity|].
  split.
  { rewrite lookup_trend.
    destruct (first_count (q :: qs) <? last_count (q :: qs))%Z; auto. }
  split.
  { intros (p & Hin & Hp). rewrite summary_of_entries.
    destruct (future_points fc (end_date (q :: qs))) as [|p' ps] eqn:Hfut;
      [|reflexivity].
    exfalso.
    assert (Hf : In p (future_points fc (end_date (q :: qs))))
      by (apply filter_In; split; assumption).
    rewrite Hfut in Hf. exact Hf. }
  split.
  { intros Hnone. rewrite summary_of_entries.
    rewrite (no_future_points fc _ Hnone). reflexivity. }
  split; intros k v Hv; destruct (Hgen k v Hv) as (H1 & H2 & H3); auto.
Qed.

Lemma summary_digest_fields_witness :
  exists stats first_day last_day,
    generate_summary_stats 0 (forecast_frame example_forecast)
      [frame_of comparator_series]
      = (Returned stats, [frame_of comparator_series])
    /\ Series.dmin (periods comparator_series) = Some first_day
    /\ Series.dmax (periods comparator_series) = Some last_day
    /\ lookup "data_start" stats = Some (VStr (strftime_Ymd first_day))
    /\ lookup "data_end" stats = Some (VStr (strftime_Ymd last_day))
    /\ (lookup "trend" stats = Some (VStr "increasing")
        \/ lookup "trend" stats = Some (VStr "decreasing"))
    /\ ((exists p, In p example_forecast
                   /\ date_ltb last_day (fp_ds p) = true) ->
        map fst stats = digest_keys)
    /\ ((forall p, In p example_forecast ->
           date_ltb last_day (fp_ds p) = false) ->
        map fst stats = firstn 7 digest_keys)
    /\ (forall k v, lookup k stats = Some v ->
          In k digest_keys
          /\ (k <> "data_start" -> k <> "data_end" -> k <> "trend" ->
              is_number v))
    /\ (forall k v, lookup k stats = Some v -> ~ is_date_value v).
Proof.
  apply (summary_digest_fields comparator_series example_forecast
           (frame_of comparator_series) []).
  - apply frame_of_holds.
  - discriminate.
Defined.

(** ** Rounding of the returned metrics *)

Lemma recent_counts_nonempty (qs : series) : qs <> [] -> recent_counts qs <> [].
Proof.
  intros Hne. unfold recent_counts, Series.tail.
  destruct (4 <=? List.length qs)%nat eqn:E.
  - apply Nat.leb_le in E. intros Hnil.
    apply (f_equal (@List.length _)) in Hnil.
    rewrite length_skipn, counts_length in Hnil. simpl in Hnil. lia.
  - destruct qs; [congruence|discriminate].
Qed.

(** C10: for a frame holding a non-empty series of counts in range, every
    metric comes back rounded.  The digest's average is a decimal of two
    places nearest to the mean of the counts; its deviation is NaN on one
    period and otherwise a decimal of two places nearest to the square
    root of the sample variance; when a row of the forecast lies after the
    series the three forecast entries are there, each a decimal of one
    place nearest to the row's value; the comparator's recent average is a
    decimal of one place nearest to the mean of the last four counts (of
    all of them when there are fewer); and the totals and the peak are
    integers, the sum of the counts and the largest of them. *)
Theorem outputs_are_rounded (drug : string) (qs : series)
        (fc : list ForecastPoint) (d : DataFrame) (h : heap) :
  holds_series d qs ->
  qs <> [] ->
  counts_in_range qs ->
  exists stats row,
    generate_summary_stats 0 (forecast_frame fc) (d :: h)
      = (Returned stats, d :: h)
    /\ compare_drug_trends [(drug, 0%nat)] (d :: h) = (Returned [row], d :: h)
    /\ lookup "total_reports" stats = Some (VInt (Series.sum (counts qs)))
    /\ (exists average,
          lookup "avg_quarterly_reports" stats = Some (VFloat average)
          /\ rounds_to 2 (exact_mean (counts qs)) average)
    /\ (List.length qs = 1%nat ->
        lookup "std_quarterly_reports" stats = Some (VFloat FNaN))
    /\ ((2 <= List.length qs)%nat ->
        exists s deviation,
          is_sqrt_of (sample_variance (counts qs)) s
          /\ lookup "std_quarterly_reports" stats = Some (VFloat deviation)
          /\ rounds_to 2 s deviation)
    /\ (forall before p rest,
          fc = (before ++ p :: rest)%list ->
          Forall (fun p' => date_ltb (end_date qs) (fp_ds p') = false) before ->
          date_ltb (end_date qs) (fp_ds p) = true ->
          exists next upper lower,
            lookup "forecast_next_quarter" stats = Some (VFloat next)
            /\ lookup "forecast_upper_bound" stats = Some (VFloat upper)
            /\ lookup "forecast_lower_bound" stats = Some (VFloat lower)
            /\ is_rounding 1 (fp_yhat p) next
            /\ is_rounding 1 (fp_yhat_upper p) upper
            /\ is_rounding 1 (fp_yhat_lower p) lower)
    /\ lookup "total_reports" row = Some (VInt (Series.sum (counts qs)))
    /\ (exists recent,
          lookup "recent_avg_quarterly" row = Some (VFloat recent)
          /\ rounds_to 1 (exact_mean (recent_counts qs)) recent)
    /\ (exists peak,
          lookup "peak_reports" row = Some (VInt peak)
          /\ In peak (counts qs)
          /\ forall y, In y (counts qs) -> (y <= peak)%Z).
Proof.
  intros Hd Hne _.
  destruct (peak_index_spec qs Hne) as (Hp & Hmax & _).
  assert (Hcne : counts qs <> [])
    by (destruct qs; [congruence|discriminate]).
  exists (summary_of qs fc), (comparison_row drug qs (peak_index qs)).
  split; [apply generate_summary_stats_run; assumption|].
  split; [apply compare_drug_trends_run; assumption|].
  assert (Hbase : forall k v, lookup k (summary_base qs) = Some v ->
                    lookup k (summary_of qs fc) = Some v).
  { intros k v Hk. rewrite summary_of_entries.
    destruct (future_points fc (end_date qs));
      [exact Hk|apply lookup_app_found, Hk]. }
  split; [apply Hbase; reflexivity|].
  split.
  { exists (round (Series.mean (counts qs)) 2).
    split; [apply Hbase; reflexivity|].
    apply round_rounds_to; [lia|]. apply fval_mean, Hcne. }
  split.
  { intros H1. apply Hbase.
    destruct qs as [|q1 [|q2 qs]]; try discriminate H1. reflexivity. }
  split.
  { intros H2. rewrite <- counts_length in H2.
    destruct (fval_std (counts qs) H2) as (s & Hs & Hsqrt).
    exists s, (round (Series.std (counts qs)) 2).
    split; [exact Hsqrt|]. split; [apply Hbase; reflexivity|].
    apply round_rounds_to; [lia|exact Hs]. }
  split.
  { intros before p rest Hfc Hbefore Hfut.
    pose proof (future_points_first fc before rest p _ Hfc Hbefore Hfut) as Hf.
    destruct (forecast_entries_recorded qs fc _ p Hf) as (Hn & Hu & Hl).
    exists (round (fp_yhat p) 1), (round (fp_yhat_upper p) 1),
           (round (fp_yhat_lower p) 1).
    repeat (split; [assumption|]).
    repeat split; apply round_is_rounding; lia. }
  split; [reflexivity|].
  split.
  { exists (round (Series.mean (recent_counts qs)) 1).
    split; [reflexivity|].
    apply round_rounds_to; [lia|].
    apply fval_mean, recent_counts_nonempty, Hne. }
  exists (count_at qs (peak_index qs)).
  split; [reflexivity|]. split.
  - unfold count_at. apply nth_In. rewrite counts_length. exact Hp.
  - intros y Hy. apply (In_nth _ _ 0%Z) in Hy. destruct Hy as (j & Hj & <-).
    rewrite counts_length in Hj. apply Hmax, Hj.
Qed.

Lemma outputs_are_rounded_witness :
  exists stats row,
    generate_summary_stats 0 (forecast_frame example_forecast)
      [frame_of comparator_series]
      = (Returned stats, [frame_of comparator_series])
    /\ compare_drug_trends [("A", 0%nat)] [frame_of comparator_series]
       = (Returned [row], [frame_of comparator_series])
    /\ lookup "total_reports" stats
       = Some (VInt (Series.sum (counts comparator_series)))
    /\ (exists average,
          lookup "avg_quarterly_reports" stats = Some (VFloat average)
          /\ rounds_to 2 (exact_mean (counts comparator_series)) average)
    /\ (List.length comparator_series = 1%nat ->
        lookup "std_quarterly_reports" stats = Some (VFloat FNaN))
    /\ ((2 <= List.length comparator_series)%nat ->
        exists s deviation,
          is_sqrt_of (sample_variance (counts comparator_series)) s
          /\ lookup "std_quarterly_reports" stats = Some (VFloat deviation)
          /\ rounds_to 2 s deviation)
    /\ (forall before p rest,
          example_forecast = (before ++ p :: rest)%list ->
          Forall (fun p' => date_ltb (end_date comparator_series) (fp_ds p')
                            = false) before ->
          date_ltb (end_date comparator_series) (fp_ds p) = true ->
          exists next upper lower,
            lookup "forecast_next_quarter" stats = Some (VFloat next)
            /\ lookup "forecast_upper_bound" stats = Some (VFloat upper)
            /\ lookup "forecast_lower_bound" stats = Some (VFloat lower)
            /\ is_rounding 1 (fp_yhat p) next
            /\ is_rounding 1 (fp_yhat_upper p) upper
            /\ is_rounding 1 (fp_yhat_lower p) lower)
    /\ lookup "total_reports" row
       = Some (VInt (Series.sum (counts comparator_series)))
    /\ (exists recent,
          lookup "recent_avg_quarterly" row = Some (VFloat recent)
          /\ rounds_to 1 (exact_mean (recent_counts comparator_series)) recent)
    /\ (exists peak,
          lookup "peak_reports" row = Some (VInt peak)
          /\ In peak (counts comparator_series)
          /\ forall y, In y (counts comparator_series) -> (y <= peak)%Z).
Proof.
  apply (outputs_are_rounded "A" comparator_series example_forecast
           (frame_of comparator_series) []).
  - apply frame_of_holds.
  - discriminate.
  - unfold counts_in_range. split; [|split].
    + repeat constructor; simpl; lia.
    + simpl. lia.
    + reflexivity.
Defined.
